(** * Prompt version control and OCR text grouping: a shallow embedding

    Two Python programs are embedded here.

    - [PromptVC]: the class [PromptVersionController] of
      [bedrock_prompt_management_version_control_advanced.py]
      (enumeration of versions, rollback, promotion).
    - [Translate]: step 4 of [main_process_converse]
      ([fixed_main_process.py]) and [format_translation_document]
      ([utils.py]).

    Python values are modelled as the programs use them: a [str] is a
    sequence of Unicode code points, a [dict] of tags is a finite map, an
    exception is a value of [exn], and the remote services (boto3 clients,
    the clock, standard output) are an explicit world whose whole history
    of requests is threaded through every call. *)

From Stdlib Require Import ZArith NArith List Bool Lia String Ascii.
From stdpp Require Import base option list gmap.

Local Open Scope Z_scope.
Set Warnings "-register-all".

(** ** Python built-ins used by the two programs *)

Module Py.

(** A Python [str]: the list of its code points. *)
Abbreviation str := (list N).

(** The code points of an ASCII literal of the source. *)
Definition lit (s : string) : str :=
  map N_of_ascii (list_ascii_of_string s).

(** Exceptions that the embedded code raises, catches or lets through.
    [ClientError] carries [str(e)]; [OtherException] stands for every
    exception class that none of the handlers names. *)
Inductive exn : Type :=
| ClientError (message : str)
| JSONDecodeError
| KeyError
| IndexError
| TypeError
| OtherException (name : str).

(** [r = inl e]: the computation raised [e]; [inr v]: it returned [v]. *)
Abbreviation result A := (sum exn A).

(** [str.isspace] on one code point (the characters removed by
    [str.strip()] without argument). *)
Definition isspace (c : N) : bool :=
  ((9 <=? c) && (c <=? 13) || (28 <=? c) && (c <=? 32)
   || (c =? 133) || (c =? 160) || (c =? 5760)
   || (8192 <=? c) && (c <=? 8202)
   || (c =? 8232) || (c =? 8233) || (c =? 8239) || (c =? 8287)
   || (c =? 12288))%N.

Fixpoint lstrip (s : str) : str :=
  match s with
  | c :: s' => if isspace c then lstrip s' else s
  | [] => []
  end.

Definition rstrip (s : str) : str := rev (lstrip (rev s)).

(** [s.strip()] *)
Definition strip (s : str) : str := rstrip (lstrip s).

Definition str_eqb (a b : str) : bool := bool_decide (a = b).

(** [s.startswith(sub)] *)
Fixpoint startswith (sub s : str) : bool :=
  match sub, s with
  | [], _ => true
  | _ :: _, [] => false
  | a :: sub', b :: s' => (a =? b)%N && startswith sub' s'
  end.

(** Lowest index of an occurrence of [sub] in [s], counted from [pos],
    the index of the head of [s]. *)
Fixpoint find_aux (sub s : str) (pos : nat) : option nat :=
  if startswith sub s then Some pos
  else match s with
       | [] => None
       | _ :: s' => find_aux sub s' (S pos)
       end.

(** [s.find(sub, start)]: the lowest index [>= start] at which [sub]
    occurs in [s], or [-1]. A negative [start] counts from the end. *)
Definition find (s sub : str) (start : Z) : Z :=
  let len := Z.of_nat (length s) in
  let start' := if start <? 0 then Z.max 0 (start + len) else start in
  if len <? start' then -1
  else match find_aux sub (drop (Z.to_nat start') s) (Z.to_nat start') with
       | Some i => Z.of_nat i
       | None => -1
       end.

(** [sub in s] *)
Definition contains (sub s : str) : bool :=
  negb (find s sub 0 =? -1).

(** A slice bound as Python normalises it: a negative bound counts from
    the end, and the result is clamped to [0 .. len]. *)
Definition clamp (len : nat) (i : Z) : nat :=
  let i' := if i <? 0 then i + Z.of_nat len else i in
  Z.to_nat (Z.min (Z.max 0 i') (Z.of_nat len)).

(** [s[a:b]], [s[a:]] and [s[:b]] *)
Definition slice (s : str) (a b : Z) : str :=
  let lo := clamp (length s) a in
  let hi := clamp (length s) b in
  take (hi - lo) (drop lo s).
Definition slice_from (s : str) (a : Z) : str :=
  drop (clamp (length s) a) s.
Definition slice_to (s : str) (b : Z) : str :=
  take (clamp (length s) b) s.

(** Decimal digits of a natural number, most significant first. *)
Fixpoint digits_aux (fuel n : nat) (acc : str) : str :=
  match fuel with
  | O => acc
  | S fuel' =>
      let acc' := (48 + N.of_nat (n mod 10))%N :: acc in
      if (n <? 10)%nat then acc' else digits_aux fuel' (n / 10) acc'
  end.

(** [str(n)] for an [int] [n >= 0] *)
Definition str_of_nat (n : nat) : str := digits_aux (S n) n [].

(** [f"{n:03d}"] for an [int] [n >= 0]: zero-padded to width 3. *)
Definition format_03d (n : nat) : str :=
  let d := str_of_nat n in
  replicate (3 - length d) 48%N ++ d.

(** [sep.join(parts)] for a list of [str] *)
Fixpoint join (sep : str) (parts : list str) : str :=
  match parts with
  | [] => []
  | [p] => p
  | p :: rest => p ++ sep ++ join sep rest
  end.

End Py.

Import Py.

(** ** The prompt version controller *)

Module PromptVC.

(** A tag dictionary ([Dict[str, str]]). *)
Abbreviation Tags := (gmap str str).

(** A dict display [{**base, k1: v1, ..., kn: vn}]: the items are stored
    from left to right, a later key replacing an earlier one. *)
Definition dict_of (base : Tags) (items : list (str * str)) : Tags :=
  foldl (fun d kv => <[kv.1 := kv.2]> d) base items.

Record EnvConfig : Type := {
  parameter_store_path : str;
  env_description : str;
  default_tags : Tags
}.

Definition ENVIRONMENT_CONFIG : gmap str EnvConfig :=
  <[lit "prod" := {|
      parameter_store_path := lit "/prompts/text2sql/prod/current";
      env_description := lit "Production Environment";
      default_tags := dict_of ∅ [(lit "Environment", lit "PROD");
                                 (lit "Status", lit "ACTIVE")] |}]>
  (<[lit "dev" := {|
      parameter_store_path := lit "/prompts/text2sql/dev/current";
      env_description := lit "Development Environment";
      default_tags := dict_of ∅ [(lit "Environment", lit "DEV");
                                 (lit "Status", lit "TESTING")] |}]> ∅).

(** [ENVIRONMENT_CONFIG.get(env, {}).get('default_tags', {})] *)
Definition base_tags_of (env : str) : Tags :=
  match ENVIRONMENT_CONFIG !! env with
  | Some c => default_tags c
  | None => ∅
  end.

(** *** Responses of the prompt service *)

(** What [variant['templateConfiguration']['text']] holds. *)
Inductive TextSlot : Type :=
| NoTextConfiguration
    (* the path ['templateConfiguration']['text'] is missing *)
| TextConfiguration (text : option str).
    (* the inner dict; [text = None] when it has no key 'text' *)

(** A variant of a prompt. [otherFields] are the fields that the
    controller copies without looking at them. *)
Record Variant : Type := {
  templateText : TextSlot;
  otherFields : list (str * str)
}.

(** The dict returned by [get_prompt]; a field is [None] when its key
    is absent. *)
Record Prompt : Type := {
  arn : option str;
  name : option str;
  description : option str;
  variants : option (list Variant)
}.

(** The dict returned by [create_prompt_version]. *)
Record VersionResponse : Type := {
  version : option str;
  version_arn : option str
}.

(** [prompt['variants'][0]['templateConfiguration']['text']['text']] *)
Definition first_text (p : Prompt) : result str :=
  match variants p with
  | None => inl KeyError
  | Some [] => inl IndexError
  | Some (v :: _) =>
      match templateText v with
      | TextConfiguration (Some t) => inr t
      | _ => inl KeyError
      end
  end.

(** [updated_variant = variant.copy()] followed by
    [updated_variant['templateConfiguration']['text']['text'] = content].
    The copy is shallow, so the assignment also reaches the dict held by
    the fetched prompt; no function reads that dict again afterwards. *)
Definition set_text (content : str) (v : Variant) : result Variant :=
  match templateText v with
  | NoTextConfiguration => inl KeyError
  | TextConfiguration _ =>
      inr {| templateText := TextConfiguration (Some content);
             otherFields := otherFields v |}
  end.

(** The loop that builds [updated_variants]. *)
Fixpoint update_variants (content : str) (vs : list Variant)
  : result (list Variant) :=
  match vs with
  | [] => inr []
  | v :: vs' =>
      match set_text content v with
      | inl e => inl e
      | inr v' =>
          match update_variants content vs' with
          | inl e => inl e
          | inr r => inr (v' :: r)
          end
      end
  end.

(** [f"{x}"] for a value that is a [str] or [None]. *)
Definition format_opt (x : option str) : str :=
  match x with Some s => s | None => lit "None" end.

(** [text[:100] + "..."] *)
Definition preview (text : str) : str := slice_to text 100 ++ lit "...".

(** *** The world: service calls, clock and standard output *)

(** One constructor per [print] statement of the three methods (the
    decoration of the printed line is left out, the interpolated values
    are kept). *)
Inductive Message : Type :=
| ErrorListingVersions (e : exn)
| SuccessfullyRolledBack (target_version : str)
| NewRollbackVersion (v : option str)
| RollbackReasonLine (reason : str)
| ErrorDuringRollback (e : exn)
| StartingPromotion (from_env to_env : str)
| SourceContentLine (shown : str)
| TargetPromptIdFound (to_env target_prompt_id : str)
| CouldNotGetTargetPromptId (e : exn)
| CurrentTargetContent (shown : str)
| CouldNotGetTargetPrompt (e : exn)
| UpdatedDraft (to_env from_env : str)
| SuccessfullyPromoted (from_env to_env : str)
| SourcePromptIdLine (prompt_identifier : str)
| TargetPromptIdLine (target_prompt_id : str)
| NewVersionLine (to_env : str) (new_version : option str) (version_tag : str)
| AppliedTags (tags : Tags)
| VerificationSuccessful (to_env : str)
| VerificationWarning
| ErrorDuringPromotion (e : exn)
| Traceback (e : exn).

(** Everything a method does to the outside world, in order. *)
Inductive Event : Type :=
| GetPrompt (promptIdentifier : str)
| UpdatePrompt (promptIdentifier : str) (name description : option str)
    (variants : list Variant)
| CreatePromptVersion (promptIdentifier description : str)
| TagResource (resourceArn : option str) (tags : Tags)
| ListTagsForResource (resourceArn : str)
| GetParameter (Name : str) (WithDecryption : bool)
| Strftime (format : str)
| Printed (m : Message).

(** The services. Each answer may depend on everything that happened
    before the call (the history), which covers any stateful service. *)
Record Backend : Type := {
  get_prompt : list Event -> str -> result Prompt;
  update_prompt :
    list Event -> str -> option str -> option str -> list Variant ->
    result unit;
  create_prompt_version : list Event -> str -> str -> result VersionResponse;
  tag_resource : list Event -> option str -> Tags -> result unit;
  (* the answer of list_tags_for_resource: [Some t] when the response
     has a key 'tags' *)
  list_tags_for_resource : list Event -> str -> result (option Tags);
  (* response['Parameter']['Value'], [None] when the path is missing *)
  get_parameter : list Event -> str -> bool -> result (option str);
  (* datetime.now().strftime(format) *)
  strftime : list Event -> str -> str
}.

(** A computation: from the history so far to a result and the history
    extended by the events of the computation. *)
Definition M (A : Type) : Type := list Event -> result A * list Event.

#[global] Instance M_ret : MRet M := fun A a h => (inr a, h).
#[global] Instance M_bind : MBind M := fun A B k m h =>
  match m h with
  | (inr a, h') => k a h'
  | (inl e, h') => (inl e, h')
  end.

(** A pure expression that may raise. *)
Definition lift {A} (r : result A) : M A := fun h => (r, h).

(** [try: body except ClientError as e: handler] *)
Definition try_except_ClientError {A} (body : M A) (handler : exn -> M A)
  : M A := fun h =>
  match body h with
  | (inl (ClientError msg), h') => handler (ClientError msg) h'
  | r => r
  end.

(** [try: body except: handler]: the bare handler catches whatever is
    raised. *)
Definition try_except {A} (body : M A) (handler : exn -> M A) : M A :=
  fun h =>
  match body h with
  | (inl e, h') => handler e h'
  | r => r
  end.

(** [isinstance(e, Exception)]. The classes of Python and of its
    standard library that derive from [BaseException] and not from
    [Exception] are the ones listed; every class that [exn] names with a
    constructor of its own derives from [Exception]. *)
Definition is_Exception (e : exn) : bool :=
  match e with
  | OtherException name =>
      negb (bool_decide
              (name ∈ [ lit "BaseException"; lit "KeyboardInterrupt";
                        lit "SystemExit"; lit "GeneratorExit";
                        lit "CancelledError"; lit "BaseExceptionGroup" ]))
  | _ => true
  end.

(** [try: body except Exception as e: handler]: an exception that is
    not an [Exception] (a [KeyboardInterrupt], a [SystemExit]) passes the
    handler. *)
Definition try_except_Exception {A} (body : M A) (handler : exn -> M A)
  : M A := fun h =>
  match body h with
  | (inl e, h') => if is_Exception e then handler e h' else (inl e, h')
  | r => r
  end.

Definition print (m : Message) : M unit := fun h => (inr tt, h ++ [Printed m]).

(** *** The methods of [PromptVersionController] *)

Section Controller.

(** The two boto3 clients with the clock, and Python's [str.upper]. *)
Variable B : Backend.
Variable upper : str -> str.

Definition call_get_prompt (promptIdentifier : str) : M Prompt :=
  fun h => (get_prompt B h promptIdentifier, h ++ [GetPrompt promptIdentifier]).

Definition call_update_prompt (promptIdentifier : str)
    (name description : option str) (variants : list Variant) : M unit :=
  fun h => (update_prompt B h promptIdentifier name description variants,
            h ++ [UpdatePrompt promptIdentifier name description variants]).

Definition call_create_prompt_version (promptIdentifier description : str)
  : M VersionResponse :=
  fun h => (create_prompt_version B h promptIdentifier description,
            h ++ [CreatePromptVersion promptIdentifier description]).

Definition call_tag_resource (resourceArn : option str) (tags : Tags)
  : M unit :=
  fun h => (tag_resource B h resourceArn tags,
            h ++ [TagResource resourceArn tags]).

Definition call_list_tags_for_resource (resourceArn : str)
  : M (option Tags) :=
  fun h => (list_tags_for_resource B h resourceArn,
            h ++ [ListTagsForResource resourceArn]).

Definition call_get_parameter (Name : str) (WithDecryption : bool)
  : M (option str) :=
  fun h => (get_parameter B h Name WithDecryption,
            h ++ [GetParameter Name WithDecryption]).

Definition now_strftime (format : str) : M str :=
  fun h => (inr (strftime B h format), h ++ [Strftime format]).

(** **** [list_versions_with_tags] *)

(** One entry of the returned list (keys 'version', 'arn', 'name',
    'content', 'tags'). *)
Record Summary : Type := {
  sum_version : str;
  sum_arn : option str;
  sum_name : option str;
  sum_content : str;
  sum_tags : Tags
}.

Definition max_attempts : nat := 20.

(** [f"{base_arn}:{version_num}"] *)
Definition version_arn_of (base_arn : option str) (version_num : nat) : str :=
  format_opt base_arn ++ lit ":" ++ str_of_nat version_num.

(** The inner [try] of the loop: the lookup of the tags. *)
Definition lookup_tags (version_arn : str) : M Tags :=
  try_except
    (tags_response ← call_list_tags_for_resource version_arn;
     mret (default ∅ tags_response))
    (fun _ => mret ∅).

(** The body of the [while] loop for one [version_num]; the result is
    the list [versions] after the iteration. Either way the loop goes on
    with [version_num + 1]. *)
Definition probe_version (base_arn : option str) (version_num : nat)
    (versions : list Summary) : M (list Summary) :=
  let version_arn := version_arn_of base_arn version_num in
  try_except_ClientError
    (versioned_prompt ← call_get_prompt version_arn;
     tags ← lookup_tags version_arn;
     text ← lift (first_text versioned_prompt);
     mret (versions ++ [ {| sum_version := str_of_nat version_num;
                            sum_arn := Some version_arn;
                            sum_name := name versioned_prompt;
                            sum_content := preview text;
                            sum_tags := tags |} ]))
    (fun e =>
       match e with
       | ClientError message =>
           if contains (lit "ResourceNotFoundException") message
              || contains (lit "ValidationException") message
           then mret versions
           else mret versions
       | _ => mret versions
       end).

(** [remaining] iterations of the loop, starting at [version_num]. *)
Fixpoint probe_loop (base_arn : option str) (remaining version_num : nat)
    (versions : list Summary) : M (list Summary) :=
  match remaining with
  | O => mret versions
  | S remaining' =>
      versions' ← probe_version base_arn version_num versions;
      probe_loop base_arn remaining' (S version_num) versions'
  end.

(** [while version_num <= max_attempts: ...]; see [while_versions_unfold]
    for the equation of the loop. *)
Definition while_versions (base_arn : option str) (version_num : nat)
    (versions : list Summary) : M (list Summary) :=
  probe_loop base_arn (S max_attempts - version_num) version_num versions.

Definition list_versions_with_tags (prompt_identifier : str)
  : M (list Summary) :=
  try_except_ClientError
    (draft_prompt ← call_get_prompt prompt_identifier;
     let base_arn := arn draft_prompt in
     text ← lift (first_text draft_prompt);
     let versions := [ {| sum_version := lit "DRAFT";
                          sum_arn := base_arn;
                          sum_name := name draft_prompt;
                          sum_content := preview text;
                          sum_tags := ∅ |} ] in
     while_versions base_arn 1 versions)
    (fun e => print (ErrorListingVersions e);; mret []).

(** **** [rollback_to_version] *)

(** The dict [rollback_tags]. *)
Definition rollback_tags (self_environment target_version rollback_date
    rollback_reason : str) : Tags :=
  dict_of ∅ [ (lit "Environment", lit "ROLLBACK");
              (lit "RollbackFrom", lit "DRAFT");
              (lit "RollbackTo", target_version);
              (lit "RollbackDate", rollback_date);
              (lit "RollbackReason", rollback_reason);
              (lit "Status", lit "ROLLBACK_COMPLETE");
              (lit "SourceEnvironment", upper self_environment) ].

Definition rollback_to_version (self_environment prompt_identifier
    target_version rollback_reason : str) : M bool :=
  try_except_ClientError
    (current_prompt ← call_get_prompt prompt_identifier;
     let base_arn := arn current_prompt in
     target_prompt ←
       (if str_eqb target_version (lit "DRAFT") then mret current_prompt
        else call_get_prompt
               (format_opt base_arn ++ lit ":" ++ target_version));
     target_content ← lift (first_text target_prompt);
     updated_variants ←
       lift (update_variants target_content
               (default [] (variants current_prompt)));
     call_update_prompt prompt_identifier (name current_prompt)
       (Some (lit "Rollback to version " ++ target_version ++ lit ": "
              ++ rollback_reason))
       updated_variants;;
     rollback_version ←
       call_create_prompt_version prompt_identifier
         (lit "ROLLBACK to v" ++ target_version ++ lit " - "
          ++ rollback_reason);
     let rollback_arn := version_arn rollback_version in
     rollback_date ← now_strftime (lit "%Y-%m-%d");
     call_tag_resource rollback_arn
       (rollback_tags self_environment target_version rollback_date
          rollback_reason);;
     print (SuccessfullyRolledBack target_version);;
     print (NewRollbackVersion (version rollback_version));;
     print (RollbackReasonLine rollback_reason);;
     mret true)
    (fun e => print (ErrorDuringRollback e);; mret false).

(** **** [promote_version] *)

(** The dict [promotion_tags]. *)
Definition promotion_tags (prompt_identifier from_env to_env version_tag
    promoted_date promoted_time : str) : Tags :=
  dict_of (base_tags_of to_env)
    [ (lit "Version", version_tag);
      (lit "PromotedFrom", upper from_env);
      (lit "PromotedDate", promoted_date);
      (lit "PromotedTime", promoted_time);
      (lit "SourcePromptId", prompt_identifier);
      (lit "PromotionType", lit "ENVIRONMENT_PROMOTION") ].

(** Steps 1 to 6. The result is [None] after one of the two early
    [return False], and otherwise the source content with the
    identifier of the target prompt. *)
Definition promote_steps_1_6 (prompt_identifier from_env to_env
    version_tag : str) : M (option (str * str)) :=
  print (StartingPromotion (upper from_env) (upper to_env));;
  (* 1 *)
  source_prompt ← call_get_prompt prompt_identifier;
  source_content ← lift (first_text source_prompt);
  print (SourceContentLine (preview source_content));;
  (* 2 *)
  target_param_path ←
    lift (match ENVIRONMENT_CONFIG !! to_env with
          | Some c => inr (parameter_store_path c)
          | None => inl KeyError
          end);
  found ←
    try_except_ClientError
      (target_response ← call_get_parameter target_param_path true;
       target_prompt_id ←
         lift (match target_response with
               | Some v => inr v
               | None => inl KeyError
               end);
       print (TargetPromptIdFound (upper to_env) target_prompt_id);;
       mret (Some target_prompt_id))
      (fun e => print (CouldNotGetTargetPromptId e);; mret None);
  match found with
  | None => mret None
  | Some target_prompt_id =>
      (* 3 *)
      fetched ←
        try_except_ClientError
          (target_prompt ← call_get_prompt target_prompt_id;
           shown ← lift (first_text target_prompt);
           print (CurrentTargetContent (preview shown));;
           mret (Some target_prompt))
          (fun e => print (CouldNotGetTargetPrompt e);; mret None);
      match fetched with
      | None => mret None
      | Some target_prompt =>
          (* 4 *)
          updated_variants ←
            lift (update_variants source_content
                    (default [] (variants target_prompt)));
          call_update_prompt target_prompt_id (name target_prompt)
            (Some (lit "Promoted from " ++ upper from_env ++ lit " - "
                   ++ version_tag))
            updated_variants;;
          print (UpdatedDraft (upper to_env) (upper from_env));;
          (* 5 *)
          version_response ←
            call_create_prompt_version target_prompt_id
              (lit "Promoted from " ++ upper from_env ++ lit " to "
               ++ upper to_env ++ lit " - " ++ version_tag);
          let new_version := version version_response in
          let new_arn := version_arn version_response in
          (* 6 *)
          promoted_date ← now_strftime (lit "%Y-%m-%d");
          promoted_time ← now_strftime (lit "%H:%M:%S");
          let tags := promotion_tags prompt_identifier from_env to_env
                        version_tag promoted_date promoted_time in
          call_tag_resource new_arn tags;;
          print (SuccessfullyPromoted (upper from_env) (upper to_env));;
          print (SourcePromptIdLine prompt_identifier);;
          print (TargetPromptIdLine target_prompt_id);;
          print (NewVersionLine (upper to_env) new_version version_tag);;
          print (AppliedTags tags);;
          mret (Some (source_content, target_prompt_id))
      end
  end.

(** Step 7: the verification after the promotion. *)
Definition promote_step_7 (to_env source_content target_prompt_id : str)
  : M bool :=
  verification_prompt ← call_get_prompt target_prompt_id;
  verification_content ← lift (first_text verification_prompt);
  if str_eqb verification_content source_content
  then print (VerificationSuccessful (upper to_env));; mret true
  else print VerificationWarning;; mret true.

Definition promote_version (prompt_identifier from_env to_env
    version_tag : str) : M bool :=
  try_except_Exception
    (reached ← promote_steps_1_6 prompt_identifier from_env to_env
                 version_tag;
     match reached with
     | None => mret false
     | Some (source_content, target_prompt_id) =>
         promote_step_7 to_env source_content target_prompt_id
     end)
    (fun e => print (ErrorDuringPromotion e);; print (Traceback e);;
              mret false).

End Controller.

End PromptVC.

(** ** Test doubles for the services *)

Module Mock.
Import PromptVC.

Definition not_found : exn :=
  ClientError (lit "ResourceNotFoundException: no such prompt").

(** A prompt with a single text variant. *)
Definition prompt_with (prompt_arn : str) (text : str) : Prompt :=
  {| arn := Some prompt_arn;
     name := Some (lit "text2sql");
     description := None;
     variants := Some [ {| templateText := TextConfiguration (Some text);
                           otherFields := [] |} ] |}.

(** A service whose prompts never change: [store] lists the identifiers
    that exist, [params] the parameter store. Updates, new versions and
    tagging succeed; tags are those of [tagstore], a lookup of an
    identifier that is not there fails. *)
Definition static_backend (store : list (str * Prompt))
    (tagstore : list (str * Tags)) (params : list (str * str)) : Backend :=
  {| get_prompt := fun _ ident =>
       match list_find (fun kv => bool_decide (kv.1 = ident)) store with
       | Some (_, kv) => inr kv.2
       | None => inl not_found
       end;
     update_prompt := fun _ _ _ _ _ => inr tt;
     create_prompt_version := fun _ ident _ =>
       inr {| version := Some (lit "1");
              version_arn := Some (ident ++ lit ":1") |};
     tag_resource := fun _ _ _ => inr tt;
     list_tags_for_resource := fun _ ident =>
       match list_find (fun kv => bool_decide (kv.1 = ident)) tagstore with
       | Some (_, kv) => inr (Some kv.2)
       | None => inl (OtherException (lit "AccessDeniedException"))
       end;
     get_parameter := fun _ key _ =>
       match list_find (fun kv => bool_decide (kv.1 = key)) params with
       | Some (_, kv) => inr (Some kv.2)
       | None => inl (ClientError (lit "ParameterNotFound"))
       end;
     strftime := fun _ fmt =>
       if str_eqb fmt (lit "%Y-%m-%d") then lit "2025-01-31"
       else lit "12:00:00" |}.

(** [str.upper] on ASCII text, enough for the environment names. *)
Definition ascii_upper (s : str) : str :=
  map (fun c => if ((97 <=? c) && (c <=? 122))%N then (c - 32)%N else c) s.

End Mock.

(** ** The OCR text grouping pipeline *)

Module Translate.

(** The Python values that [json.loads] returns and that the pipeline
    passes on. A [float] is kept as the literal it was read from. A dict
    is the list of its items in insertion order, with distinct keys. *)
Inductive PyVal : Type :=
| PNone
| PBool (b : bool)
| PInt (z : Z)
| PFloat (literal : str)
| PStr (s : str)
| PList (l : list PyVal)
| PDict (d : list (str * PyVal)).

(** [d.get(key)] on the items of a dict *)
Fixpoint dict_get (d : list (str * PyVal)) (key : str) : option PyVal :=
  match d with
  | [] => None
  | (k, v) :: d' => if str_eqb k key then Some v else dict_get d' key
  end.

(** [d[key] = v] *)
Fixpoint dict_set (d : list (str * PyVal)) (key : str) (v : PyVal)
  : list (str * PyVal) :=
  match d with
  | [] => [(key, v)]
  | (k, v0) :: d' =>
      if str_eqb k key then (k, v) :: d' else (k, v0) :: dict_set d' key v
  end.

Definition quote : N := 34%N.
Definition newline : str := [10%N].

(** The fence markers of the source. *)
Definition json_fence : str := lit "```json".
Definition fence : str := lit "```".

(** The placeholder text for an empty reply. *)
Definition no_response : str := [51025; 45813; 32; 50630; 51020]%N.

Definition general_group (texts : list PyVal) : PyVal :=
  PDict [(lit "category", PStr (lit "General")); (lit "texts", PList texts)].

(** [{"category": f"Group {i+1}", "texts": group}] *)
Definition numbered_group (i : nat) (group : PyVal) : PyVal :=
  PDict [(lit "category", PStr (lit "Group " ++ str_of_nat (i + 1)));
         (lit "texts", group)].

(** The text handed to [json.loads] (the variable [json_text]). *)
Definition json_text_of (claude_response : str) : str :=
  if contains json_fence claude_response then
    let json_start := find claude_response json_fence 0 + 7 in
    let json_end := find claude_response fence json_start in
    if negb (json_end =? -1)
    then strip (slice claude_response json_start json_end)
    else strip (slice_from claude_response json_start)
  else if contains fence claude_response then
    let json_start := find claude_response fence 0 + 3 in
    let json_end := find claude_response fence json_start in
    if negb (json_end =? -1)
    then strip (slice claude_response json_start json_end)
    else strip (slice_from claude_response json_start)
  else strip claude_response.

(** One row of the document, as the items of the dict that is appended
    to [translation_data]. *)
Abbreviation Row := (list (str * PyVal)).

Section Pipeline.

(** Python's [json.loads] and [str] on a parsed value. *)
Variable json_loads : str -> result PyVal.
Variable py_str : PyVal -> str.

(** [f"{v}"] *)
Definition format_value (v : PyVal) : str :=
  match v with
  | PStr s => s
  | _ => py_str v
  end.

(** Step 4 of [main_process_converse]: from the reply of the model
    ([None] when there is none) to [grouped_texts]. An exception other
    than [JSONDecodeError] leaves the step. *)
Definition extract_groups (claude_response : option str) : result PyVal :=
  match claude_response with
  | None => inr (PList [general_group [PStr no_response]])
  | Some reply =>
      if str_eqb reply [] || str_eqb (strip reply) []
      then inr (PList [general_group [PStr no_response]])
      else
        match json_loads (json_text_of reply) with
        | inl JSONDecodeError => inr (PList [general_group [PStr reply]])
        | inl e => inl e
        | inr (PList parsed_result) =>
            inr (PList (imap numbered_group parsed_result))
        | inr (PDict parsed_result) =>
            match dict_get parsed_result (lit "groups") with
            | Some groups => inr groups
            | None =>
                inr (PList [general_group
                              [PStr (py_str (PDict parsed_result))]])
            end
        | inr parsed_result =>
            inr (PList [general_group [PStr (py_str parsed_result)]])
        end
  end.

(** **** [format_translation_document] *)

Fixpoint all_str (l : list PyVal) : option (list str) :=
  match l with
  | [] => Some []
  | PStr s :: l' =>
      match all_str l' with Some r => Some (s :: r) | None => None end
  | _ :: _ => None
  end.

(** [sep.join(v)]: [v] is iterated; every item has to be a [str]. *)
Definition py_join (sep : str) (v : PyVal) : result str :=
  match v with
  | PList l =>
      match all_str l with
      | Some parts => inr (join sep parts)
      | None => inl TypeError
      end
  | PStr s => inr (join sep (map (fun c => [c]) s))
  | PDict d => inr (join sep (map fst d))
  | _ => inl TypeError
  end.

(** [group_text] for a group that is a dict *)
Definition dict_group_text (group : list (str * PyVal)) : result str :=
  let group_text :=
    match dict_get group (lit "category") with
    | Some c => lit "[" ++ format_value c ++ lit "]" ++ newline
    | None => []
    end in
  match dict_get group (lit "texts") with
  | Some texts =>
      match py_join newline texts with
      | inr joined => inr (group_text ++ joined)
      | inl e => inl e
      end
  | None =>
      match dict_get group (lit "content") with
      | Some (PStr content) => inr (group_text ++ content)
      | Some _ => inl TypeError
      | None => inr group_text
      end
  end.

(** [group_text] of the [i]-th group *)
Definition group_text_of (group : PyVal) : result str :=
  match group with
  | PDict d => dict_group_text d
  | PStr s => inr s
  | _ => inr (py_str group)
  end.

(** [group.get(key, default)] for a dict, [default] for any other value *)
Definition field_of (group : PyVal) (key : str) (fallback : PyVal) : PyVal :=
  match group with
  | PDict d => default fallback (dict_get d key)
  | _ => fallback
  end.

Definition make_row (source_language target_language : str) (i : nat)
    (group : PyVal) (group_text : str) : Row :=
  [ (lit "ID", PStr (lit "T" ++ format_03d i));
    (lit "Category",
       field_of group (lit "category") (PStr (lit "Group_" ++ str_of_nat i)));
    (lit "Priority", field_of group (lit "priority") (PStr (lit "medium")));
    (lit "Location", field_of group (lit "location") (PStr []));
    (lit "Description", field_of group (lit "description") (PStr []));
    (lit "Original_Text_" ++ source_language, PStr (strip group_text));
    (lit "Translated_Text_" ++ target_language, PStr []);
    (lit "Notes", PStr []);
    (lit "Status", PStr (lit "Pending")) ].

(** The loop [for i, group in enumerate(grouped_texts, 1)], from index
    [i] on, with the rows collected so far. *)
Fixpoint format_rows (source_language target_language : str) (i : nat)
    (groups : list PyVal) (translation_data : list Row)
  : result (list Row) :=
  match groups with
  | [] => inr translation_data
  | group :: rest =>
      match group_text_of group with
      | inl e => inl e
      | inr group_text =>
          format_rows source_language target_language (S i) rest
            (if negb (str_eqb (strip group_text) [])
             then translation_data
                  ++ [make_row source_language target_language i group
                        group_text]
             else translation_data)
      end
  end.

(** The rows of the data frame returned by
    [format_translation_document]: [pd.DataFrame(translation_data)] has
    one row per element of [translation_data]. *)
Definition format_translation_document (grouped_texts : list PyVal)
    (source_language target_language : str) : result (list Row) :=
  format_rows source_language target_language 1 grouped_texts [].


End Pipeline.

(** *** A reference [json.loads]

    The grammar of Python's [json] decoder with its default settings:
    the four whitespace characters, [null], [true], [false], [NaN] and
    the infinities, numbers, strings with their escapes, arrays and
    objects (a repeated key keeps its first position and its last
    value). Anything else is a [JSONDecodeError]. The general theorems
    below hold for every [json_loads]; this one evaluates the pipeline
    on concrete replies. *)

Module Ref.

Definition is_ws (c : N) : bool :=
  ((c =? 32) || (c =? 9) || (c =? 10) || (c =? 13))%N.

Fixpoint skip_ws (s : str) : str :=
  match s with
  | c :: s' => if is_ws c then skip_ws s' else s
  | [] => []
  end.

Definition is_digit (c : N) : bool := ((48 <=? c) && (c <=? 57))%N.

Fixpoint span_digits (s : str) : str * str :=
  match s with
  | c :: s' =>
      if is_digit c then let (ds, r) := span_digits s' in (c :: ds, r)
      else ([], s)
  | [] => ([], [])
  end.

Definition int_of_digits (ds : str) : Z :=
  foldl (fun acc c => 10 * acc + Z.of_N (c - 48)) 0 ds.

(** A number: an optional minus sign, then 0 or digits not starting
    with 0, then optionally a dot with digits, then optionally an
    exponent. Without fraction and exponent it is an [int]. *)
Definition parse_number (s : str) : option (PyVal * str) :=
  let (sign, s1) := match s with
                    | 45%N :: r => ([45%N], r)
                    | _ => ([], s)
                    end in
  let int_part :=
    match s1 with
    | 48%N :: r => Some ([48%N], r)
    | c :: _ => if is_digit c then Some (span_digits s1) else None
    | [] => None
    end in
  match int_part with
  | None => None
  | Some (ds, s2) =>
      let (frac, s3) :=
        match s2 with
        | 46%N :: r =>
            let (fs, r') := span_digits r in
            match fs with [] => ([], s2) | _ => (46%N :: fs, r') end
        | _ => ([], s2)
        end in
      let (expo, s4) :=
        match s3 with
        | e :: r =>
            if ((e =? 101) || (e =? 69))%N then
              let (sg, r1) := match r with
                              | c :: r0 =>
                                  if ((c =? 43) || (c =? 45))%N
                                  then ([c], r0) else ([], r)
                              | [] => ([], r)
                              end in
              let (es, r2) := span_digits r1 in
              match es with [] => ([], s3) | _ => (e :: sg ++ es, r2) end
            else ([], s3)
        | [] => ([], s3)
        end in
      match frac, expo with
      | [], [] =>
          Some (PInt (match sign with
                      | [] => int_of_digits ds
                      | _ => - int_of_digits ds
                      end), s4)
      | _, _ => Some (PFloat (sign ++ ds ++ frac ++ expo), s4)
      end
  end.

Definition hex_digit (c : N) : option N :=
  if is_digit c then Some (c - 48)%N
  else if ((97 <=? c) && (c <=? 102))%N then Some (c - 87)%N
  else if ((65 <=? c) && (c <=? 70))%N then Some (c - 55)%N
  else None.

Definition hex4 (a b c d : N) : option N :=
  match hex_digit a, hex_digit b, hex_digit c, hex_digit d with
  | Some x, Some y, Some z, Some w => Some (((x * 16 + y) * 16 + z) * 16 + w)%N
  | _, _, _, _ => None
  end.

(** The characters of a string after its opening quote, up to the
    closing quote. *)
Fixpoint parse_string (s acc : str) : option (str * str) :=
  match s with
  | [] => None
  | 34%N :: r => Some (rev acc, r)
  | 92%N :: 117%N :: a :: b :: c :: d :: r =>
      match hex4 a b c d with
      | None => None
      | Some hi =>
          match r with
          | 92%N :: 117%N :: a' :: b' :: c' :: d' :: r' =>
              match hex4 a' b' c' d' with
              | Some lo =>
                  if ((55296 <=? hi) && (hi <=? 56319)
                      && (56320 <=? lo) && (lo <=? 57343))%N
                  then parse_string r'
                         ((65536 + (hi - 55296) * 1024 + (lo - 56320))%N
                          :: acc)
                  else parse_string r (hi :: acc)
              | None => parse_string r (hi :: acc)
              end
          | _ => parse_string r (hi :: acc)
          end
      end
  | 92%N :: e :: r =>
      let plain (c : N) := parse_string r (c :: acc) in
      if (e =? 34)%N then plain 34%N
      else if (e =? 92)%N then plain 92%N
      else if (e =? 47)%N then plain 47%N
      else if (e =? 98)%N then plain 8%N
      else if (e =? 102)%N then plain 12%N
      else if (e =? 110)%N then plain 10%N
      else if (e =? 114)%N then plain 13%N
      else if (e =? 116)%N then plain 9%N
      else None
  | c :: r => if (c <? 32)%N then None else parse_string r (c :: acc)
  end.

(** [parse_value] reads one value at the head of [s]; [parse_items] and
    [parse_members] read the rest of an array and of an object, the
    first element being at the head of [s]. *)
Fixpoint parse_value (fuel : nat) (s : str) : option (PyVal * str) :=
  match fuel with
  | O => None
  | S fuel' =>
      match s with
      | 34%N :: r =>
          match parse_string r [] with
          | Some (t, r') => Some (PStr t, r')
          | None => None
          end
      | 91%N :: r =>
          match skip_ws r with
          | 93%N :: r' => Some (PList [], r')
          | r' => parse_items fuel' r' []
          end
      | 123%N :: r =>
          match skip_ws r with
          | 125%N :: r' => Some (PDict [], r')
          | r' => parse_members fuel' r' []
          end
      | 110%N :: 117%N :: 108%N :: 108%N :: r => Some (PNone, r)
      | 116%N :: 114%N :: 117%N :: 101%N :: r => Some (PBool true, r)
      | 102%N :: 97%N :: 108%N :: 115%N :: 101%N :: r => Some (PBool false, r)
      | 78%N :: 97%N :: 78%N :: r => Some (PFloat (lit "nan"), r)
      | 73%N :: 110%N :: 102%N :: 105%N :: 110%N :: 105%N :: 116%N :: 121%N
        :: r => Some (PFloat (lit "inf"), r)
      | 45%N :: 73%N :: 110%N :: 102%N :: 105%N :: 110%N :: 105%N :: 116%N
        :: 121%N :: r => Some (PFloat (lit "-inf"), r)
      | _ => parse_number s
      end
  end
with parse_items (fuel : nat) (s : str) (acc : list PyVal)
  : option (PyVal * str) :=
  match fuel with
  | O => None
  | S fuel' =>
      match parse_value fuel' s with
      | None => None
      | Some (v, r) =>
          match skip_ws r with
          | 93%N :: r' => Some (PList (acc ++ [v]), r')
          | 44%N :: r' => parse_items fuel' (skip_ws r') (acc ++ [v])
          | _ => None
          end
      end
  end
with parse_members (fuel : nat) (s : str) (acc : list (str * PyVal))
  : option (PyVal * str) :=
  match fuel with
  | O => None
  | S fuel' =>
      match s with
      | 34%N :: r =>
          match parse_string r [] with
          | None => None
          | Some (key, r1) =>
              match skip_ws r1 with
              | 58%N :: r2 =>
                  match parse_value fuel' (skip_ws r2) with
                  | None => None
                  | Some (v, r3) =>
                      match skip_ws r3 with
                      | 125%N :: r' => Some (PDict (dict_set acc key v), r')
                      | 44%N :: r' =>
                          parse_members fuel' (skip_ws r') (dict_set acc key v)
                      | _ => None
                      end
                  end
              | _ => None
              end
          end
      | _ => None
      end
  end.

Definition json_loads (s : str) : result PyVal :=
  match parse_value (2 * length s + 2) (skip_ws s) with
  | Some (v, r) =>
      match skip_ws r with
      | [] => inr v
      | _ => inl JSONDecodeError
      end
  | None => inl JSONDecodeError
  end.

(** [str(v)] for [None], booleans and integers, and for lists and dicts
    of these and of strings that [repr] shows between single quotes as
    they are; a float is shown by its literal. *)
Definition str_of_Z (z : Z) : str :=
  if z <? 0 then 45%N :: str_of_nat (Z.to_nat (- z))
  else str_of_nat (Z.to_nat z).

Fixpoint py_repr (v : PyVal) : str :=
  match v with
  | PNone => lit "None"
  | PBool true => lit "True"
  | PBool false => lit "False"
  | PInt z => str_of_Z z
  | PFloat l => l
  | PStr s => lit "'" ++ s ++ lit "'"
  | PList l => lit "[" ++ join (lit ", ") (map py_repr l) ++ lit "]"
  | PDict d =>
      lit "{"
      ++ join (lit ", ")
           (map (fun kv => lit "'" ++ fst kv ++ lit "': " ++ py_repr (snd kv))
                d)
      ++ lit "}"
  end.

Definition py_str (v : PyVal) : str :=
  match v with
  | PStr s => s
  | _ => py_repr v
  end.

End Ref.

End Translate.

(** ** Scenarios *)

Module Scenario.
Import PromptVC Mock.

(** A prompt whose version 1 is gone while version 2 exists. *)
Definition gap_backend : Backend :=
  static_backend
    [ (lit "P1", prompt_with (lit "arn:p") (lit "abc"));
      (lit "arn:p:2", prompt_with (lit "arn:p") (lit "second")) ]
    [] [].

(** A prompt with the versions 1, 2 and 3; only version 1 has tags that
    can be read. *)
Definition three_versions : Backend :=
  static_backend
    [ (lit "P1", prompt_with (lit "arn:p") (lit "SELECT 4"));
      (lit "arn:p:1", prompt_with (lit "arn:p") (lit "SELECT 1"));
      (lit "arn:p:2", prompt_with (lit "arn:p") (lit "SELECT 2"));
      (lit "arn:p:3", prompt_with (lit "arn:p") (lit "SELECT 3")) ]
    [ (lit "arn:p:1", {[ lit "Environment" := lit "DEV" ]}) ]
    [].

(** A development prompt P1 and a production prompt P2 that keeps its
    text whatever is written to it. *)
Definition two_environments : Backend :=
  static_backend
    [ (lit "P1", prompt_with (lit "arn:p") (lit "SELECT 1"));
      (lit "P2", prompt_with (lit "arn:q") (lit "SELECT 0")) ]
    []
    [ (lit "/prompts/text2sql/prod/current", lit "P2") ].

(** The service [B], except that a failing tag lookup answers with an
    empty tag set instead. *)
Definition with_empty_tags_on_failure (B : Backend) : Backend :=
  {| get_prompt := get_prompt B;
     update_prompt := update_prompt B;
     create_prompt_version := create_prompt_version B;
     tag_resource := tag_resource B;
     list_tags_for_resource := fun h resourceArn =>
       match list_tags_for_resource B h resourceArn with
       | inl _ => inr (Some ∅)
       | r => r
       end;
     get_parameter := get_parameter B;
     strftime := strftime B |}.

(** The text [[["a"],["b"]]] and the value it denotes. *)
Definition two_lists_text : str :=
  lit "[[" ++ [Translate.quote] ++ lit "a" ++ [Translate.quote] ++ lit "],["
  ++ [Translate.quote] ++ lit "b" ++ [Translate.quote] ++ lit "]]".

Definition two_lists : Translate.PyVal :=
  Translate.PList [ Translate.PList [Translate.PStr (lit "a")];
                    Translate.PList [Translate.PStr (lit "b")] ].

(** The fenced block of the scenario: the marker, a line break, the
    text, a line break and the closing fence. *)
Definition fenced_block : str :=
  Translate.json_fence ++ Translate.newline ++ two_lists_text
  ++ Translate.newline ++ Translate.fence.

(** A reply in which an empty list is fenced before the block. *)
Definition reply_with_two_blocks : str :=
  Translate.json_fence ++ Translate.newline ++ lit "[]" ++ Translate.newline
  ++ Translate.fence ++ Translate.newline ++ fenced_block.

(** A reply whose fence is never closed. *)
Definition unclosed_reply : str :=
  lit "Groups: " ++ Translate.json_fence ++ Translate.newline
  ++ two_lists_text ++ Translate.newline.

End Scenario.

(** ** The other methods of the controller *)

Module Writer.
Import PromptVC.

Definition SUPPORTED_ENVIRONMENTS : list str := [lit "dev"; lit "prod"].

(** The attributes that [__init__] sets. *)
Record Controller : Type := {
  self_environment : str;
  self_env_config : EnvConfig;
  self_parameter_store_path : str
}.

(** The lines that these methods print, one constructor per [print]
    statement. The loop over [tags.items()] of [create_tagged_version]
    prints one line per tag; these lines are kept as the dict. *)
Inductive Line : Type :=
| InitializedFor (description : str)
| ParameterStoreLine (path : str)
| RetrievedPromptId (environment prompt_id : str)
| ErrorRetrievingParameter (path : str) (e : exn)
| CreatedVersionWithTags (new_version : option str)
| TagLines (tags : Tags)
| ErrorCreatingTaggedVersion (e : exn).

(** A computation over the history of the service calls and, apart
    from it, over the lines printed so far. *)
Definition P (A : Type) : Type :=
  list Event -> list Line -> result A * list Event * list Line.

#[global] Instance P_ret : MRet P := fun A a h out => (inr a, h, out).
#[global] Instance P_bind : MBind P := fun A B k m h out =>
  match m h out with
  | (inr a, h', out') => k a h' out'
  | (inl e, h', out') => (inl e, h', out')
  end.

(** A service call or a pure step of [PromptVC]. *)
Definition of_M {A} (m : M A) : P A := fun h out =>
  let (r, h') := m h in (r, h', out).

Definition say (l : Line) : P unit := fun h out => (inr tt, h, out ++ [l]).

(** [try: body except ClientError as e: handler] *)
Definition try_ClientError {A} (body : P A) (handler : exn -> P A) : P A :=
  fun h out =>
  match body h out with
  | (inl (ClientError msg), h', out') => handler (ClientError msg) h' out'
  | r => r
  end.

(** [a or b] for an optional [str] [a]: [None] and the empty string are
    false. *)
Definition or_else {A} (inject : str -> A) (a : option str) (b : A) : A :=
  match a with
  | Some (c :: s) => inject (c :: s)
  | _ => b
  end.

Section Methods.

Variable B : Backend.
Variable upper : str -> str.
Variable lower : str -> str.

(** [PromptVersionController(environment=environment)]; the two boto3
    clients are the services [B]. *)
Definition init (environment : str) : P Controller :=
  let environment' := lower environment in
  if bool_decide (environment' ∈ SUPPORTED_ENVIRONMENTS) then
    env_config ← of_M (lift (match ENVIRONMENT_CONFIG !! environment' with
                             | Some c => inr c
                             | None => inl KeyError
                             end));
    say (InitializedFor (env_description env_config));;
    say (ParameterStoreLine (parameter_store_path env_config));;
    mret {| self_environment := environment';
            self_env_config := env_config;
            self_parameter_store_path := parameter_store_path env_config |}
  else of_M (lift (inl (OtherException (lit "ValueError")))).

Definition get_prompt_id_from_environment (self : Controller)
  : P (option str) :=
  try_ClientError
    (response ← of_M (call_get_parameter B (self_parameter_store_path self)
                        true);
     prompt_id ← of_M (lift (match response with
                             | Some v => inr v
                             | None => inl KeyError
                             end));
     say (RetrievedPromptId (upper (self_environment self)) prompt_id);;
     mret (Some prompt_id))
    (fun e =>
       say (ErrorRetrievingParameter (self_parameter_store_path self) e);;
       mret None).

(** The dict [tags] of [create_tagged_version]. *)
Definition version_tags (self : Controller) (environment version_tag
    created_date created_time : str) : Tags :=
  dict_of (base_tags_of environment)
    [ (lit "Version", version_tag);
      (lit "CreatedDate", created_date);
      (lit "CreatedTime", created_time);
      (lit "SourceEnvironment", upper (self_environment self)) ].

Definition create_tagged_version (self : Controller)
    (prompt_identifier content : str)
    (environment version_tag description : option str) : P (option str) :=
  let environment := default (self_environment self) environment in
  version_tag ←
    match version_tag with
    | Some t => mret t
    | None =>
        timestamp ← of_M (now_strftime B (lit "%Y%m%d-%H%M"));
        mret (lit "v1.0.0-" ++ environment ++ lit "-" ++ timestamp)
    end;
  try_ClientError
    (current_prompt ← of_M (call_get_prompt B prompt_identifier);
     updated_variants ←
       of_M (lift (update_variants content
                     (default [] (variants current_prompt))));
     of_M (call_update_prompt B prompt_identifier (name current_prompt)
             (or_else Some description (PromptVC.description current_prompt))
             updated_variants);;
     version_response ←
       of_M (call_create_prompt_version B prompt_identifier
               (upper environment ++ lit " " ++ version_tag ++ lit ": "
                ++ or_else id description (lit "Version created")));
     let new_version := version version_response in
     let new_arn := version_arn version_response in
     created_date ← of_M (now_strftime B (lit "%Y-%m-%d"));
     created_time ← of_M (now_strftime B (lit "%H:%M:%S"));
     let tags := version_tags self environment version_tag created_date
                   created_time in
     of_M (call_tag_resource B new_arn tags);;
     say (CreatedVersionWithTags new_version);;
     say (TagLines tags);;
     mret new_version)
    (fun e => say (ErrorCreatingTaggedVersion e);; mret None).

End Methods.

End Writer.

(** ** From the groups to the rows, and the name of the document *)

Module Document.
Import Translate.

(** [iter(v)]: the items that a [for] loop over [v] sees. *)
Definition py_iter (v : PyVal) : result (list PyVal) :=
  match v with
  | PList l => inr l
  | PStr s => inr (map (fun c => PStr [c]) s)
  | PDict d => inr (map (fun kv => PStr (fst kv)) d)
  | _ => inl TypeError
  end.

(** [len(v)] *)
Definition py_len (v : PyVal) : result nat :=
  match v with
  | PList l => inr (length l)
  | PStr s => inr (length s)
  | PDict d => inr (length d)
  | _ => inl TypeError
  end.

Section Handoff.

Variable json_loads : str -> result PyVal.
Variable py_str : PyVal -> str.

(** Step 4 of [main_process_converse], the [len(grouped_texts)] of its
    last print, and the formatting with which
    [create_translation_workflow] begins (source language "Korean",
    target language "English"). The result is [grouped_texts] with the
    rows handed to [save_translation_document]. *)
Definition group_and_format (claude_response : option str)
  : result (PyVal * list Row) :=
  match extract_groups json_loads py_str claude_response with
  | inl e => inl e
  | inr grouped_texts =>
      match py_len grouped_texts with
      | inl e => inl e
      | inr _ =>
          match py_iter grouped_texts with
          | inl e => inl e
          | inr groups =>
              match format_translation_document py_str groups
                      (lit "Korean") (lit "English") with
              | inl e => inl e
              | inr rows => inr (grouped_texts, rows)
              end
          end
      end
  end.

End Handoff.

(** [s.endswith(suffix)] *)
Definition endswith (suffix s : str) : bool :=
  startswith (rev suffix) (rev s).

(** The file name that [save_translation_document] uses; [timestamp]
    is [datetime.now().strftime("%Y%m%d_%H%M%S")]. *)
Definition document_filename (filename : option str)
    (image_name timestamp : str) : str :=
  let filename :=
    match filename with
    | None => lit "translation_document_" ++ image_name ++ lit "_"
              ++ timestamp ++ lit ".xlsx"
    | Some f => f
    end in
  if negb (endswith (lit ".xlsx") filename)
  then filename ++ lit ".xlsx"
  else filename.

End Document.

(** ** The decoder and the limit of [int()] *)

Module Decoder.
Import Translate.

(** [sys.get_int_max_str_digits()], as CPython sets it since 3.11. *)
Definition int_max_str_digits : nat := 4300.

(** The number of digits of the integer literal at the head of [s],
    when [s] starts with one: the decoder reads an optional minus sign
    and then a single 0 or digits that do not start with 0, and, when
    neither a fraction nor an exponent follows, hands this text to
    [int()]. *)
Definition leading_int_digits (s : str) : option nat :=
  match Ref.parse_number s with
  | Some (PInt _, _) =>
      let unsigned := match s with 45%N :: r => r | _ => s end in
      match unsigned with
      | 48%N :: _ => Some 1%nat
      | _ => Some (length (Ref.span_digits unsigned).1)
      end
  | _ => None
  end.

(** [json.loads] with this limit: for a literal of more than 4300
    digits [int()] raises a [ValueError], which is not a
    [JSONDecodeError]. The limit is modelled for a literal that starts
    the document, where it is reached before anything else is read; on
    every other document the decoder is [Ref.json_loads]. *)
Definition json_loads (s : str) : result PyVal :=
  match leading_int_digits (Ref.skip_ws s) with
  | Some n =>
      if (int_max_str_digits <? n)%nat
      then inl (OtherException (lit "ValueError"))
      else Ref.json_loads s
  | None => Ref.json_loads s
  end.

End Decoder.

(** ** Notions used to state the properties *)

Module Notions.
Import PromptVC.

(** The calls that change the prompt service. *)
Definition is_mutation (ev : Event) : bool :=
  match ev with
  | UpdatePrompt _ _ _ _ | CreatePromptVersion _ _ | TagResource _ _ => true
  | _ => false
  end.

(** A variant that holds [content] as its text. *)
Definition holds_text (content : str) (v : Variant) : Prop :=
  templateText v = TextConfiguration (Some content).


(** Whether a computation returned, rather than raised. *)
Definition returned {A} (r : result A) : bool :=
  match r with inr _ => true | inl _ => false end.


End Notions.

(** ** More scenarios *)

Module Scenario2.
Import PromptVC Mock.

(** A service without any prompt or parameter. *)
Definition empty_service : Backend := static_backend [] [] [].

(** A prompt whose draft has no variant. *)
Definition textless_draft : Backend :=
  static_backend
    [ (lit "P1", {| arn := Some (lit "arn:p"); name := None;
                    description := None; variants := Some [] |}) ]
    [] [].

(** What a probe of version [i] of arn:p answers in [Scenario.gap_backend]. *)
Definition gap_probe (i : nat) : result Prompt :=
  if (i =? 2)%nat then inr (prompt_with (lit "arn:p") (lit "second"))
  else inl not_found.

(** The service [B], except that tagging is refused. *)
Definition tagging_refused (B : Backend) : Backend :=
  {| get_prompt := get_prompt B;
     update_prompt := update_prompt B;
     create_prompt_version := create_prompt_version B;
     tag_resource := fun _ _ _ =>
       inl (ClientError (lit "AccessDeniedException"));
     list_tags_for_resource := list_tags_for_resource B;
     get_parameter := get_parameter B;
     strftime := strftime B |}.

(** The service [B], except that no version can be created. *)
Definition versions_refused (B : Backend) : Backend :=
  {| get_prompt := get_prompt B;
     update_prompt := update_prompt B;
     create_prompt_version := fun _ _ _ =>
       inl (ClientError (lit "ServiceQuotaExceededException"));
     tag_resource := tag_resource B;
     list_tags_for_resource := list_tags_for_resource B;
     get_parameter := get_parameter B;
     strftime := strftime B |}.

(** A service whose every prompt call is interrupted from the keyboard. *)
Definition interrupted : Backend :=
  {| get_prompt := fun _ _ => inl (OtherException (lit "KeyboardInterrupt"));
     update_prompt := fun _ _ _ _ _ =>
       inl (OtherException (lit "KeyboardInterrupt"));
     create_prompt_version := fun _ _ _ =>
       inl (OtherException (lit "KeyboardInterrupt"));
     tag_resource := fun _ _ _ =>
       inl (OtherException (lit "KeyboardInterrupt"));
     list_tags_for_resource := list_tags_for_resource empty_service;
     get_parameter := get_parameter empty_service;
     strftime := strftime empty_service |}.

(** [str.lower] on ASCII text. *)
Definition ascii_lower (s : str) : str :=
  map (fun c => if ((65 <=? c) && (c <=? 90))%N then (c + 32)%N else c) s.

(** The controller of the development environment. *)
Definition dev_controller : Writer.Controller :=
  {| Writer.self_environment := lit "dev";
     Writer.self_env_config :=
       {| parameter_store_path := lit "/prompts/text2sql/dev/current";
          env_description := lit "Development Environment";
          default_tags := dict_of ∅ [(lit "Environment", lit "DEV");
                                     (lit "Status", lit "TESTING")] |};
     Writer.self_parameter_store_path :=
       lit "/prompts/text2sql/dev/current" |}.

End Scenario2.

(** * The built-ins on examples *)

Example strip_example : strip (lit "  a b " ++ [10; 160]%N) = lit "a b".
Proof. reflexivity. Qed.

Example find_example :
  find (lit "abcabc") (lit "bc") 2 = 4 /\ find (lit "abc") [] 4 = -1
  /\ find (lit "abc") [] 3 = 3 /\ find (lit "abc") (lit "x") 0 = -1.
Proof. repeat split; reflexivity. Qed.

Example slice_example :
  slice (lit "abcdef") 2 4 = lit "cd" /\ slice_to (lit "abc") 100 = lit "abc"
  /\ slice_from (lit "abc") 5 = [] /\ slice (lit "abc") (-1) 2 = [].
Proof. repeat split; reflexivity. Qed.

Example str_of_nat_example :
  str_of_nat 0 = lit "0" /\ str_of_nat 20 = lit "20"
  /\ format_03d 7 = lit "007" /\ format_03d 1000 = lit "1000".
Proof. repeat split; reflexivity. Qed.

Example json_loads_example :
  Translate.Ref.json_loads (lit " [ ] ") = inr (Translate.PList [])
  /\ Translate.Ref.json_loads (lit "[1,]") = inl JSONDecodeError
  /\ Translate.Ref.json_loads (lit "01") = inl JSONDecodeError
  /\ Translate.Ref.json_loads [] = inl JSONDecodeError
  /\ Translate.Ref.json_loads (lit "[-12, 1.5e3, true, null]")
     = inr (Translate.PList [ Translate.PInt (-12);
                              Translate.PFloat (lit "1.5e3");
                              Translate.PBool true; Translate.PNone ]).
Proof. repeat split; vm_compute; reflexivity. Qed.

(** * Properties of the prompt version controller *)

Import PromptVC Mock Scenario.

Ltac unfold_m :=
  unfold mbind, M_bind, mret, M_ret, lift, print, try_except,
    try_except_Exception, try_except_ClientError, call_get_prompt, call_update_prompt,
    call_create_prompt_version, call_tag_resource,
    call_list_tags_for_resource, call_get_parameter, now_strftime in *.

Lemma slice_to_take (s : str) (b : Z) :
  0 <= b -> slice_to s b = take (Z.to_nat b) s.
Proof.
  intros Hb. unfold slice_to, clamp.
  destruct (Z.ltb_spec b 0) as [Hneg | _]; [lia |].
  destruct (Z.le_gt_cases b (Z.of_nat (length s))) as [Hle | Hgt].
  - f_equal. lia.
  - rewrite Z.max_r, Z.min_r by lia. rewrite Nat2Z.id.
    rewrite !take_ge by lia. reflexivity.
Qed.

Lemma preview_take (text : str) : preview text = take 100 text ++ lit "...".
Proof. unfold preview. rewrite slice_to_take by lia. reflexivity. Qed.

Section EnumeratorFacts.

Variable B : Backend.

(** The equation of the [while] loop of [list_versions_with_tags]. *)
Lemma while_versions_unfold base n vs h :
  while_versions B base n vs h =
    if (n <=? max_attempts)%nat
    then (vs' ← probe_version B base n vs; while_versions B base (S n) vs') h
    else (inr vs, h).
Proof.
  unfold while_versions.
  destruct (Nat.leb_spec n max_attempts) as [Hle | Hgt].
  - replace (S max_attempts - n)%nat with (S (S max_attempts - S n)) by lia.
    reflexivity.
  - replace (S max_attempts - n)%nat with O by lia. reflexivity.
Qed.

Lemma probe_version_missing base n vs h message :
  get_prompt B h (version_arn_of base n) = inl (ClientError message) ->
  probe_version B base n vs h
  = (inr vs, h ++ [GetPrompt (version_arn_of base n)]).
Proof.
  intros Hget. unfold probe_version. unfold_m. rewrite Hget.
  destruct (_ || _); reflexivity.
Qed.

(** The tag lookup never raises. *)
Lemma lookup_tags_total resourceArn h :
  lookup_tags B resourceArn h =
    (inr (match list_tags_for_resource B h resourceArn with
          | inr (Some t) => t
          | _ => ∅
          end), h ++ [ListTagsForResource resourceArn]).
Proof.
  unfold lookup_tags. unfold_m.
  destruct (list_tags_for_resource B h resourceArn) as [e | [t |]];
    reflexivity.
Qed.

Lemma probe_version_found base n vs h p text :
  get_prompt B h (version_arn_of base n) = inr p ->
  first_text p = inr text ->
  probe_version B base n vs h =
    (inr (vs ++ [ {| sum_version := str_of_nat n;
                     sum_arn := Some (version_arn_of base n);
                     sum_name := name p;
                     sum_content := preview text;
                     sum_tags :=
                       match list_tags_for_resource B
                               (h ++ [GetPrompt (version_arn_of base n)])
                               (version_arn_of base n) with
                       | inr (Some t) => t
                       | _ => ∅
                       end |} ]),
     h ++ [GetPrompt (version_arn_of base n);
           ListTagsForResource (version_arn_of base n)]).
Proof.
  intros Hget Htext. unfold probe_version.
  unfold mbind, M_bind, try_except_ClientError, call_get_prompt.
  rewrite Hget. rewrite lookup_tags_total. unfold lift. rewrite Htext.
  unfold mret, M_ret. rewrite <- app_assoc. reflexivity.
Qed.

(** What one iteration can do to the list: leave it, or add one
    summary of a prompt that the service returned. *)
Lemma probe_version_cases base n vs h vs' h' :
  probe_version B base n vs h = (inr vs', h') ->
  vs' = vs
  \/ exists p text,
       get_prompt B h (version_arn_of base n) = inr p
       /\ first_text p = inr text
       /\ vs' = vs ++ [ {| sum_version := str_of_nat n;
                           sum_arn := Some (version_arn_of base n);
                           sum_name := name p;
                           sum_content := preview text;
                           sum_tags :=
                             match list_tags_for_resource B
                                     (h ++ [GetPrompt (version_arn_of base n)])
                                     (version_arn_of base n) with
                             | inr (Some t) => t
                             | _ => ∅
                             end |} ].
Proof.
  intros Hrun.
  destruct (get_prompt B h (version_arn_of base n)) as [e | p] eqn:Hget.
  - left. unfold probe_version in Hrun. unfold_m. rewrite Hget in Hrun.
    destruct e; try discriminate.
    destruct (_ || _); congruence.
  - destruct (first_text p) as [e | text] eqn:Htext.
    + unfold probe_version in Hrun.
      unfold mbind, M_bind, try_except_ClientError, call_get_prompt in Hrun.
      rewrite Hget, lookup_tags_total in Hrun. unfold lift in Hrun.
      rewrite Htext in Hrun.
      unfold first_text in Htext.
      destruct (variants p) as [[| v ?] |]; try (inversion Htext; subst; discriminate).
      destruct (templateText v) as [| [t |]];
        inversion Htext; subst; discriminate.
    + right. exists p, text. split; [reflexivity | split; [exact Htext |]].
      rewrite (probe_version_found _ _ _ _ _ _ Hget Htext) in Hrun.
      congruence.
Qed.

End EnumeratorFacts.

Section EnumeratorLoop.

Variable B : Backend.

Lemma first_text_error p e :
  first_text p = inl e -> e = KeyError \/ e = IndexError.
Proof.
  unfold first_text.
  destruct (variants p) as [[| v ?] |]; [| | intros [= <-]; auto].
  - intros [= <-]. auto.
  - destruct (templateText v) as [| [t |]]; intros [= <-]; auto.
Qed.

(** A property of the summaries that every iteration keeps is kept by
    the loop. *)
Lemma probe_loop_invariant (P : Summary -> Prop) base :
  (forall n vs h vs' h',
     Forall P vs -> probe_version B base n vs h = (inr vs', h') ->
     Forall P vs') ->
  forall k n vs h vs' h',
    Forall P vs -> probe_loop B base k n vs h = (inr vs', h') ->
    Forall P vs'.
Proof.
  intros Hstep k. induction k as [| k IH]; intros n vs h vs' h' Hvs Hrun.
  - simpl in Hrun. unfold_m. congruence.
  - simpl in Hrun. unfold mbind, M_bind in Hrun.
    destruct (probe_version B base n vs h) as [[e | vs1] h1] eqn:Hone.
    + discriminate.
    + eapply IH; [| exact Hrun]. eapply Hstep; eauto.
Qed.

Lemma probe_loop_app base a b n vs h :
  probe_loop B base (a + b) n vs h =
    match probe_loop B base a n vs h with
    | (inr vs', h') => probe_loop B base b (n + a) vs' h'
    | (inl e, h') => (inl e, h')
    end.
Proof.
  revert n vs h. induction a as [| a IH]; intros n vs h.
  - simpl. unfold_m. rewrite Nat.add_0_r. reflexivity.
  - simpl. unfold mbind, M_bind.
    destruct (probe_version B base n vs h) as [[e | vs1] h1]; [reflexivity |].
    rewrite IH. replace (S n + a)%nat with (n + S a)%nat by lia.
    reflexivity.
Qed.

Lemma probe_loop_all_found base k :
  forall n vs h,
    (forall h i, (n <= i < n + k)%nat ->
       exists p text,
         get_prompt B h (version_arn_of base i) = inr p
         /\ first_text p = inr text) ->
    exists new h',
      probe_loop B base k n vs h = (inr (vs ++ new), h')
      /\ map sum_version new = map str_of_nat (seq n k).
Proof.
  induction k as [| k IH]; intros n vs h Hall.
  - exists [], h. simpl. unfold_m. rewrite app_nil_r. auto.
  - destruct (Hall h n ltac:(lia)) as (p & text & Hget & Htext).
    simpl. unfold mbind, M_bind.
    rewrite (probe_version_found _ _ _ _ _ _ _ Hget Htext).
    edestruct (IH (S n)) as (new & h' & Hrun & Hnew);
      [intros h0 i Hi; apply Hall; lia |].
    rewrite Hrun. eexists (_ :: new), h'. split.
    + rewrite <- app_assoc. reflexivity.
    + simpl. rewrite Hnew. reflexivity.
Qed.

Lemma probe_loop_all_missing base k :
  forall n vs h,
    (forall h i, (n <= i < n + k)%nat ->
       exists message,
         get_prompt B h (version_arn_of base i) = inl (ClientError message)) ->
    exists h', probe_loop B base k n vs h = (inr vs, h').
Proof.
  induction k as [| k IH]; intros n vs h Hall.
  - exists h. reflexivity.
  - destruct (Hall h n ltac:(lia)) as (message & Hget).
    simpl. unfold mbind, M_bind.
    rewrite (probe_version_missing _ _ _ _ _ _ Hget).
    apply IH. intros h0 i Hi. apply Hall. lia.
Qed.

(** The tags of the added summary do not tell a failed lookup from a
    lookup that answered with no tags. *)
Lemma probe_loop_empty_tags base k :
  forall n vs h,
    probe_loop (with_empty_tags_on_failure B) base k n vs h
    = probe_loop B base k n vs h.
Proof.
  assert (Hone : forall n vs h,
            probe_version (with_empty_tags_on_failure B) base n vs h
            = probe_version B base n vs h).
  { intros n vs h. unfold probe_version.
    unfold mbind, M_bind, try_except_ClientError, call_get_prompt. simpl.
    destruct (get_prompt B h (version_arn_of base n)) as [e | p];
      [reflexivity |].
    rewrite !lookup_tags_total. simpl.
    destruct (list_tags_for_resource B _ _) as [e | [t |]]; reflexivity. }
  induction k as [| k IH]; intros n vs h; [reflexivity |].
  simpl. unfold mbind, M_bind. rewrite Hone.
  destruct (probe_version B base n vs h) as [[e | vs1] h1]; [reflexivity |].
  apply IH.
Qed.

(** How [list_versions_with_tags] can return a list. *)
Lemma list_versions_with_tags_inv ident h vs h' :
  list_versions_with_tags B ident h = (inr vs, h') ->
  vs = []
  \/ exists draft text,
       get_prompt B h ident = inr draft
       /\ first_text draft = inr text
       /\ while_versions B (arn draft) 1
            [ {| sum_version := lit "DRAFT"; sum_arn := arn draft;
                 sum_name := name draft; sum_content := preview text;
                 sum_tags := ∅ |} ] (h ++ [GetPrompt ident])
          = (inr vs, h').
Proof.
  unfold list_versions_with_tags.
  unfold mbind at 1 2 3. unfold M_bind, try_except_ClientError, call_get_prompt, lift.
  destruct (get_prompt B h ident) as [e | draft].
  - destruct e; unfold_m; intros [= <- <-]; auto.
  - destruct (first_text draft) as [e | text] eqn:Htext.
    + destruct (first_text_error _ _ Htext) as [-> | ->]; discriminate.
    + destruct (while_versions _ _ _ _ _) as [[e | vs1] h1] eqn:Hloop.
      * destruct e; unfold_m; intros [= <- <-]; auto.
      * intros [= <- <-]. right. exists draft, text. auto.
Qed.

(** What one iteration does to the list and to the history: it fetches
    the version, and adds the summary of what the fetch returned. *)
Lemma probe_version_run base n vs h vs' h' :
  probe_version B base n vs h = (inr vs', h') ->
  (vs' = vs /\ h' = h ++ [GetPrompt (version_arn_of base n)])
  \/ exists p text,
       get_prompt B h (version_arn_of base n) = inr p
       /\ first_text p = inr text
       /\ vs' = vs ++ [ {| sum_version := str_of_nat n;
                           sum_arn := Some (version_arn_of base n);
                           sum_name := name p;
                           sum_content := preview text;
                           sum_tags :=
                             match list_tags_for_resource B
                                     (h ++ [GetPrompt (version_arn_of base n)])
                                     (version_arn_of base n) with
                             | inr (Some t) => t
                             | _ => ∅
                             end |} ]
       /\ h' = h ++ [ GetPrompt (version_arn_of base n);
                      ListTagsForResource (version_arn_of base n) ].
Proof.
  intros Hrun.
  destruct (get_prompt B h (version_arn_of base n)) as [e | p] eqn:Hget.
  - left. unfold probe_version in Hrun. unfold_m. rewrite Hget in Hrun.
    destruct e; try discriminate.
    destruct (_ || _); injection Hrun as <- <-; auto.
  - destruct (first_text p) as [e | text] eqn:Htext.
    + unfold probe_version in Hrun.
      unfold mbind, M_bind, try_except_ClientError, call_get_prompt in Hrun.
      rewrite Hget, lookup_tags_total in Hrun. unfold lift in Hrun.
      rewrite Htext in Hrun.
      destruct (first_text_error _ _ Htext) as [-> | ->]; discriminate.
    + right. exists p, text. split; [reflexivity | split; [exact Htext |]].
      rewrite (probe_version_found _ _ _ _ _ _ _ Hget Htext) in Hrun.
      injection Hrun as <- <-. auto.
Qed.

(** Every summary that the loop adds reports a version that the loop
    fetched, under the ARN of the summary, with what the fetch returned. *)
Lemma probe_loop_summaries base k :
  forall n vs h vs' h',
    probe_loop B base k n vs h = (inr vs', h') ->
    exists new after,
      vs' = vs ++ new
      /\ h' = h ++ after
      /\ Forall (fun s =>
                   exists m before rest p text,
                     after = before ++ GetPrompt (version_arn_of base m) :: rest
                     /\ get_prompt B (h ++ before) (version_arn_of base m)
                        = inr p
                     /\ first_text p = inr text
                     /\ sum_version s = str_of_nat m
                     /\ sum_arn s = Some (version_arn_of base m)
                     /\ sum_name s = name p
                     /\ sum_content s = preview text) new.
Proof.
  induction k as [| k IH]; intros n vs h vs' h' Hrun.
  - simpl in Hrun. unfold_m. injection Hrun as <- <-.
    exists [], []. rewrite !app_nil_r. auto.
  - simpl in Hrun. unfold mbind, M_bind in Hrun.
    destruct (probe_version B base n vs h) as [[e | vs1] h1] eqn:Hone;
      [discriminate |].
    apply IH in Hrun as (new & after & -> & -> & Hnew).
    apply probe_version_run in Hone
      as [[-> ->] | (p & text & Hget & Htext & -> & ->)].
    + exists new, ([GetPrompt (version_arn_of base n)] ++ after).
      split; [reflexivity |]. split; [rewrite <- app_assoc; reflexivity |].
      eapply Forall_impl; [exact Hnew |].
      intros s (m & before & rest & q & t & -> & Hq & Hrest).
      exists m, ([GetPrompt (version_arn_of base n)] ++ before), rest, q, t.
      split; [rewrite <- app_assoc; reflexivity |].
      split; [rewrite app_assoc; exact Hq | exact Hrest].
    + eexists (_ :: new),
        ([ GetPrompt (version_arn_of base n);
           ListTagsForResource (version_arn_of base n) ] ++ after).
      split; [rewrite <- app_assoc; reflexivity |].
      split; [rewrite <- app_assoc; reflexivity |].
      constructor.
      * exists n, [], (ListTagsForResource (version_arn_of base n) :: after),
          p, text.
        split; [reflexivity |]. rewrite app_nil_r. simpl.
        repeat split; assumption.
      * eapply Forall_impl; [exact Hnew |].
        intros s (m & before & rest & q & t & -> & Hq & Hrest).
        exists m,
          ([ GetPrompt (version_arn_of base n);
             ListTagsForResource (version_arn_of base n) ] ++ before),
          rest, q, t.
        split; [rewrite <- app_assoc; reflexivity |].
        split; [rewrite app_assoc; exact Hq | exact Hrest].
Qed.

Lemma probe_loop_step base k n vs h :
  probe_loop B base (S k) n vs h
  = match probe_version B base n vs h with
    | (inr vs1, h1) => probe_loop B base k (S n) vs1 h1
    | (inl e, h1) => (inl e, h1)
    end.
Proof. reflexivity. Qed.

(** The events of a run of the loop in which no version exists. *)
Lemma probe_loop_all_missing_trace base k :
  forall n vs h,
    (forall h i, (n <= i < n + k)%nat ->
       exists message,
         get_prompt B h (version_arn_of base i) = inl (ClientError message)) ->
    probe_loop B base k n vs h
    = (inr vs,
       h ++ map (fun i => GetPrompt (version_arn_of base i)) (seq n k)).
Proof.
  induction k as [| k IH]; intros n vs h Hall.
  - simpl. unfold_m. rewrite app_nil_r. reflexivity.
  - destruct (Hall h n ltac:(lia)) as (message & Hget).
    simpl. unfold mbind, M_bind.
    rewrite (probe_version_missing _ _ _ _ _ _ Hget).
    rewrite IH by (intros h0 i Hi; apply Hall; lia).
    rewrite <- app_assoc. reflexivity.
Qed.

End EnumeratorLoop.

(** C2, as stated, fails: the service signals that version 1 of the
    prompt does not exist, and the enumeration still reports version 2. *)
Lemma enumeration_goes_past_missing_version :
  (forall h, get_prompt gap_backend h (version_arn_of (Some (lit "arn:p")) 1)
             = inl not_found)
  /\ (list_versions_with_tags gap_backend (lit "P1") []).1
     = inr [ {| sum_version := lit "DRAFT"; sum_arn := Some (lit "arn:p");
                sum_name := Some (lit "text2sql");
                sum_content := lit "abc..."; sum_tags := ∅ |};
             {| sum_version := str_of_nat 2;
                sum_arn := Some (lit "arn:p:2");
                sum_name := Some (lit "text2sql");
                sum_content := lit "second..."; sum_tags := ∅ |} ].
Proof. split; [intros h |]; vm_compute; reflexivity. Qed.

(** C2 (amended): when the service signals that version [n] does not
    exist, the loop leaves the list as it is and goes on with
    [n + 1]; it does not stop. *)
Theorem enumeration_skips_missing_version
    (B : Backend) (base_arn : option str) (version_num : nat)
    (versions : list Summary) (h : list Event) (message : str) :
  (version_num <= max_attempts)%nat ->
  get_prompt B h (version_arn_of base_arn version_num)
  = inl (ClientError message) ->
  while_versions B base_arn version_num versions h
  = while_versions B base_arn (S version_num) versions
      (h ++ [GetPrompt (version_arn_of base_arn version_num)]).
Proof.
  intros Hle Hget. rewrite while_versions_unfold.
  apply Nat.leb_le in Hle. rewrite Hle.
  unfold mbind, M_bind.
  rewrite (probe_version_missing _ _ _ _ _ _ Hget). reflexivity.
Qed.

Lemma enumeration_skips_missing_version_witness :
  while_versions gap_backend (Some (lit "arn:p")) 1 [] []
  = while_versions gap_backend (Some (lit "arn:p")) 2 []
      [GetPrompt (lit "arn:p:1")].
Proof.
  apply (enumeration_skips_missing_version gap_backend (Some (lit "arn:p"))
           1%nat [] [] (lit "ResourceNotFoundException: no such prompt")).
  - vm_compute. lia.
  - vm_compute. reflexivity.
Defined.

(** C3, as stated, fails: a stored text of three characters is
    reported with the marker appended, not unmodified. *)
Lemma short_text_reported_with_ellipsis :
  (length (lit "abc") <= 100)%nat
  /\ exists s rest,
       (list_versions_with_tags gap_backend (lit "P1") []).1 = inr (s :: rest)
       /\ get_prompt gap_backend [] (lit "P1")
          = inr (prompt_with (lit "arn:p") (lit "abc"))
       /\ sum_content s = lit "abc..."
       /\ sum_content s <> lit "abc".
Proof.
  split; [vm_compute; lia |].
  eexists _, _. split; [vm_compute; reflexivity |].
  split; [vm_compute; reflexivity |].
  split; [reflexivity | discriminate].
Qed.

(** C3 (amended): every summary reports a prompt that this run
    fetched, the draft under the identifier given and a version under
    the ARN of the summary, and its content field is the first 100
    characters of the text that this fetch returned, followed by the
    marker "...", whatever the length of the text. *)
Theorem summary_content_is_prefix_with_ellipsis
    (B : Backend) (prompt_identifier : str) (h h' : list Event)
    (versions : list Summary) :
  list_versions_with_tags B prompt_identifier h = (inr versions, h') ->
  forall s, In s versions ->
    exists before rest ident p text,
      h' = h ++ before ++ GetPrompt ident :: rest
      /\ get_prompt B (h ++ before) ident = inr p
      /\ first_text p = inr text
      /\ (sum_version s = lit "DRAFT" /\ ident = prompt_identifier
           /\ sum_arn s = arn p
          \/ exists n, sum_version s = str_of_nat n
                       /\ sum_arn s = Some ident)
      /\ sum_name s = name p
      /\ sum_content s = take 100 text ++ lit "...".
Proof.
  intros Hrun s Hs.
  apply list_versions_with_tags_inv in Hrun
    as [-> | (draft & text & Hget & Htext & Hloop)]; [destruct Hs |].
  unfold while_versions in Hloop.
  apply probe_loop_summaries in Hloop as (new & after & -> & -> & Hnew).
  destruct Hs as [<- | Hs].
  - exists [], after, prompt_identifier, draft, text.
    rewrite app_nil_r. split; [rewrite <- app_assoc; reflexivity |].
    split; [exact Hget |]. split; [exact Htext |].
    split; [left; auto |]. split; [reflexivity |].
    simpl. apply preview_take.
  - rewrite Forall_forall in Hnew.
    apply list_elem_of_In in Hs.
    destruct (Hnew s Hs)
      as (m & before & rest & p & t & -> & Hp & Ht & Hv & Harn & Hname & Hc).
    exists ([GetPrompt prompt_identifier] ++ before), rest,
      (version_arn_of (arn draft) m), p, t.
    split; [rewrite <- !app_assoc; reflexivity |].
    split; [rewrite app_assoc; exact Hp |]. split; [exact Ht |].
    split; [right; exists m; auto |]. split; [exact Hname |].
    rewrite Hc. apply preview_take.
Qed.

Lemma summary_content_is_prefix_with_ellipsis_witness :
  exists before rest ident p text,
    (list_versions_with_tags gap_backend (lit "P1") []).2
    = [] ++ before ++ GetPrompt ident :: rest
    /\ get_prompt gap_backend ([] ++ before) ident = inr p
    /\ first_text p = inr text
    /\ (str_of_nat 2 = lit "DRAFT" /\ ident = lit "P1"
         /\ Some (lit "arn:p:2") = arn p
        \/ exists n, str_of_nat 2 = str_of_nat n
                     /\ Some (lit "arn:p:2") = Some ident)
    /\ Some (lit "text2sql") = name p
    /\ lit "second..." = take 100 text ++ lit "...".
Proof.
  apply (summary_content_is_prefix_with_ellipsis gap_backend (lit "P1") []
           (list_versions_with_tags gap_backend (lit "P1") []).2
           (match (list_versions_with_tags gap_backend (lit "P1") []).1 with
            | inr l => l
            | inl _ => []
            end)
           eq_refl
           {| sum_version := str_of_nat 2;
              sum_arn := Some (lit "arn:p:2");
              sum_name := Some (lit "text2sql");
              sum_content := lit "second..."; sum_tags := ∅ |}).
  vm_compute. right. left. reflexivity.
Defined.

(** C5: when the draft and the versions 1, 2 and 3 of a prompt exist
    and the versions 4 to 20 do not, the enumeration returns exactly four
    summaries: first the record of the draft, labelled 'DRAFT', with the
    ARN, the name and the text of the draft, and then the records of the
    versions '1', '2' and '3', each with its ARN and with the name, the
    text and the tags that the service returned for it. The calls are
    the fetch of the draft, a fetch and a tag lookup for each of the
    three versions, and one fetch for each of the numbers 4 to 20. *)
Theorem enumerate_three_versions
    (B : Backend) (prompt_identifier : str) (draft : Prompt) (text : str)
    (h : list Event) :
  get_prompt B h prompt_identifier = inr draft ->
  first_text draft = inr text ->
  (forall h0 i, (1 <= i <= 3)%nat ->
     exists p t, get_prompt B h0 (version_arn_of (arn draft) i) = inr p
                 /\ first_text p = inr t) ->
  (forall h0 i, (4 <= i <= max_attempts)%nat ->
     exists message,
       get_prompt B h0 (version_arn_of (arn draft) i)
       = inl (ClientError message)) ->
  let version_arn i := version_arn_of (arn draft) i in
  let fetched i := [GetPrompt (version_arn i);
                    ListTagsForResource (version_arn i)] in
  let h1 := h ++ [GetPrompt prompt_identifier] in
  let h2 := h1 ++ fetched 1%nat in
  let h3 := h2 ++ fetched 2%nat in
  let h4 := h3 ++ fetched 3%nat in
  let record i (hi : list Event) (p : Prompt) (t : str) :=
    {| sum_version := str_of_nat i;
       sum_arn := Some (version_arn i);
       sum_name := name p;
       sum_content := preview t;
       sum_tags :=
         match list_tags_for_resource B (hi ++ [GetPrompt (version_arn i)])
                 (version_arn i) with
         | inr (Some tags) => tags
         | _ => ∅
         end |} in
  exists d s1 s2 s3 h',
    list_versions_with_tags B prompt_identifier h
    = (inr [d; s1; s2; s3], h')
    /\ sum_version d = lit "DRAFT"
    /\ sum_version s1 = lit "1"
    /\ sum_version s2 = lit "2"
    /\ sum_version s3 = lit "3"
    /\ d = {| sum_version := lit "DRAFT"; sum_arn := arn draft;
              sum_name := name draft; sum_content := preview text;
              sum_tags := ∅ |}
    /\ (exists p1 t1 p2 t2 p3 t3,
          get_prompt B h1 (version_arn 1%nat) = inr p1
          /\ first_text p1 = inr t1
          /\ get_prompt B h2 (version_arn 2%nat) = inr p2
          /\ first_text p2 = inr t2
          /\ get_prompt B h3 (version_arn 3%nat) = inr p3
          /\ first_text p3 = inr t3
          /\ s1 = record 1%nat h1 p1 t1
          /\ s2 = record 2%nat h2 p2 t2
          /\ s3 = record 3%nat h3 p3 t3)
    /\ h' = h4 ++ map (fun i => GetPrompt (version_arn i)) (seq 4 17).
Proof.
  intros Hdraft Htext Hfound Hmissing. cbv zeta.
  destruct (Hfound (h ++ [GetPrompt prompt_identifier]) 1%nat ltac:(lia))
    as (p1 & t1 & Hp1 & Ht1).
  destruct (Hfound ((h ++ [GetPrompt prompt_identifier])
                    ++ [ GetPrompt (version_arn_of (arn draft) 1);
                         ListTagsForResource (version_arn_of (arn draft) 1) ])
              2%nat ltac:(lia))
    as (p2 & t2 & Hp2 & Ht2).
  destruct (Hfound (((h ++ [GetPrompt prompt_identifier])
                     ++ [ GetPrompt (version_arn_of (arn draft) 1);
                          ListTagsForResource (version_arn_of (arn draft) 1) ])
                    ++ [ GetPrompt (version_arn_of (arn draft) 2);
                         ListTagsForResource (version_arn_of (arn draft) 2) ])
              3%nat ltac:(lia))
    as (p3 & t3 & Hp3 & Ht3).
  eexists _, _, _, _, _. split.
  - unfold list_versions_with_tags.
    unfold mbind at 1 2 3.
    unfold M_bind, try_except_ClientError, call_get_prompt, lift.
    rewrite Hdraft, Htext. unfold while_versions.
    change (S max_attempts - 1)%nat with 20%nat.
    rewrite probe_loop_step, (probe_version_found _ _ _ _ _ _ _ Hp1 Ht1).
    rewrite probe_loop_step, (probe_version_found _ _ _ _ _ _ _ Hp2 Ht2).
    rewrite probe_loop_step, (probe_version_found _ _ _ _ _ _ _ Hp3 Ht3).
    rewrite probe_loop_all_missing_trace
      by (intros h0 i Hi; apply Hmissing; unfold max_attempts; lia).
    reflexivity.
  - split; [reflexivity |]. split; [reflexivity |].
    split; [reflexivity |]. split; [reflexivity |].
    split; [reflexivity |]. split; [| reflexivity].
    exists p1, t1, p2, t2, p3, t3. auto 12.
Qed.

Lemma enumerate_three_versions_witness :
  exists d s1 s2 s3 h',
    list_versions_with_tags three_versions (lit "P1") []
    = (inr [d; s1; s2; s3], h')
    /\ sum_version d = lit "DRAFT"
    /\ sum_version s1 = lit "1"
    /\ sum_version s2 = lit "2"
    /\ sum_version s3 = lit "3"
    /\ sum_content d = lit "SELECT 4..."
    /\ sum_content s1 = lit "SELECT 1..."
    /\ sum_tags s1 = {[ lit "Environment" := lit "DEV" ]}
    /\ sum_arn s3 = Some (lit "arn:p:3")
    /\ length h' = 24%nat.
Proof.
  destruct (enumerate_three_versions three_versions (lit "P1")
              (prompt_with (lit "arn:p") (lit "SELECT 4")) (lit "SELECT 4") [])
    as (d & s1 & s2 & s3 & h' & Hrun & Hd & H1 & H2 & H3 & Hdraft
        & (p1 & t1 & p2 & t2 & p3 & t3
           & Hp1 & Ht1 & _ & _ & _ & _ & Hs1 & _ & Hs3) & Hh).
  - vm_compute. reflexivity.
  - vm_compute. reflexivity.
  - intros h0 i Hi.
    assert (Hc : i = 1%nat \/ i = 2%nat \/ i = 3%nat) by lia.
    destruct Hc as [-> | [-> | ->]]; eexists _, _; split; reflexivity.
  - intros h0 i Hi.
    exists (lit "ResourceNotFoundException: no such prompt").
    assert (Hc : In i (seq 4 17))
      by (apply in_seq; unfold max_attempts in Hi; lia).
    simpl in Hc.
    repeat (destruct Hc as [<- | Hc]; [vm_compute; reflexivity |]).
    destruct Hc.
  - exists d, s1, s2, s3, h'.
    split; [exact Hrun |]. split; [exact Hd |]. split; [exact H1 |].
    split; [exact H2 |]. split; [exact H3 |].
    vm_compute in Hrun. injection Hrun as <- <- <- <- <-.
    repeat split; vm_compute; reflexivity.
Defined.

(** C6: when a version exists and the lookup of its tags fails, with
    whatever exception, the iteration adds the summary of that version
    with an empty tag set and raises nothing; and the whole enumeration
    behaves as if every failed lookup had answered with no tags. *)
Theorem tag_lookup_failure_is_swallowed
    (B : Backend) (base_arn : option str) (version_num : nat)
    (versions : list Summary) (h : list Event) (p : Prompt) (text : str)
    (e : exn) :
  get_prompt B h (version_arn_of base_arn version_num) = inr p ->
  first_text p = inr text ->
  list_tags_for_resource B
    (h ++ [GetPrompt (version_arn_of base_arn version_num)])
    (version_arn_of base_arn version_num) = inl e ->
  probe_version B base_arn version_num versions h
  = (inr (versions
          ++ [ {| sum_version := str_of_nat version_num;
                  sum_arn := Some (version_arn_of base_arn version_num);
                  sum_name := name p;
                  sum_content := preview text;
                  sum_tags := ∅ |} ]),
     h ++ [GetPrompt (version_arn_of base_arn version_num);
           ListTagsForResource (version_arn_of base_arn version_num)])
  /\ forall prompt_identifier h0,
       list_versions_with_tags B prompt_identifier h0
       = list_versions_with_tags (with_empty_tags_on_failure B)
           prompt_identifier h0.
Proof.
  intros Hget Htext Htags. split.
  - rewrite (probe_version_found _ _ _ _ _ _ _ Hget Htext), Htags.
    reflexivity.
  - intros prompt_identifier h0. unfold list_versions_with_tags.
    unfold mbind at 1 2 3 4 5 6.
    unfold M_bind, try_except_ClientError, call_get_prompt, lift. simpl.
    destruct (get_prompt B h0 prompt_identifier) as [e0 | draft];
      [reflexivity |].
    destruct (first_text draft) as [e0 | t]; [reflexivity |].
    unfold while_versions. rewrite probe_loop_empty_tags. reflexivity.
Qed.

Lemma tag_lookup_failure_is_swallowed_witness :
  probe_version three_versions (Some (lit "arn:p")) 2 [] []
  = (inr [ {| sum_version := lit "2";
              sum_arn := Some (lit "arn:p:2");
              sum_name := Some (lit "text2sql");
              sum_content := lit "SELECT 2...";
              sum_tags := ∅ |} ],
     [GetPrompt (lit "arn:p:2"); ListTagsForResource (lit "arn:p:2")]).
Proof.
  apply (tag_lookup_failure_is_swallowed three_versions (Some (lit "arn:p"))
           2%nat [] [] (prompt_with (lit "arn:p") (lit "SELECT 2"))
           (lit "SELECT 2") (OtherException (lit "AccessDeniedException"))).
  - vm_compute. reflexivity.
  - vm_compute. reflexivity.
  - vm_compute. reflexivity.
Defined.

(** C1: when the steps 1 to 6 of a promotion succeed and the read-back
    of step 7 finds a content that differs from the source content, the
    promotion prints the verification warning and returns [True]. *)
Theorem promotion_succeeds_despite_mismatch
    (B : Backend) (upper : str -> str)
    (prompt_identifier from_env to_env version_tag : str)
    (h h1 : list Event) (source_content target_prompt_id : str)
    (verification_prompt : Prompt) (verification_content : str) :
  promote_steps_1_6 B upper prompt_identifier from_env to_env version_tag h
  = (inr (Some (source_content, target_prompt_id)), h1) ->
  get_prompt B h1 target_prompt_id = inr verification_prompt ->
  first_text verification_prompt = inr verification_content ->
  verification_content <> source_content ->
  promote_version B upper prompt_identifier from_env to_env version_tag h
  = (inr true,
     h1 ++ [GetPrompt target_prompt_id; Printed VerificationWarning]).
Proof.
  intros Hsteps Hget Htext Hne.
  unfold promote_version, try_except_Exception.
  unfold mbind at 1. unfold M_bind at 1. rewrite Hsteps.
  unfold promote_step_7, mbind, M_bind, call_get_prompt, lift.
  rewrite Hget, Htext. unfold str_eqb.
  rewrite bool_decide_eq_false_2 by exact Hne.
  unfold print, mret, M_ret. rewrite <- app_assoc. reflexivity.
Qed.

(** The same run with a read-back that agrees with the source. *)
Lemma promotion_succeeds_on_match
    (B : Backend) (upper : str -> str)
    (prompt_identifier from_env to_env version_tag : str)
    (h h1 : list Event) (source_content target_prompt_id : str)
    (verification_prompt : Prompt) :
  promote_steps_1_6 B upper prompt_identifier from_env to_env version_tag h
  = (inr (Some (source_content, target_prompt_id)), h1) ->
  get_prompt B h1 target_prompt_id = inr verification_prompt ->
  first_text verification_prompt = inr source_content ->
  promote_version B upper prompt_identifier from_env to_env version_tag h
  = (inr true,
     h1 ++ [GetPrompt target_prompt_id;
            Printed (VerificationSuccessful (upper to_env))]).
Proof.
  intros Hsteps Hget Htext.
  unfold promote_version, try_except_Exception.
  unfold mbind at 1. unfold M_bind at 1. rewrite Hsteps.
  unfold promote_step_7, mbind, M_bind, call_get_prompt, lift.
  rewrite Hget, Htext. unfold str_eqb.
  rewrite bool_decide_eq_true_2 by reflexivity.
  unfold print, mret, M_ret. rewrite <- app_assoc. reflexivity.
Qed.

Lemma promotion_succeeds_despite_mismatch_witness :
  (promote_version two_environments ascii_upper (lit "P1") (lit "dev")
     (lit "prod") (lit "v1.3.0") []).1 = inr true.
Proof.
  rewrite (promotion_succeeds_despite_mismatch two_environments ascii_upper
             (lit "P1") (lit "dev") (lit "prod") (lit "v1.3.0") []
             (promote_steps_1_6 two_environments ascii_upper (lit "P1")
                (lit "dev") (lit "prod") (lit "v1.3.0") []).2
             (lit "SELECT 1") (lit "P2")
             (prompt_with (lit "arn:q") (lit "SELECT 0")) (lit "SELECT 0")).
  - reflexivity.
  - vm_compute. reflexivity.
  - vm_compute. reflexivity.
  - vm_compute. reflexivity.
  - vm_compute. discriminate.
Defined.

Ltac lookup_in_dict :=
  unfold dict_of; cbn [foldl fst snd];
  repeat (rewrite lookup_insert_ne by (vm_compute; discriminate));
  apply lookup_insert_eq.

(** No environment has 'ROLLBACK' as its default Environment tag. *)
Lemma default_environment_tag_not_rollback (env : str) :
  Some (lit "ROLLBACK") <> base_tags_of env !! lit "Environment".
Proof.
  unfold base_tags_of, ENVIRONMENT_CONFIG.
  destruct (decide (env = lit "prod")) as [-> | Hprod].
  - rewrite lookup_insert_eq. vm_compute. discriminate.
  - rewrite lookup_insert_ne by congruence.
    destruct (decide (env = lit "dev")) as [-> | Hdev].
    + rewrite lookup_insert_eq. vm_compute. discriminate.
    + rewrite lookup_insert_ne by congruence.
      rewrite lookup_empty. rewrite lookup_empty. discriminate.
Qed.

Lemma rollback_tags_lookup (upper : str -> str)
    (self_environment target_version rollback_date rollback_reason : str) :
  let tags := rollback_tags upper self_environment target_version
                rollback_date rollback_reason in
  tags !! lit "Environment" = Some (lit "ROLLBACK")
  /\ tags !! lit "Environment"
     <> base_tags_of self_environment !! lit "Environment"
  /\ tags !! lit "RollbackFrom" = Some (lit "DRAFT")
  /\ tags !! lit "RollbackTo" = Some target_version
  /\ tags !! lit "RollbackDate" = Some rollback_date
  /\ tags !! lit "RollbackReason" = Some rollback_reason.
Proof.
  unfold rollback_tags. cbv zeta.
  assert (HE : dict_of ∅
                 [(lit "Environment", lit "ROLLBACK");
                  (lit "RollbackFrom", lit "DRAFT");
                  (lit "RollbackTo", target_version);
                  (lit "RollbackDate", rollback_date);
                  (lit "RollbackReason", rollback_reason);
                  (lit "Status", lit "ROLLBACK_COMPLETE");
                  (lit "SourceEnvironment", upper self_environment)]
               !! lit "Environment" = Some (lit "ROLLBACK"))
    by lookup_in_dict.
  split; [exact HE |].
  split; [rewrite HE; apply default_environment_tag_not_rollback |].
  repeat split; lookup_in_dict.
Qed.

(** C4: a rollback that succeeds, started from any environment, tags
    the version it has just created with the dict [rollback_tags], in
    which Environment is 'ROLLBACK' (and not the default tag of the
    environment, such as 'DEV'), RollbackFrom is 'DRAFT', RollbackTo is
    the target version, RollbackDate is the date of the clock and
    RollbackReason is the reason given. *)
Theorem rollback_attaches_rollback_tags
    (B : Backend) (upper : str -> str)
    (self_environment prompt_identifier target_version rollback_reason : str)
    (h h' : list Event) :
  rollback_to_version B upper self_environment prompt_identifier
    target_version rollback_reason h = (inr true, h') ->
  exists h1 version_description rollback_version,
    create_prompt_version B h1 prompt_identifier version_description
    = inr rollback_version
    /\ let rollback_date :=
         strftime B
           (h1 ++ [CreatePromptVersion prompt_identifier version_description])
           (lit "%Y-%m-%d") in
       let tags := rollback_tags upper self_environment target_version
                     rollback_date rollback_reason in
       h' = h1 ++ [ CreatePromptVersion prompt_identifier version_description;
                    Strftime (lit "%Y-%m-%d");
                    TagResource (version_arn rollback_version) tags;
                    Printed (SuccessfullyRolledBack target_version);
                    Printed (NewRollbackVersion (version rollback_version));
                    Printed (RollbackReasonLine rollback_reason) ]
       /\ tags !! lit "Environment" = Some (lit "ROLLBACK")
       /\ tags !! lit "Environment"
          <> base_tags_of self_environment !! lit "Environment"
       /\ tags !! lit "RollbackFrom" = Some (lit "DRAFT")
       /\ tags !! lit "RollbackTo" = Some target_version
       /\ tags !! lit "RollbackDate" = Some rollback_date
       /\ tags !! lit "RollbackReason" = Some rollback_reason.
Proof.
  intros Hrun. unfold rollback_to_version in Hrun.
  unfold try_except_ClientError in Hrun.
  match type of Hrun with
  | (match ?body h with _ => _ end) = _ =>
      destruct (body h) as [[e | b] hb] eqn:Hbody
  end.
  { destruct e; unfold_m; discriminate. }
  injection Hrun as -> ->.
  unfold mbind, M_bind in Hbody.
  unfold call_get_prompt at 1 in Hbody.
  destruct (get_prompt B h prompt_identifier) as [e | current_prompt];
    [discriminate |].
  match type of Hbody with
  | (match ?fetch ?h0 with _ => _ end) = _ =>
      destruct (fetch h0) as [[e | target_prompt] h2]; [discriminate |]
  end.
  unfold lift in Hbody.
  destruct (first_text target_prompt) as [e | target_content];
    [discriminate |].
  destruct (update_variants _ _) as [e | updated_variants]; [discriminate |].
  unfold call_update_prompt in Hbody.
  destruct (update_prompt B h2 _ _ _ _) as [e | []]; [discriminate |].
  unfold call_create_prompt_version in Hbody.
  match type of Hbody with
  | context [create_prompt_version B ?h3 ?i ?d] =>
      destruct (create_prompt_version B h3 i d) as [e | rollback_version]
        eqn:Hcreate; [discriminate |];
      exists h3, d, rollback_version
  end.
  split; [exact Hcreate |].
  unfold now_strftime, call_tag_resource in Hbody.
  destruct (tag_resource B _ _ _) as [e | []]; [discriminate |].
  unfold print, mret, M_ret in Hbody.
  injection Hbody as <-.
  cbv zeta.
  match goal with
  | |- context [rollback_tags upper _ _ ?d _] =>
      pose proof (rollback_tags_lookup upper self_environment target_version
                    d rollback_reason) as Htags
  end.
  split; [| exact Htags].
  repeat rewrite <- app_assoc. reflexivity.
Qed.

Lemma rollback_attaches_rollback_tags_witness :
  exists resourceArn tags,
    In (TagResource resourceArn tags)
       (rollback_to_version three_versions ascii_upper (lit "prod")
          (lit "P1") (lit "2") (lit "bad release") []).2
    /\ tags !! lit "Environment" = Some (lit "ROLLBACK")
    /\ tags !! lit "RollbackFrom" = Some (lit "DRAFT")
    /\ tags !! lit "RollbackTo" = Some (lit "2")
    /\ tags !! lit "RollbackDate" = Some (lit "2025-01-31")
    /\ tags !! lit "RollbackReason" = Some (lit "bad release").
Proof.
  destruct (rollback_attaches_rollback_tags three_versions ascii_upper
              (lit "prod") (lit "P1") (lit "2") (lit "bad release") []
              (rollback_to_version three_versions ascii_upper (lit "prod")
                 (lit "P1") (lit "2") (lit "bad release") []).2)
    as (h1 & d & rv & _ & Hh & HE & _ & HF & HT & HD & HR).
  - vm_compute. reflexivity.
  - eexists _, _. split; [| split; [exact HE | split; [exact HF |
      split; [exact HT | split; [exact HD | exact HR]]]]].
    rewrite Hh. apply in_or_app. right. simpl. auto.
Defined.

(** * Properties of the text grouping pipeline *)

Import Translate.

(** ** Facts about [strip], [find] and slices *)

Lemma lstrip_nil_all_space (s : str) :
  lstrip s = [] -> forall c, In c s -> isspace c = true.
Proof.
  induction s as [| a s IH]; simpl; [tauto |].
  destruct (isspace a) eqn:Ha; [| discriminate].
  intros Hs c [<- | Hc]; auto.
Qed.

Lemma lstrip_head_not_space (s : str) c t :
  lstrip s = c :: t -> isspace c = false.
Proof.
  induction s as [| a s IH]; simpl; [discriminate |].
  destruct (isspace a) eqn:Ha; [exact IH |].
  intros [= <- _]. exact Ha.
Qed.

Lemma lstrip_suffix (s : str) : exists pre, s = pre ++ lstrip s.
Proof.
  induction s as [| a s [pre IH]]; simpl; [exists []; reflexivity |].
  destruct (isspace a).
  - exists (a :: pre). simpl. f_equal. exact IH.
  - exists []. reflexivity.
Qed.

(** A text that [strip] empties consists of white space. *)
Lemma strip_nil_all_space (s : str) :
  strip s = [] -> forall c, In c s -> isspace c = true.
Proof.
  unfold strip, rstrip. intros Hs.
  assert (Hrev : lstrip (rev (lstrip s)) = []).
  { destruct (lstrip (rev (lstrip s))) as [| c t]; [reflexivity |].
    simpl in Hs. apply app_eq_nil in Hs as [_ Hs]. discriminate. }
  assert (Hl : lstrip s = []).
  { destruct (lstrip s) as [| c t] eqn:Hc; [reflexivity |].
    pose proof (lstrip_head_not_space _ _ _ Hc) as Hns.
    rewrite (lstrip_nil_all_space _ Hrev c) in Hns; [discriminate |].
    apply in_rev. rewrite rev_involutive. left. reflexivity. }
  apply lstrip_nil_all_space. exact Hl.
Qed.

Lemma startswith_app (sub s : str) :
  startswith sub s = true -> exists post, s = sub ++ post.
Proof.
  revert s. induction sub as [| a sub IH]; intros s.
  - exists s. reflexivity.
  - destruct s as [| b s]; simpl; [discriminate |].
    intros H. apply andb_prop in H as [Hab Hrest].
    apply N.eqb_eq in Hab. subst b.
    destruct (IH _ Hrest) as [post ->]. exists post. reflexivity.
Qed.

Lemma startswith_refl_app (sub post : str) : startswith sub (sub ++ post) = true.
Proof.
  induction sub as [| a sub IH]; [reflexivity |].
  simpl. rewrite N.eqb_refl. exact IH.
Qed.

Lemma find_aux_occurrence (sub s : str) pos i :
  find_aux sub s pos = Some i ->
  exists pre post, s = pre ++ sub ++ post /\ i = (pos + length pre)%nat.
Proof.
  revert pos. induction s as [| a s IH]; intros pos; simpl.
  - destruct (startswith sub []) eqn:Hs; [| discriminate].
    intros [= <-]. destruct (startswith_app _ _ Hs) as [post Hp].
    exists [], post. simpl. split; [exact Hp | lia].
  - destruct (startswith sub (a :: s)) eqn:Hs.
    + intros [= <-]. destruct (startswith_app _ _ Hs) as [post Hp].
      exists [], post. simpl. split; [exact Hp | lia].
    + intros H. destruct (IH _ H) as (pre & post & -> & ->).
      exists (a :: pre), post. simpl. split; [reflexivity | lia].
Qed.

(** [sub in s] holds only if the first character of [sub] is in [s]. *)
Lemma contains_head (c : N) (sub s : str) :
  contains (c :: sub) s = true -> In c s.
Proof.
  unfold contains, find. change (0 <? 0) with false. cbv iota zeta.
  destruct (Z.ltb_spec (Z.of_nat (length s)) 0) as [Hneg | _]; [lia |].
  change (Z.to_nat 0) with 0%nat. rewrite drop_0.
  destruct (find_aux (c :: sub) s 0) as [i |] eqn:Hf;
    [| simpl; discriminate].
  intros _. apply find_aux_occurrence in Hf as (pre & post & -> & _).
  apply in_or_app. right. left. reflexivity.
Qed.

(** A reply with a fence marker is not blank. *)
Lemma fenced_reply_not_blank (reply : str) :
  contains json_fence reply = true ->
  str_eqb reply [] || str_eqb (strip reply) [] = false.
Proof.
  intros Hc. apply contains_head in Hc.
  apply orb_false_intro; unfold str_eqb; apply bool_decide_eq_false_2.
  - intros ->. destruct Hc.
  - intros Hs. pose proof (strip_nil_all_space _ Hs _ Hc) as Hsp.
    vm_compute in Hsp. discriminate.
Qed.

Lemma slice_from_drop (s : str) (n : nat) :
  slice_from s (Z.of_nat n) = drop n s.
Proof.
  unfold slice_from, clamp.
  destruct (Z.ltb_spec (Z.of_nat n) 0) as [Hneg | _]; [lia |].
  destruct (Nat.le_gt_cases n (length s)) as [Hle | Hgt].
  - f_equal. lia.
  - rewrite Z.max_r, Z.min_r by lia. rewrite Nat2Z.id.
    rewrite !drop_ge by lia. reflexivity.
Qed.

Lemma slice_take_drop (s : str) (a b : nat) :
  (a <= b <= length s)%nat ->
  slice s (Z.of_nat a) (Z.of_nat b) = take (b - a) (drop a s).
Proof.
  intros Hab. unfold slice, clamp.
  destruct (Z.ltb_spec (Z.of_nat a) 0) as [Hneg | _]; [lia |].
  destruct (Z.ltb_spec (Z.of_nat b) 0) as [Hneg | _]; [lia |].
  rewrite !Z.max_r, !Z.min_l by lia. rewrite !Nat2Z.id. reflexivity.
Qed.

Lemma find_from_start (s sub : str) :
  find s sub 0 = match find_aux sub s 0 with
                 | Some i => Z.of_nat i
                 | None => -1
                 end.
Proof.
  unfold find. change (0 <? 0) with false. cbv iota zeta.
  destruct (Z.ltb_spec (Z.of_nat (length s)) 0) as [Hneg | _]; [lia |].
  change (Z.to_nat 0) with 0%nat. rewrite drop_0. reflexivity.
Qed.

(** Where [sub in s] holds, [find] gives the place of an occurrence. *)
Lemma contains_find (sub s : str) :
  contains sub s = true ->
  exists pre post,
    s = pre ++ sub ++ post /\ find s sub 0 = Z.of_nat (length pre).
Proof.
  unfold contains. rewrite find_from_start.
  destruct (find_aux sub s 0) as [i |] eqn:Hf; [| simpl; discriminate].
  intros _. apply find_aux_occurrence in Hf as (pre & post & -> & ->).
  exists pre, post. split; reflexivity.
Qed.

Lemma find_aux_none_shift (sub s : str) (p q : nat) :
  find_aux sub s p = None -> find_aux sub s q = None.
Proof.
  revert p q. induction s as [| a s IH]; intros p q; simpl.
  - destruct (startswith sub []); [discriminate | reflexivity].
  - destruct (startswith sub (a :: s)); [discriminate |]. apply IH.
Qed.

Lemma find_from_nat (s sub : str) (n : nat) :
  (n <= length s)%nat ->
  find s sub (Z.of_nat n) = match find_aux sub (drop n s) n with
                            | Some i => Z.of_nat i
                            | None => -1
                            end.
Proof.
  intros Hn. unfold find.
  destruct (Z.ltb_spec (Z.of_nat n) 0) as [Hneg | _]; [lia |].
  cbv zeta.
  destruct (Z.ltb_spec (Z.of_nat (length s)) (Z.of_nat n)) as [Hlt | _];
    [lia |].
  rewrite Nat2Z.id. reflexivity.
Qed.

(** No occurrence of [sub] from the end of [pre ++ mid] on means that
    [sub] does not occur in the rest. *)
Lemma find_after_none (pre mid rest sub : str) :
  find (pre ++ mid ++ rest) sub (Z.of_nat (length pre + length mid)) = -1 ->
  contains sub rest = false.
Proof.
  rewrite find_from_nat by (rewrite !length_app; lia).
  rewrite app_assoc, <- length_app, drop_app_length.
  unfold contains. rewrite find_from_start.
  destruct (find_aux sub rest (length (pre ++ mid))) as [i |] eqn:Hf;
    [lia |].
  intros _. rewrite (find_aux_none_shift _ _ _ 0%nat Hf). reflexivity.
Qed.

(** ** A reply that is one long integer literal *)

Lemma replicate_snoc (n : nat) (c : N) :
  replicate n c ++ [c] = c :: replicate n c.
Proof. induction n as [| n IH]; simpl; [| rewrite IH]; reflexivity. Qed.

Lemma rev_replicate (n : nat) (c : N) : rev (replicate n c) = replicate n c.
Proof.
  induction n as [| n IH]; simpl; [reflexivity |].
  rewrite IH. apply replicate_snoc.
Qed.

Lemma find_aux_cons_ones (c0 : N) (sub rest : str) (pos : nat) :
  (c0 =? 49)%N = false ->
  find_aux (c0 :: sub) (49%N :: rest) pos
  = find_aux (c0 :: sub) rest (S pos).
Proof. intros Hc. cbn [find_aux startswith]. rewrite Hc. reflexivity. Qed.

(** A marker that starts with another character does not occur among
    the digits. *)
Lemma find_aux_ones (c0 : N) (sub : str) (n : nat) :
  c0 <> 49%N ->
  forall pos, find_aux (c0 :: sub) (replicate n 49%N) pos = None.
Proof.
  intros Hc. apply N.eqb_neq in Hc.
  induction n as [| n IH]; intros pos; [reflexivity |].
  cbn [replicate]. rewrite find_aux_cons_ones by exact Hc. apply IH.
Qed.

(** A reply of [n + 1] digits 1: nothing is stripped from it, it has no
    fence, and the decoder reads it as one integer literal of [n + 1]
    digits. *)
Lemma ones_reply (n : nat) :
  let reply := replicate (S n) 49%N in
  reply <> []
  /\ strip reply = reply
  /\ json_text_of reply = reply
  /\ Decoder.leading_int_digits (Ref.skip_ws reply) = Some (S n).
Proof.
  cbv zeta.
  assert (Hstrip : strip (replicate (S n) 49%N) = replicate (S n) 49%N).
  { unfold strip, rstrip.
    change (lstrip (replicate (S n) 49%N)) with (replicate (S n) 49%N).
    rewrite rev_replicate.
    change (lstrip (replicate (S n) 49%N)) with (replicate (S n) 49%N).
    apply rev_replicate. }
  assert (Hspan : forall k, Ref.span_digits (replicate k 49%N)
                            = (replicate k 49%N, [])).
  { induction k as [| k IH]; [reflexivity |].
    cbn [replicate Ref.span_digits].
    change (Ref.is_digit 49%N) with true. cbv iota.
    rewrite IH. reflexivity. }
  split; [discriminate |]. split; [exact Hstrip |]. split.
  - unfold json_text_of, contains. rewrite !find_from_start.
    change json_fence with (96%N :: lit "``json").
    change fence with (96%N :: lit "``").
    rewrite !find_aux_ones by discriminate. exact Hstrip.
  - change (Ref.skip_ws (replicate (S n) 49%N)) with (replicate (S n) 49%N).
    pose proof (Hspan (S n)) as Hs.
    pose proof (length_replicate (S n) 49%N) as Hlen.
    change (replicate (S n) 49%N) with (49%N :: replicate n 49%N) in *.
    generalize dependent (replicate n 49%N). intros rest _ Hs Hlen.
    unfold Decoder.leading_int_digits, Ref.parse_number.
    cbv beta iota. change (Ref.is_digit 49%N) with true. cbv iota.
    rewrite Hs. cbv beta iota. cbn [fst]. rewrite Hlen. reflexivity.
Qed.

(** C8, as stated, fails: a reply that is one integer literal of 4301
    digits is not blank and [json.loads] fails on it, with the
    [ValueError] of [int()]; step 4 does not return the group 'General'
    then, the exception leaves it. A shorter literal is parsed. *)
Lemma long_integer_reply_is_not_recovered :
  let reply := replicate 4301 49%N in
  reply <> []
  /\ strip reply <> []
  /\ json_text_of reply = reply
  /\ Decoder.json_loads (json_text_of reply)
     = inl (OtherException (lit "ValueError"))
  /\ extract_groups Decoder.json_loads Ref.py_str (Some reply)
     = inl (OtherException (lit "ValueError"))
  /\ Decoder.json_loads (lit "12") = inr (PInt 12).
Proof.
  cbv zeta.
  destruct (ones_reply 4300) as (Hne & Hstrip & Htext & Hdigits).
  assert (Hloads : Decoder.json_loads (replicate 4301 49%N)
                   = inl (OtherException (lit "ValueError"))).
  { unfold Decoder.json_loads. rewrite Hdigits.
    change (Decoder.int_max_str_digits <? 4301)%nat with true.
    reflexivity. }
  split; [exact Hne |].
  split; [rewrite Hstrip; exact Hne |].
  split; [exact Htext |].
  split; [rewrite Htext; exact Hloads |].
  split; [| vm_compute; reflexivity].
  unfold extract_groups, str_eqb. rewrite Hstrip.
  rewrite bool_decide_eq_false_2 by exact Hne. cbn [orb].
  rewrite Htext, Hloads. reflexivity.
Qed.

Section PipelineFacts.

Variable json_loads : str -> result PyVal.
Variable py_str : PyVal -> str.

(** C8 (amended): when the reply is not blank and [json.loads] rejects
    the text taken from it with a [JSONDecodeError], step 4 returns the
    single group 'General' whose texts are the reply as it was received,
    and raises nothing. An exception of another class that [json.loads]
    raises is not caught: it leaves step 4. *)
Theorem malformed_reply_falls_back (reply : str) :
  reply <> [] ->
  strip reply <> [] ->
  (json_loads (json_text_of reply) = inl JSONDecodeError ->
   extract_groups json_loads py_str (Some reply)
   = inr (PList [ PDict [ (lit "category", PStr (lit "General"));
                          (lit "texts", PList [PStr reply]) ] ]))
  /\ (forall e,
        json_loads (json_text_of reply) = inl e ->
        e <> JSONDecodeError ->
        extract_groups json_loads py_str (Some reply) = inl e).
Proof.
  intros Hne Hstrip. unfold extract_groups, str_eqb.
  rewrite !bool_decide_eq_false_2 by assumption. simpl.
  split.
  - intros Hparse. rewrite Hparse. reflexivity.
  - intros e Hparse He. rewrite Hparse.
    destruct e; congruence.
Qed.

(** C10: when the reply contains the marker [```json] and no [```]
    follows it, the text given to [json.loads] is everything after the
    first marker up to the end of the reply, stripped; and when that
    text parses as a list, step 4 returns one group per element of the
    list, numbered from 1. *)
Theorem unclosed_json_fence_takes_rest (reply : str) :
  contains json_fence reply = true ->
  find reply fence (find reply json_fence 0 + 7) = -1 ->
  exists pre rest,
    reply = pre ++ json_fence ++ rest
    /\ find reply json_fence 0 = Z.of_nat (length pre)
    /\ contains fence rest = false
    /\ json_text_of reply = strip rest
    /\ forall parsed_result,
         json_loads (strip rest) = inr (PList parsed_result) ->
         extract_groups json_loads py_str (Some reply)
         = inr (PList (imap numbered_group parsed_result))
         /\ length (imap numbered_group parsed_result)
            = length parsed_result.
Proof.
  intros Hc Hend.
  destruct (contains_find _ _ Hc) as (pre & rest & Hreply & Hfind).
  exists pre, rest.
  assert (Htext : json_text_of reply = strip rest).
  { unfold json_text_of. rewrite Hc, Hend. simpl negb. cbv iota.
    rewrite Hfind.
    replace (Z.of_nat (length pre) + 7) with (Z.of_nat (length pre + 7))
      by lia.
    rewrite slice_from_drop. rewrite Hreply at 1.
    rewrite drop_app_add. reflexivity. }
  split; [exact Hreply |]. split; [exact Hfind |].
  split.
  { apply (find_after_none pre json_fence rest fence).
    rewrite <- Hreply. rewrite <- Hend, Hfind. f_equal.
    change (length json_fence) with 7%nat. lia. }
  split; [exact Htext |].
  intros parsed_result Hparse. split; [| apply length_imap].
  unfold extract_groups. rewrite (fenced_reply_not_blank _ Hc).
  rewrite Htext, Hparse. reflexivity.
Qed.

End PipelineFacts.

(** ** The first fence of a reply *)

Lemma find_aux_cons (sub : str) (a : N) (s : str) (pos : nat) :
  find_aux sub (a :: s) pos
  = if startswith sub (a :: s) then Some pos else find_aux sub s (S pos).
Proof. reflexivity. Qed.

(** The marker does not overlap itself: an occurrence that starts in a
    text [t] in front of a marker lies within [t]. *)
Lemma json_fence_no_straddling (t tail : str) :
  t <> [] ->
  startswith json_fence t = false ->
  startswith json_fence (t ++ json_fence ++ tail) = false.
Proof.
  intros Hne Ht.
  destruct (startswith json_fence (t ++ json_fence ++ tail)) eqn:Hs;
    [| reflexivity].
  exfalso. apply startswith_app in Hs as [post Hp].
  destruct t as [| c1 [| c2 [| c3 [| c4 [| c5 [| c6 [| c7 t]]]]]]];
    [congruence | vm_compute in Hp; discriminate Hp ..|].
  vm_compute in Hp. inversion Hp; subst.
  vm_compute in Ht. discriminate Ht.
Qed.

Lemma find_aux_json_fence_app (pre tail : str) :
  forall p q,
    find_aux json_fence pre p = None ->
    find_aux json_fence (pre ++ json_fence ++ tail) q
    = Some (q + length pre)%nat.
Proof.
  induction pre as [| a pre IH]; intros p q Hnone.
  - change ([] ++ json_fence ++ tail) with (json_fence ++ tail).
    destruct tail; simpl; f_equal; lia.
  - rewrite find_aux_cons in Hnone.
    destruct (startswith json_fence (a :: pre)) eqn:Hs; [discriminate |].
    change ((a :: pre) ++ json_fence ++ tail)
      with (a :: (pre ++ json_fence ++ tail)).
    rewrite find_aux_cons.
    change (a :: (pre ++ json_fence ++ tail))
      with ((a :: pre) ++ json_fence ++ tail).
    rewrite json_fence_no_straddling by (discriminate || exact Hs).
    rewrite (IH _ (S q) Hnone). simpl. f_equal. lia.
Qed.

(** The first marker of a reply [pre ++ fenced_block ++ post] in which
    [pre] has no marker is the one of the block, and the fence that
    follows it is the one that closes the block. *)
Lemma fenced_block_json_text (pre post : str) :
  contains json_fence pre = false ->
  contains json_fence (pre ++ fenced_block ++ post) = true
  /\ json_text_of (pre ++ fenced_block ++ post) = two_lists_text.
Proof.
  intros Hpre.
  assert (Hnone : find_aux json_fence pre 0 = None).
  { unfold contains in Hpre. rewrite find_from_start in Hpre.
    destruct (find_aux json_fence pre 0); [| reflexivity].
    simpl in Hpre. destruct (Z.eqb_spec (Z.of_nat n) (-1)); [lia |].
    discriminate. }
  set (inner := newline ++ two_lists_text ++ newline ++ fence ++ post).
  assert (Hreply : pre ++ fenced_block ++ post = pre ++ json_fence ++ inner).
  { unfold fenced_block, inner. rewrite <- !app_assoc. reflexivity. }
  rewrite Hreply.
  assert (Hfind : find (pre ++ json_fence ++ inner) json_fence 0
                  = Z.of_nat (length pre)).
  { rewrite find_from_start.
    rewrite (find_aux_json_fence_app pre inner 0%nat 0%nat Hnone).
    reflexivity. }
  assert (Hc : contains json_fence (pre ++ json_fence ++ inner) = true).
  { unfold contains. rewrite Hfind.
    destruct (Z.eqb_spec (Z.of_nat (length pre)) (-1)); [lia | reflexivity]. }
  split; [exact Hc |].
  assert (Hlen : (length pre + 7 + 18 <= length (pre ++ json_fence ++ inner))%nat).
  { rewrite !length_app. unfold inner. rewrite !length_app.
    change (length json_fence) with 7%nat.
    change (length newline) with 1%nat.
    change (length two_lists_text) with 13%nat.
    change (length fence) with 3%nat. lia. }
  assert (Hdrop : drop (length pre + 7) (pre ++ json_fence ++ inner) = inner).
  { rewrite drop_app_add. reflexivity. }
  assert (Hend : find (pre ++ json_fence ++ inner) fence
                   (Z.of_nat (length pre) + 7)
                 = Z.of_nat (15 + (length pre + 7))).
  { replace (Z.of_nat (length pre) + 7) with (Z.of_nat (length pre + 7))
      by lia.
    rewrite find_from_nat by lia. rewrite Hdrop.
    unfold inner. generalize (length pre + 7)%nat. intros n.
    vm_compute. reflexivity. }
  unfold json_text_of. rewrite Hc, Hfind, Hend.
  destruct (Z.eqb_spec (Z.of_nat (15 + (length pre + 7))) (-1)); [lia |].
  simpl negb. cbv iota.
  replace (Z.of_nat (length pre) + 7) with (Z.of_nat (length pre + 7))
    by lia.
  rewrite slice_take_drop by lia. rewrite Hdrop.
  replace (15 + (length pre + 7) - (length pre + 7))%nat with 15%nat by lia.
  unfold inner. vm_compute. reflexivity.
Qed.

(** C7, as stated, fails: a reply can contain the fenced block and
    still not yield its two groups, because the text of the first
    fence of the reply is the one that is parsed. *)
Lemma earlier_fence_is_parsed_instead :
  (exists pre post, reply_with_two_blocks = pre ++ fenced_block ++ post)
  /\ Ref.json_loads two_lists_text = inr two_lists
  /\ json_text_of reply_with_two_blocks = lit "[]"
  /\ extract_groups Ref.json_loads Ref.py_str (Some reply_with_two_blocks)
     = inr (PList []).
Proof.
  split.
  - exists (json_fence ++ newline ++ lit "[]" ++ newline ++ fence ++ newline),
      [].
    vm_compute. reflexivity.
  - repeat split; vm_compute; reflexivity.
Qed.

Section FencedReply.

Variable json_loads : str -> result PyVal.
Variable py_str : PyVal -> str.

(** C7 (amended): when the marker of the fenced block is the first
    [```json] of the reply, the text between the fences of the block is
    what is parsed, and the two elements of the list become the groups
    'Group 1' and 'Group 2'. When there is no reply, or a reply of white
    space only, the result is the single group 'General' with the
    placeholder text. *)
Theorem first_fenced_block_is_parsed (pre post blank : str) :
  contains json_fence pre = false ->
  json_loads two_lists_text = inr two_lists ->
  strip blank = [] ->
  json_text_of (pre ++ fenced_block ++ post) = two_lists_text
  /\ extract_groups json_loads py_str (Some (pre ++ fenced_block ++ post))
     = inr (PList
              [ PDict [ (lit "category", PStr (lit "Group 1"));
                        (lit "texts", PList [PStr (lit "a")]) ];
                PDict [ (lit "category", PStr (lit "Group 2"));
                        (lit "texts", PList [PStr (lit "b")]) ] ])
  /\ extract_groups json_loads py_str (Some blank)
     = inr (PList [ PDict [ (lit "category", PStr (lit "General"));
                            (lit "texts", PList [PStr no_response]) ] ])
  /\ extract_groups json_loads py_str None
     = inr (PList [ PDict [ (lit "category", PStr (lit "General"));
                            (lit "texts", PList [PStr no_response]) ] ]).
Proof.
  intros Hpre Hparse Hblank.
  destruct (fenced_block_json_text pre post Hpre) as [Hc Htext].
  split; [exact Htext |]. split; [| split; [| reflexivity]].
  - unfold extract_groups. rewrite (fenced_reply_not_blank _ Hc).
    rewrite Htext, Hparse. reflexivity.
  - unfold extract_groups, str_eqb. rewrite Hblank.
    rewrite (bool_decide_eq_true_2 ([] = [])) by reflexivity.
    rewrite orb_true_r. reflexivity.
Qed.

End FencedReply.

Lemma first_fenced_block_is_parsed_witness :
  extract_groups Ref.json_loads Ref.py_str
    (Some (lit "Here are the groups: " ++ fenced_block ++ lit " Done."))
  = inr (PList
           [ PDict [ (lit "category", PStr (lit "Group 1"));
                     (lit "texts", PList [PStr (lit "a")]) ];
             PDict [ (lit "category", PStr (lit "Group 2"));
                     (lit "texts", PList [PStr (lit "b")]) ] ])
  /\ extract_groups Ref.json_loads Ref.py_str (Some (lit "  " ++ newline))
     = inr (PList [ PDict [ (lit "category", PStr (lit "General"));
                            (lit "texts", PList [PStr no_response]) ] ]).
Proof.
  destruct (first_fenced_block_is_parsed Ref.json_loads Ref.py_str
              (lit "Here are the groups: ") (lit " Done.")
              (lit "  " ++ newline)) as (_ & Hgroups & Hblank & _).
  - vm_compute. reflexivity.
  - vm_compute. reflexivity.
  - vm_compute. reflexivity.
  - split; [exact Hgroups | exact Hblank].
Defined.

Lemma malformed_reply_falls_back_witness :
  extract_groups Ref.json_loads Ref.py_str (Some (lit "I found no text."))
  = inr (PList [ PDict [ (lit "category", PStr (lit "General"));
                         (lit "texts",
                          PList [PStr (lit "I found no text.")]) ] ]).
Proof.
  apply (malformed_reply_falls_back Ref.json_loads Ref.py_str
           (lit "I found no text.")).
  - vm_compute. discriminate.
  - vm_compute. discriminate.
  - vm_compute. reflexivity.
Defined.

Lemma unclosed_json_fence_takes_rest_witness :
  json_text_of unclosed_reply = two_lists_text
  /\ extract_groups Ref.json_loads Ref.py_str (Some unclosed_reply)
     = inr (PList
              [ PDict [ (lit "category", PStr (lit "Group 1"));
                        (lit "texts", PList [PStr (lit "a")]) ];
                PDict [ (lit "category", PStr (lit "Group 2"));
                        (lit "texts", PList [PStr (lit "b")]) ] ]).
Proof.
  destruct (unclosed_json_fence_takes_rest Ref.json_loads Ref.py_str
              unclosed_reply)
    as (pre & rest & Hreply & Hfind & _ & Htext & Hgroups).
  - vm_compute. reflexivity.
  - vm_compute. reflexivity.
  - split; [vm_compute; reflexivity |].
    apply (Hgroups [PList [PStr (lit "a")]; PList [PStr (lit "b")]]).
    rewrite <- Htext. vm_compute. reflexivity.
Defined.

(** ** The rows of the translation document *)


Section DocumentFacts.

Variable py_str : PyVal -> str.
Variables source_language target_language : str.







End DocumentFacts.


(** * Further properties of the prompt version controller *)

Import Notions.

(** ** The loop that rewrites the variants *)

(** X1: the rewriting of the variants succeeds exactly when every
    variant has a text configuration; it then keeps the number, the
    order and the other fields of the variants and puts the new content
    into each of them. Otherwise it raises [KeyError]. *)
Theorem update_variants_spec (content : str) (vs : list Variant) :
  (Forall (fun v => templateText v <> NoTextConfiguration) vs ->
   exists vs',
     update_variants content vs = inr vs'
     /\ length vs' = length vs
     /\ map otherFields vs' = map otherFields vs
     /\ Forall (holds_text content) vs')
  /\ (Exists (fun v => templateText v = NoTextConfiguration) vs ->
      update_variants content vs = inl KeyError).
Proof.
  induction vs as [| v vs [IHok IHko]]; split.
  - intros _. exists []. repeat split; constructor.
  - intros H. inversion H.
  - intros H. inversion H as [| ? ? Hv Hvs]; subst.
    destruct (IHok Hvs) as (vs' & Hrun & Hlen & Hother & Htext).
    simpl. unfold set_text.
    destruct (templateText v) as [| t] eqn:Hslot; [congruence |].
    rewrite Hrun. eexists. split; [reflexivity |]. simpl.
    repeat split; [congruence | congruence |].
    constructor; [reflexivity | exact Htext].
  - intros H. simpl. unfold set_text.
    destruct (templateText v) as [| t] eqn:Hslot; [reflexivity |].
    inversion H as [? ? Hv | ? ? Hvs]; subst; [congruence |].
    rewrite (IHko Hvs). reflexivity.
Qed.

Lemma update_variants_spec_witness :
  exists vs',
    update_variants (lit "SELECT 1")
      [ {| templateText := TextConfiguration None;
           otherFields := [(lit "name", lit "a")] |};
        {| templateText := TextConfiguration (Some (lit "old"));
           otherFields := [(lit "name", lit "b")] |} ] = inr vs'
    /\ length vs' = 2%nat
    /\ map otherFields vs' = [[(lit "name", lit "a")]; [(lit "name", lit "b")]]
    /\ Forall (holds_text (lit "SELECT 1")) vs'.
Proof.
  apply (update_variants_spec (lit "SELECT 1")
           [ {| templateText := TextConfiguration None;
                otherFields := [(lit "name", lit "a")] |};
             {| templateText := TextConfiguration (Some (lit "old"));
                otherFields := [(lit "name", lit "b")] |} ]).
  repeat constructor; discriminate.
Defined.

Lemma update_variants_ok (content : str) (vs vs' : list Variant) :
  update_variants content vs = inr vs' ->
  length vs' = length vs
  /\ map otherFields vs' = map otherFields vs
  /\ Forall (holds_text content) vs'.
Proof.
  revert vs'. induction vs as [| v vs IH]; intros vs'; simpl.
  - intros [= <-]. repeat split; constructor.
  - unfold set_text.
    destruct (templateText v) as [| t]; [discriminate |].
    destruct (update_variants content vs) as [e | r]; [discriminate |].
    intros [= <-]. destruct (IH r eq_refl) as (Hlen & Hother & Htext).
    simpl. repeat split; [congruence | congruence |].
    constructor; [reflexivity | exact Htext].
Qed.

(** ** The enumeration *)

Section EnumerationShape.

Variable B : Backend.

Lemma probe_loop_shape base k :
  forall n vs h vs' h',
    probe_loop B base k n vs h = (inr vs', h') ->
    exists new ns,
      vs' = vs ++ new
      /\ ns `sublist_of` seq n k
      /\ map sum_version new = map str_of_nat ns
      /\ map sum_arn new = map (fun i => Some (version_arn_of base i)) ns.
Proof.
  induction k as [| k IH]; intros n vs h vs' h' Hrun.
  - simpl in Hrun. unfold mret, M_ret in Hrun. injection Hrun as <- <-.
    exists [], []. rewrite app_nil_r. repeat split. constructor.
  - simpl in Hrun. unfold mbind, M_bind in Hrun.
    destruct (probe_version B base n vs h) as [[e | vs1] h1] eqn:Hone;
      [discriminate |].
    apply IH in Hrun as (new & ns & -> & Hsub & Hver & Harn).
    apply probe_version_cases in Hone as [-> | (p & t & _ & _ & ->)].
    + exists new, ns. repeat split; auto.
      simpl. apply sublist_cons. exact Hsub.
    + eexists (_ :: new), (n :: ns). split.
      { rewrite <- app_assoc. reflexivity. }
      split; [simpl; apply sublist_skip; exact Hsub |].
      simpl. rewrite Hver, Harn. split; reflexivity.
Qed.

(** X2: a list returned by the enumeration is empty or starts with the
    summary of the draft (label 'DRAFT', the ARN of the draft, no
    tags); the summaries after it are labelled with numbers taken in
    ascending order and without repetition from 1..20, each with the ARN
    [<base>:<number>]; so at most 21 summaries are returned and no
    version above 20 is ever reported. *)
Theorem enumeration_shape (prompt_identifier : str) (h h' : list Event)
    (versions : list Summary) :
  list_versions_with_tags B prompt_identifier h = (inr versions, h') ->
  versions = []
  \/ exists draft d rest ns,
       get_prompt B h prompt_identifier = inr draft
       /\ versions = d :: rest
       /\ sum_version d = lit "DRAFT"
       /\ sum_arn d = arn draft
       /\ sum_tags d = ∅
       /\ ns `sublist_of` seq 1 max_attempts
       /\ map sum_version rest = map str_of_nat ns
       /\ map sum_arn rest
          = map (fun i => Some (version_arn_of (arn draft) i)) ns
       /\ (length versions <= 1 + max_attempts)%nat.
Proof.
  intros Hrun.
  apply list_versions_with_tags_inv in Hrun
    as [-> | (draft & text & Hget & Htext & Hloop)]; [left; reflexivity |].
  right. unfold while_versions in Hloop.
  apply probe_loop_shape in Hloop as (new & ns & -> & Hsub & Hver & Harn).
  eexists draft, _, new, ns.
  split; [exact Hget |]. split; [reflexivity |].
  repeat split; auto.
  simpl. apply le_n_S.
  rewrite <- (length_map sum_version new), Hver, length_map.
  apply sublist_length in Hsub. rewrite length_seq in Hsub. exact Hsub.
Qed.

Lemma probe_version_events base n vs h :
  exists evs,
    (probe_version B base n vs h).2 = h ++ evs
    /\ Forall (fun ev => is_mutation ev = false) evs
    /\ (length evs <= 2)%nat.
Proof.
  unfold probe_version.
  unfold mbind at 1. unfold M_bind, try_except_ClientError, call_get_prompt.
  destruct (get_prompt B h (version_arn_of base n)) as [e | p].
  - exists [GetPrompt (version_arn_of base n)].
    split; [destruct e; try reflexivity; unfold_m; destruct (_ || _);
            reflexivity |].
    split; [repeat constructor | simpl; lia].
  - unfold mbind, M_bind. rewrite lookup_tags_total. unfold lift.
    exists [GetPrompt (version_arn_of base n);
            ListTagsForResource (version_arn_of base n)].
    split; [| split; [repeat constructor | simpl; lia]].
    destruct (first_text p) as [e | t] eqn:Ht.
    + destruct (first_text_error _ _ Ht) as [-> | ->];
        simpl; rewrite <- app_assoc; reflexivity.
    + unfold mret, M_ret. simpl. rewrite <- app_assoc. reflexivity.
Qed.

Lemma probe_loop_events base k :
  forall n vs h,
    exists evs,
      (probe_loop B base k n vs h).2 = h ++ evs
      /\ Forall (fun ev => is_mutation ev = false) evs
      /\ (length evs <= 2 * k)%nat.
Proof.
  induction k as [| k IH]; intros n vs h.
  - exists []. simpl. rewrite app_nil_r.
    split; [reflexivity | split; [constructor | lia]].
  - destruct (probe_version_events base n vs h) as (e1 & H1 & P1 & L1).
    simpl probe_loop. unfold mbind, M_bind.
    destruct (probe_version B base n vs h) as [[e | vs1] h1]; simpl in H1;
      subst h1.
    + exists e1. repeat split; auto. lia.
    + destruct (IH (S n) vs1 (h ++ e1)) as (e2 & H2 & P2 & L2).
      exists (e1 ++ e2). rewrite H2, app_assoc.
      split; [reflexivity |]. split; [apply Forall_app; auto |].
      rewrite length_app. lia.
Qed.

Lemma probe_version_no_ClientError base n vs h e h' :
  probe_version B base n vs h = (inl e, h') ->
  forall message, e <> ClientError message.
Proof.
  unfold probe_version, try_except_ClientError.
  match goal with
  | |- (match ?body with _ => _ end) = _ -> _ =>
      destruct body as [[e0 | vs1] h1]
  end.
  - destruct e0; try (intros [= <- _] message; discriminate).
    unfold_m. destruct (_ || _); discriminate.
  - discriminate.
Qed.

Lemma probe_loop_no_ClientError base k :
  forall n vs h e h',
    probe_loop B base k n vs h = (inl e, h') ->
    forall message, e <> ClientError message.
Proof.
  induction k as [| k IH]; intros n vs h e h'; simpl.
  - discriminate.
  - unfold mbind, M_bind.
    destruct (probe_version B base n vs h) as [[e1 | vs1] h1] eqn:Hone.
    + intros [= <- _]. eapply probe_version_no_ClientError. exact Hone.
    + apply IH.
Qed.

(** X3: the enumeration only reads: whatever the services answer, the
    calls it makes are [get_prompt] and [list_tags_for_resource] (and a
    [print]), never an update, a new version or a tagging; and it makes
    at most 41 of them. *)
Theorem enumeration_is_read_only (prompt_identifier : str)
    (h : list Event) :
  exists evs,
    (list_versions_with_tags B prompt_identifier h).2 = h ++ evs
    /\ Forall (fun ev => is_mutation ev = false) evs
    /\ (length evs <= 1 + 2 * max_attempts)%nat.
Proof.
  unfold list_versions_with_tags.
  unfold mbind at 1 2 3.
  unfold M_bind, try_except_ClientError, call_get_prompt, lift.
  destruct (get_prompt B h prompt_identifier) as [e | draft].
  - destruct e;
      try (exists [GetPrompt prompt_identifier];
           split; [reflexivity |];
           split; [repeat constructor | simpl; lia]).
    eexists [GetPrompt prompt_identifier; Printed _].
    split; [unfold_m; simpl; rewrite <- app_assoc; reflexivity |].
    split; [repeat constructor | simpl; lia].
  - destruct (first_text draft) as [e | text] eqn:Ht.
    + exists [GetPrompt prompt_identifier].
      split; [destruct (first_text_error _ _ Ht) as [-> | ->]; reflexivity |].
      split; [repeat constructor | simpl; lia].
    + unfold while_versions.
      match goal with
      | |- context [probe_loop B ?b ?k ?n ?vs ?h0] =>
          destruct (probe_loop_events b k n vs h0) as (evs & He & Hp & Hl);
          destruct (probe_loop B b k n vs h0) as [[e | vs1] h1] eqn:Hloop
      end; simpl in He; subst h1;
        [pose proof (probe_loop_no_ClientError _ _ _ _ _ _ _ Hloop) as Hno;
         destruct e; [exfalso; eapply Hno; reflexivity | ..] |];
        exists (GetPrompt prompt_identifier :: evs);
        (split; [simpl; rewrite <- app_assoc; reflexivity |]);
        (split; [constructor; [reflexivity | exact Hp] |]);
        simpl; unfold max_attempts in *; simpl in Hl; lia.
Qed.

(** X4: a [ClientError] never leaves the enumeration: when the draft
    cannot be fetched the result is the empty list, with the error
    printed, and no version is probed. *)
Theorem enumeration_contains_client_errors (prompt_identifier : str)
    (h : list Event) :
  (forall message,
     (list_versions_with_tags B prompt_identifier h).1
     <> inl (ClientError message))
  /\ (forall message,
        get_prompt B h prompt_identifier = inl (ClientError message) ->
        list_versions_with_tags B prompt_identifier h
        = (inr [],
           h ++ [GetPrompt prompt_identifier;
                 Printed (ErrorListingVersions (ClientError message))])).
Proof.
  split.
  - intros message. unfold list_versions_with_tags, try_except_ClientError.
    match goal with
    | |- (match ?body with _ => _ end).1 <> _ =>
        destruct body as [[e | vs] h1]
    end; [destruct e |]; unfold_m; simpl; discriminate.
  - intros message Hget. unfold list_versions_with_tags.
    unfold_m. rewrite Hget. rewrite <- app_assoc. reflexivity.
Qed.

(** X5: a draft without text is not reported as a failure: the
    [KeyError] or [IndexError] of the lookup leaves the enumeration as
    an exception, after the one call that fetched the draft. *)
Theorem enumeration_raises_on_draft_without_text
    (prompt_identifier : str) (h : list Event) (draft : Prompt) (e : exn) :
  get_prompt B h prompt_identifier = inr draft ->
  first_text draft = inl e ->
  list_versions_with_tags B prompt_identifier h
  = (inl e, h ++ [GetPrompt prompt_identifier])
  /\ (e = KeyError \/ e = IndexError).
Proof.
  intros Hget Ht. split; [| exact (first_text_error _ _ Ht)].
  unfold list_versions_with_tags.
  unfold mbind at 1 2 3.
  unfold M_bind, try_except_ClientError, call_get_prompt, lift.
  rewrite Hget, Ht.
  destruct (first_text_error _ _ Ht) as [-> | ->]; reflexivity.
Qed.

End EnumerationShape.

Import Scenario2.

Lemma enumeration_shape_witness :
  exists d rest,
    (match (list_versions_with_tags gap_backend (lit "P1") []).1 with
     | inr l => l
     | inl _ => []
     end) = d :: rest
    /\ sum_version d = lit "DRAFT"
    /\ sum_tags d = ∅.
Proof.
  destruct (enumeration_shape gap_backend (lit "P1") []
              (list_versions_with_tags gap_backend (lit "P1") []).2
              (match (list_versions_with_tags gap_backend (lit "P1") []).1 with
               | inr l => l
               | inl _ => []
               end) eq_refl)
    as [Hnil | (draft & d & rest & ns & _ & Hv & Hd & _ & Ht & _)].
  - vm_compute in Hnil. discriminate Hnil.
  - exists d, rest. auto.
Defined.

Lemma enumeration_contains_client_errors_witness :
  list_versions_with_tags empty_service (lit "P1") []
  = (inr [], [GetPrompt (lit "P1");
              Printed (ErrorListingVersions not_found)]).
Proof.
  apply (proj2 (enumeration_contains_client_errors empty_service (lit "P1")
                  []) (lit "ResourceNotFoundException: no such prompt")).
  vm_compute. reflexivity.
Defined.

Lemma enumeration_raises_on_draft_without_text_witness :
  list_versions_with_tags textless_draft (lit "P1") []
  = (inl IndexError, [GetPrompt (lit "P1")]).
Proof.
  apply (enumeration_raises_on_draft_without_text textless_draft (lit "P1")
           [] {| arn := Some (lit "arn:p"); name := None;
                 description := None; variants := Some [] |} IndexError).
  - vm_compute. reflexivity.
  - reflexivity.
Defined.

Section StaticStore.

Variable B : Backend.
Variable base_arn : option str.

(** What the probe of each version number answers, at any time. *)
Variable probe : nat -> result Prompt.

Hypothesis probe_static :
  forall h i, (1 <= i <= max_attempts)%nat ->
    get_prompt B h (version_arn_of base_arn i) = probe i.
Hypothesis probe_found_has_text :
  forall i p, probe i = inr p -> exists text, first_text p = inr text.
Hypothesis probe_missing_is_ClientError :
  forall i e, probe i = inl e -> exists message, e = ClientError message.

Lemma probe_loop_static k :
  forall n vs h,
    (1 <= n)%nat -> (n + k <= S max_attempts)%nat ->
    exists new h',
      probe_loop B base_arn k n vs h = (inr (vs ++ new), h')
      /\ map sum_version new
         = map str_of_nat
             (List.filter (fun i => returned (probe i))
                (seq n k)).
Proof.
  induction k as [| k IH]; intros n vs h Hn Hk.
  - exists [], h. simpl. unfold_m. rewrite app_nil_r. auto.
  - simpl. unfold mbind, M_bind.
    pose proof (probe_static h n ltac:(lia)) as Hget.
    destruct (probe n) as [e | p] eqn:Hp.
    + destruct (probe_missing_is_ClientError _ _ Hp) as [message ->].
      rewrite (probe_version_missing _ _ _ _ _ _ Hget).
      apply IH; lia.
    + destruct (probe_found_has_text _ _ Hp) as [text Ht].
      rewrite (probe_version_found _ _ _ _ _ _ _ Hget Ht).
      edestruct (IH (S n)) as (new & h' & -> & Hnew); [lia | lia |].
      eexists (_ :: new), h'. split.
      * rewrite <- app_assoc. reflexivity.
      * simpl. rewrite Hnew. reflexivity.
Qed.

(** X6: on a prompt whose versions do not change during the
    enumeration, the result lists the draft and then exactly the
    version numbers among 1..20 whose probe succeeds, in ascending
    order: a missing number is passed over and the numbers after it are
    still listed. *)
Theorem enumeration_lists_every_existing_version
    (prompt_identifier : str) (draft : Prompt) (text : str)
    (h : list Event) :
  get_prompt B h prompt_identifier = inr draft ->
  arn draft = base_arn ->
  first_text draft = inr text ->
  exists versions h',
    list_versions_with_tags B prompt_identifier h = (inr versions, h')
    /\ map sum_version versions
       = lit "DRAFT"
         :: map str_of_nat
              (List.filter (fun i => returned (probe i))
                 (seq 1 max_attempts)).
Proof.
  intros Hget Harn Ht. unfold list_versions_with_tags.
  unfold mbind at 1 2 3.
  unfold M_bind, try_except_ClientError, call_get_prompt, lift.
  rewrite Hget, Ht, Harn. unfold while_versions.
  edestruct (probe_loop_static (S max_attempts - 1) 1) as (new & h' & -> & Hnew);
    [lia | unfold max_attempts; lia |].
  eexists _, h'. split; [reflexivity |].
  simpl map at 1. rewrite Hnew. reflexivity.
Qed.

End StaticStore.

Lemma enumeration_lists_every_existing_version_witness :
  exists versions h',
    list_versions_with_tags gap_backend (lit "P1") [] = (inr versions, h')
    /\ map sum_version versions = [lit "DRAFT"; lit "2"].
Proof.
  apply (fun H1 H2 H3 =>
           enumeration_lists_every_existing_version gap_backend
             (Some (lit "arn:p")) gap_probe H1 H2 H3 (lit "P1")
             (prompt_with (lit "arn:p") (lit "abc")) (lit "abc") []).
  - intros h i Hi.
    assert (Hc : In i (seq 1 20))
      by (apply in_seq; unfold max_attempts in Hi; lia).
    simpl in Hc.
    repeat (destruct Hc as [<- | Hc]; [vm_compute; reflexivity |]).
    destruct Hc.
  - intros i p. unfold gap_probe.
    destruct (i =? 2)%nat; [| discriminate].
    intros [= <-]. eexists. reflexivity.
  - intros i e. unfold gap_probe.
    destruct (i =? 2)%nat; [discriminate |].
    intros [= <-]. eexists. reflexivity.
  - vm_compute. reflexivity.
  - reflexivity.
  - reflexivity.
Defined.

(** ** Promotion and rollback *)

Ltac crunch :=
  repeat (match goal with
          | H : context [match ?x with _ => _ end] |- _ =>
              destruct x eqn:?
          end; simplify_eq).

(** X7: the outer handler of [promote_version] catches every
    [Exception]: what leaves the method is never one. A source draft
    without text, whose [KeyError] or [IndexError] would leave the
    rollback and the enumeration, makes the promotion print the error
    and return [False]; an exception of the first call is caught in the
    same way if it is an [Exception], and leaves the method if it is not
    (a [KeyboardInterrupt]). *)
Theorem promotion_contains_exceptions (B : Backend) (upper : str -> str)
    (prompt_identifier from_env to_env version_tag : str) (h : list Event) :
  let started :=
    h ++ [Printed (StartingPromotion (upper from_env) (upper to_env))] in
  (forall e h',
     promote_version B upper prompt_identifier from_env to_env version_tag h
     = (inl e, h') ->
     is_Exception e = false)
  /\ (forall source e,
        get_prompt B started prompt_identifier = inr source ->
        first_text source = inl e ->
        promote_version B upper prompt_identifier from_env to_env
          version_tag h
        = (inr false,
           started ++ [ GetPrompt prompt_identifier;
                        Printed (ErrorDuringPromotion e);
                        Printed (Traceback e) ]))
  /\ (forall e,
        get_prompt B started prompt_identifier = inl e ->
        promote_version B upper prompt_identifier from_env to_env
          version_tag h
        = if is_Exception e
          then (inr false,
                started ++ [ GetPrompt prompt_identifier;
                             Printed (ErrorDuringPromotion e);
                             Printed (Traceback e) ])
          else (inl e, started ++ [GetPrompt prompt_identifier])).
Proof.
  cbv zeta. split; [| split].
  - intros e h'. unfold promote_version, try_except_Exception.
    match goal with
    | |- context [match ?body with _ => _ end] =>
        destruct body as [[e0 | b] h1]
    end.
    + destruct (is_Exception e0) eqn:He0.
      * unfold_m. discriminate.
      * intros [= <- <-]. exact He0.
    + unfold_m. discriminate.
  - intros source e Hget Htext.
    assert (He : is_Exception e = true)
      by (destruct (first_text_error _ _ Htext) as [-> | ->]; reflexivity).
    unfold promote_version, promote_steps_1_6. unfold_m.
    rewrite Hget, Htext, He. rewrite <- !app_assoc. reflexivity.
  - intros e Hget.
    unfold promote_version, promote_steps_1_6. unfold_m.
    rewrite Hget.
    destruct (is_Exception e); rewrite <- ?app_assoc; reflexivity.
Qed.

Lemma promotion_contains_exceptions_witness :
  promote_version textless_draft ascii_upper (lit "P1") (lit "dev")
    (lit "prod") (lit "v1") []
  = (inr false,
     [ Printed (StartingPromotion (lit "DEV") (lit "PROD"));
       GetPrompt (lit "P1");
       Printed (ErrorDuringPromotion IndexError);
       Printed (Traceback IndexError) ])
  /\ promote_version interrupted ascii_upper (lit "P1") (lit "dev")
       (lit "prod") (lit "v1") []
     = (inl (OtherException (lit "KeyboardInterrupt")),
        [ Printed (StartingPromotion (lit "DEV") (lit "PROD"));
          GetPrompt (lit "P1") ]).
Proof.
  split.
  - apply (proj1 (proj2 (promotion_contains_exceptions textless_draft
                           ascii_upper (lit "P1") (lit "dev") (lit "prod")
                           (lit "v1") []))
             {| arn := Some (lit "arn:p"); name := None;
                description := None; variants := Some [] |} IndexError).
    + vm_compute. reflexivity.
    + reflexivity.
  - apply (proj2 (proj2 (promotion_contains_exceptions interrupted
                           ascii_upper (lit "P1") (lit "dev") (lit "prod")
                           (lit "v1") []))
             (OtherException (lit "KeyboardInterrupt"))).
    vm_compute. reflexivity.
Defined.

(** The events of a promotion whose steps 1 to 6 succeed. *)
Lemma promote_steps_trace (B : Backend) (upper : str -> str)
    (prompt_identifier from_env to_env version_tag : str)
    (h h1 : list Event) (source_content target_prompt_id : str) :
  promote_steps_1_6 B upper prompt_identifier from_env to_env version_tag h
  = (inr (Some (source_content, target_prompt_id)), h1) ->
  exists source c target shown vs rv d1 d2 hs hp,
    get_prompt B hs prompt_identifier = inr source
    /\ first_text source = inr source_content
    /\ ENVIRONMENT_CONFIG !! to_env = Some c
    /\ get_parameter B hp (parameter_store_path c) true
       = inr (Some target_prompt_id)
    /\ update_variants source_content (default [] (variants target)) = inr vs
    /\ h1 = h ++ [ Printed (StartingPromotion (upper from_env) (upper to_env));
                   GetPrompt prompt_identifier;
                   Printed (SourceContentLine (preview source_content));
                   GetParameter (parameter_store_path c) true;
                   Printed (TargetPromptIdFound (upper to_env)
                              target_prompt_id);
                   GetPrompt target_prompt_id;
                   Printed (CurrentTargetContent (preview shown));
                   UpdatePrompt target_prompt_id (name target)
                     (Some (lit "Promoted from " ++ upper from_env
                            ++ lit " - " ++ version_tag)) vs;
                   Printed (UpdatedDraft (upper to_env) (upper from_env));
                   CreatePromptVersion target_prompt_id
                     (lit "Promoted from " ++ upper from_env ++ lit " to "
                      ++ upper to_env ++ lit " - " ++ version_tag);
                   Strftime (lit "%Y-%m-%d");
                   Strftime (lit "%H:%M:%S");
                   TagResource (version_arn rv)
                     (promotion_tags upper prompt_identifier from_env to_env
                        version_tag d1 d2);
                   Printed (SuccessfullyPromoted (upper from_env)
                              (upper to_env));
                   Printed (SourcePromptIdLine prompt_identifier);
                   Printed (TargetPromptIdLine target_prompt_id);
                   Printed (NewVersionLine (upper to_env) (version rv)
                              version_tag);
                   Printed (AppliedTags
                              (promotion_tags upper prompt_identifier
                                 from_env to_env version_tag d1 d2)) ].
Proof.
  intros Hrun. unfold promote_steps_1_6 in Hrun. unfold_m. crunch.
  eexists _, _, _, _, _, _, _, _, _, _.
  repeat (split; [first [eassumption | reflexivity] |]).
  rewrite <- !app_assoc. reflexivity.
Qed.


(** X9: the tags that a promotion attaches: Version is the version tag
    given, PromotedFrom the source environment in upper case,
    SourcePromptId the identifier of the source, PromotionType
    'ENVIRONMENT_PROMOTION', and Environment and Status are the default
    tags of the target environment. *)
Theorem promotion_tags_attached (B : Backend) (upper : str -> str)
    (prompt_identifier from_env to_env version_tag : str)
    (h h1 : list Event) (source_content target_prompt_id : str) :
  promote_steps_1_6 B upper prompt_identifier from_env to_env version_tag h
  = (inr (Some (source_content, target_prompt_id)), h1) ->
  exists evs new_arn tags,
    h1 = h ++ evs
    /\ In (TagResource new_arn tags) evs
    /\ tags !! lit "Version" = Some version_tag
    /\ tags !! lit "PromotedFrom" = Some (upper from_env)
    /\ tags !! lit "SourcePromptId" = Some prompt_identifier
    /\ tags !! lit "PromotionType" = Some (lit "ENVIRONMENT_PROMOTION")
    /\ tags !! lit "Environment" = base_tags_of to_env !! lit "Environment"
    /\ tags !! lit "Status" = base_tags_of to_env !! lit "Status".
Proof.
  intros Hrun. apply promote_steps_trace in Hrun
    as (source & c & target & shown & vs & rv & d1 & d2 & hs & hp
        & Hs & Hsc & Hc & Hp & Hvs & ->).
  eexists _, _, _. split; [reflexivity |].
  split; [simpl; do 12 right; left; reflexivity |].
  unfold promotion_tags.
  split; [lookup_in_dict |]. split; [lookup_in_dict |].
  split; [lookup_in_dict |]. split; [lookup_in_dict |].
  split; unfold dict_of; cbn [foldl fst snd];
    repeat (rewrite lookup_insert_ne by (vm_compute; discriminate));
    reflexivity.
Qed.


Lemma promotion_tags_attached_witness :
  exists new_arn tags,
    In (TagResource new_arn tags)
       (promote_steps_1_6 two_environments ascii_upper (lit "P1") (lit "dev")
          (lit "prod") (lit "v1.3.0") []).2
    /\ tags !! lit "Version" = Some (lit "v1.3.0")
    /\ tags !! lit "PromotedFrom" = Some (lit "DEV")
    /\ tags !! lit "Environment" = Some (lit "PROD")
    /\ tags !! lit "Status" = Some (lit "ACTIVE").
Proof.
  destruct (promotion_tags_attached two_environments ascii_upper
              (lit "P1") (lit "dev") (lit "prod") (lit "v1.3.0") []
              (promote_steps_1_6 two_environments ascii_upper (lit "P1")
                 (lit "dev") (lit "prod") (lit "v1.3.0") []).2
              (lit "SELECT 1") (lit "P2"))
    as (evs & na & tags & Hh & Hin & HV & HF & _ & _ & HE & HS).
  - vm_compute. reflexivity.
  - exists na, tags. simpl in Hh. rewrite Hh.
    split; [exact Hin |]. split; [exact HV |]. split; [exact HF |].
    split; [rewrite HE | rewrite HS]; vm_compute; reflexivity.
Defined.

(** X10: no partial promotion: when the target environment is not one
    of the configured ones, or when the parameter of the target
    environment cannot be read, [promote_version] has made no call that
    changes a prompt, and it returns [False], unless an exception that
    is not an [Exception] was raised, which leaves the method. *)
Theorem promotion_stops_before_writing (B : Backend) (upper : str -> str)
    (prompt_identifier from_env to_env version_tag : str) (h : list Event) :
  ENVIRONMENT_CONFIG !! to_env = None
  \/ (forall h0 path, exists e, get_parameter B h0 path true = inl e) ->
  exists r evs,
    promote_version B upper prompt_identifier from_env to_env version_tag h
    = (r, h ++ evs)
    /\ Forall (fun ev => is_mutation ev = false) evs
    /\ (r = inr false \/ exists e, r = inl e /\ is_Exception e = false).
Proof.
  intros Hfail.
  destruct (promote_version B upper prompt_identifier from_env to_env
              version_tag h) as [r h'] eqn:Hrun.
  unfold promote_version, promote_steps_1_6 in Hrun. unfold_m. crunch;
    try (destruct Hfail as [Hcfg | Hres]; [congruence |];
         match goal with
         | H : get_parameter B ?a ?b true = inr _ |- _ =>
             destruct (Hres a b) as [? ?]; congruence
         end);
    (eexists _, _; split; [rewrite <- ?app_assoc; reflexivity |];
     split; [repeat constructor |];
     first [left; reflexivity | right; eexists; split; [reflexivity |]; assumption]).
Qed.

Lemma promotion_stops_before_writing_witness :
  exists evs,
    promote_version gap_backend ascii_upper (lit "P1") (lit "dev")
      (lit "prod") (lit "v1") [] = (inr false, evs)
    /\ Forall (fun ev => is_mutation ev = false) evs.
Proof.
  destruct (promotion_stops_before_writing gap_backend ascii_upper (lit "P1")
              (lit "dev") (lit "prod") (lit "v1") [])
    as (r & evs & Hrun & Hevs & Hr).
  - right. intros h0 path. eexists. reflexivity.
  - exists evs. split; [| exact Hevs].
    rewrite Hrun. f_equal.
    destruct Hr as [-> | (e & -> & He)]; [reflexivity |].
    vm_compute in Hrun. discriminate Hrun.
Defined.

(** The events of a rollback that succeeds. *)
Lemma rollback_trace (B : Backend) (upper : str -> str)
    (self_environment prompt_identifier target_version rollback_reason : str)
    (h h' : list Event) :
  rollback_to_version B upper self_environment prompt_identifier
    target_version rollback_reason h = (inr true, h') ->
  exists current target target_content vs rv d,
    get_prompt B h prompt_identifier = inr current
    /\ (if str_eqb target_version (lit "DRAFT") then target = current
        else get_prompt B (h ++ [GetPrompt prompt_identifier])
               (format_opt (arn current) ++ lit ":" ++ target_version)
             = inr target)
    /\ first_text target = inr target_content
    /\ update_variants target_content (default [] (variants current))
       = inr vs
    /\ h' = h ++ [GetPrompt prompt_identifier]
            ++ (if str_eqb target_version (lit "DRAFT") then []
                else [GetPrompt (format_opt (arn current) ++ lit ":"
                                 ++ target_version)])
            ++ [ UpdatePrompt prompt_identifier (name current)
                   (Some (lit "Rollback to version " ++ target_version
                          ++ lit ": " ++ rollback_reason)) vs;
                 CreatePromptVersion prompt_identifier
                   (lit "ROLLBACK to v" ++ target_version ++ lit " - "
                    ++ rollback_reason);
                 Strftime (lit "%Y-%m-%d");
                 TagResource (version_arn rv)
                   (rollback_tags upper self_environment target_version d
                      rollback_reason);
                 Printed (SuccessfullyRolledBack target_version);
                 Printed (NewRollbackVersion (version rv));
                 Printed (RollbackReasonLine rollback_reason) ].
Proof.
  intros Hrun. unfold rollback_to_version in Hrun. unfold_m.
  destruct (str_eqb target_version (lit "DRAFT")) eqn:Hdraft; crunch;
    eexists _, _, _, _, _, _;
    repeat (split; [first [eassumption | reflexivity] |]);
    rewrite <- ?app_assoc; reflexivity.
Qed.

(** X11: a rollback that succeeds overwrites the draft with the text of
    the target version in every variant, keeping the number of
    variants; its only further changes are the new version and its
    tags. For the target 'DRAFT' the text is that of the draft itself
    and no second prompt is fetched. *)
Theorem rollback_restores_target_content (B : Backend)
    (upper : str -> str)
    (self_environment prompt_identifier target_version rollback_reason : str)
    (h h' : list Event) :
  rollback_to_version B upper self_environment prompt_identifier
    target_version rollback_reason h = (inr true, h') ->
  exists current target target_content evs vs version_description new_arn
         tags,
    get_prompt B h prompt_identifier = inr current
    /\ (target_version = lit "DRAFT" -> target = current)
    /\ (target_version <> lit "DRAFT" ->
        get_prompt B (h ++ [GetPrompt prompt_identifier])
          (format_opt (arn current) ++ lit ":" ++ target_version)
        = inr target)
    /\ first_text target = inr target_content
    /\ h' = h ++ evs
    /\ List.filter is_mutation evs
       = [ UpdatePrompt prompt_identifier (name current)
             (Some (lit "Rollback to version " ++ target_version
                    ++ lit ": " ++ rollback_reason)) vs;
           CreatePromptVersion prompt_identifier version_description;
           TagResource new_arn tags ]
    /\ Forall (holds_text target_content) vs
    /\ length vs = length (default [] (variants current))
    /\ (target_version = lit "DRAFT" ->
        length (List.filter (fun ev => match ev with
                                       | GetPrompt _ => true
                                       | _ => false
                                       end) evs) = 1%nat).
Proof.
  intros Hrun. apply rollback_trace in Hrun
    as (current & target & tc & vs & rv & d & Hc & Ht & Htc & Hvs & ->).
  destruct (update_variants_ok _ _ _ Hvs) as (Hlen & _ & Htext).
  unfold str_eqb in *.
  case_bool_decide as Hd; eexists current, target, tc, _, vs, _, _, _;
    (split; [exact Hc |]).
  - split; [auto |]. split; [congruence |]. split; [exact Htc |].
    split; [reflexivity |]. split; [reflexivity |]. auto.
  - split; [congruence |]. split; [auto |]. split; [exact Htc |].
    split; [reflexivity |]. split; [reflexivity |].
    split; [exact Htext |]. split; [exact Hlen | congruence].
Qed.

Lemma rollback_restores_target_content_witness :
  exists evs vs version_description new_arn tags,
    (rollback_to_version three_versions ascii_upper (lit "dev") (lit "P1")
       (lit "2") (lit "bad release") []).2 = evs
    /\ List.filter is_mutation evs
       = [ UpdatePrompt (lit "P1") (Some (lit "text2sql"))
             (Some (lit "Rollback to version 2: bad release")) vs;
           CreatePromptVersion (lit "P1") version_description;
           TagResource new_arn tags ]
    /\ Forall (holds_text (lit "SELECT 2")) vs.
Proof.
  destruct (rollback_restores_target_content three_versions ascii_upper
              (lit "dev") (lit "P1") (lit "2") (lit "bad release") []
              (rollback_to_version three_versions ascii_upper (lit "dev")
                 (lit "P1") (lit "2") (lit "bad release") []).2)
    as (current & target & tc & evs & vs & vd & na & tags
        & Hc & _ & Hfetch & Htc & Hh & Hmut & Hvs & _).
  - vm_compute. reflexivity.
  - exists evs, vs, vd, na, tags.
    split; [exact Hh |].
    assert (Hcur : current = prompt_with (lit "arn:p") (lit "SELECT 4"))
      by (vm_compute in Hc |- *; congruence).
    subst current.
    assert (Htarget : target = prompt_with (lit "arn:p") (lit "SELECT 2")).
    { specialize (Hfetch ltac:(vm_compute; discriminate)).
      vm_compute in Hfetch |- *. congruence. }
    subst target. vm_compute in Htc. injection Htc as <-.
    split; [exact Hmut | exact Hvs].
Defined.

(** X12: a target version without text is not reported as a failed
    rollback: the [KeyError] or [IndexError] leaves
    [rollback_to_version] as an exception, before anything is changed. *)
Theorem rollback_raises_on_target_without_text (B : Backend)
    (upper : str -> str)
    (self_environment prompt_identifier rollback_reason : str)
    (h : list Event) (current : Prompt) (e : exn) :
  get_prompt B h prompt_identifier = inr current ->
  first_text current = inl e ->
  rollback_to_version B upper self_environment prompt_identifier
    (lit "DRAFT") rollback_reason h
  = (inl e, h ++ [GetPrompt prompt_identifier])
  /\ (e = KeyError \/ e = IndexError).
Proof.
  intros Hc Ht. split; [| exact (first_text_error _ _ Ht)].
  unfold rollback_to_version. unfold_m. rewrite Hc.
  change (str_eqb (lit "DRAFT") (lit "DRAFT")) with true. cbv beta iota.
  rewrite Ht.
  destruct (first_text_error _ _ Ht) as [-> | ->]; reflexivity.
Qed.

Lemma rollback_raises_on_target_without_text_witness :
  rollback_to_version textless_draft ascii_upper (lit "dev") (lit "P1")
    (lit "DRAFT") (lit "test") []
  = (inl IndexError, [GetPrompt (lit "P1")]).
Proof.
  apply (rollback_raises_on_target_without_text textless_draft ascii_upper
           (lit "dev") (lit "P1") (lit "test") []
           {| arn := Some (lit "arn:p"); name := None;
              description := None; variants := Some [] |} IndexError).
  - vm_compute. reflexivity.
  - reflexivity.
Defined.

(** X13: when the tagging of the rollback version is refused, the
    rollback returns [False] although the draft has been overwritten and
    the new version has been created; nothing is undone, and the last
    thing it does is to print the error. *)
Theorem rollback_failed_tagging_leaves_changes (B : Backend)
    (upper : str -> str)
    (self_environment prompt_identifier target_version rollback_reason : str)
    (h evs : list Event) (r : result bool) (new_arn : option str)
    (tags : Tags) :
  (forall h0 a t, exists message,
     tag_resource B h0 a t = inl (ClientError message)) ->
  rollback_to_version B upper self_environment prompt_identifier
    target_version rollback_reason h = (r, h ++ evs) ->
  In (TagResource new_arn tags) evs ->
  r = inr false
  /\ exists draft_name draft_description vs version_description message,
       List.filter is_mutation evs
       = [ UpdatePrompt prompt_identifier draft_name draft_description vs;
           CreatePromptVersion prompt_identifier version_description;
           TagResource new_arn tags ]
       /\ last evs = Some (Printed (ErrorDuringRollback (ClientError message))).
Proof.
  intros Htag Hrun Hin. unfold rollback_to_version in Hrun. unfold_m.
  destruct (str_eqb target_version (lit "DRAFT")); crunch;
    try match goal with
        | H : tag_resource B ?a ?b ?c = _ |- _ =>
            let m := fresh "m" in
            let Hm := fresh "Hm" in
            destruct (Htag a b c) as [m Hm]; rewrite Hm in H; simplify_eq
        end;
    try match goal with
        | H : _ = h ++ evs |- _ =>
            rewrite <- ?app_assoc in H; apply app_inv_head in H; subst evs
        end;
    simpl in Hin;
    repeat (destruct Hin as [Hin | Hin]; try discriminate Hin);
    try (destruct Hin; fail);
    injection Hin as <- <-;
    (split; [reflexivity |]); eexists _, _, _, _, _;
    (split; reflexivity).
Qed.

Lemma rollback_failed_tagging_leaves_changes_witness :
  (rollback_to_version (tagging_refused three_versions) ascii_upper
     (lit "dev") (lit "P1") (lit "2") (lit "bad release") []).1
  = inr false.
Proof.
  apply (rollback_failed_tagging_leaves_changes
           (tagging_refused three_versions) ascii_upper
           (lit "dev") (lit "P1") (lit "2") (lit "bad release") []
           (rollback_to_version (tagging_refused three_versions) ascii_upper
              (lit "dev") (lit "P1") (lit "2") (lit "bad release") []).2
           _ (Some (lit "P1:1"))
           (rollback_tags ascii_upper (lit "dev") (lit "2")
              (lit "2025-01-31") (lit "bad release"))).
  - intros h0 a t. eexists. reflexivity.
  - vm_compute. reflexivity.
  - vm_compute. do 5 right. left. reflexivity.
Defined.

(** ** The version writer and the parameter resolver *)

Import Writer.

Ltac unfold_p :=
  unfold mbind, P_bind, mret, P_ret, of_M, say, try_ClientError, lift,
    call_get_prompt, call_update_prompt, call_create_prompt_version,
    call_tag_resource, call_get_parameter, now_strftime in *.

Lemma two_events (l : list Event) (a b : Event) :
  (l ++ [a]) ++ [b] = l ++ [a; b].
Proof. rewrite <- app_assoc. reflexivity. Qed.

(** The events of a [create_tagged_version] that returns a version. *)
Lemma create_tagged_version_trace (B : Backend) (upper : str -> str)
    (self : Controller) (prompt_identifier content : str)
    (environment version_tag description : option str)
    (h h' : list Event) (out out' : list Line) (new_version : str) :
  create_tagged_version B upper self prompt_identifier content environment
    version_tag description h out = (inr (Some new_version), h', out') ->
  let environment' := default (self_environment self) environment in
  exists current hc vs rv d1 d2 tag timestamp,
    get_prompt B hc prompt_identifier = inr current
    /\ update_variants content (default [] (variants current)) = inr vs
    /\ version rv = Some new_version
    /\ tag = default (lit "v1.0.0-" ++ environment' ++ lit "-" ++ timestamp)
               version_tag
    /\ hc = h ++ (match version_tag with
                  | Some _ => []
                  | None => [Strftime (lit "%Y%m%d-%H%M")]
                  end)
    /\ create_prompt_version B
         (hc ++ [ GetPrompt prompt_identifier;
                  UpdatePrompt prompt_identifier (name current)
                    (or_else Some description (PromptVC.description current))
                    vs ])
         prompt_identifier
         (upper environment' ++ lit " " ++ tag ++ lit ": "
          ++ or_else id description (lit "Version created"))
       = inr rv
    /\ h' = h ++ (match version_tag with
                  | Some _ => []
                  | None => [Strftime (lit "%Y%m%d-%H%M")]
                  end)
            ++ [ GetPrompt prompt_identifier;
                 UpdatePrompt prompt_identifier (name current)
                   (or_else Some description (PromptVC.description current))
                   vs;
                 CreatePromptVersion prompt_identifier
                   (upper environment' ++ lit " " ++ tag ++ lit ": "
                    ++ or_else id description (lit "Version created"));
                 Strftime (lit "%Y-%m-%d");
                 Strftime (lit "%H:%M:%S");
                 TagResource (version_arn rv)
                   (version_tags upper self environment' tag d1 d2) ]
    /\ out' = out ++ [ CreatedVersionWithTags (Some new_version);
                       TagLines (version_tags upper self environment' tag
                                   d1 d2) ].
Proof.
  intros Hrun environment'. unfold create_tagged_version in Hrun.
  fold environment' in Hrun. unfold_p.
  destruct version_tag as [t |]; crunch;
    eexists _, _, _, _, _, _, _, (strftime B h (lit "%Y%m%d-%H%M"));
    (split; [eassumption |]); (split; [eassumption |]);
    (split; [eassumption |]); (split; [reflexivity |]);
    (split; [rewrite ?app_nil_r; reflexivity |]);
    (split; [match goal with
             | H : create_prompt_version _ _ _ _ = inr _ |- _ =>
                 rewrite (two_events _ (GetPrompt _) (UpdatePrompt _ _ _ _))
                   in H;
                 rewrite ?app_nil_r; exact H
             end |]);
    split;
    rewrite <- ?(app_assoc (A:=Event)), <- ?(app_assoc (A:=Line));
    try match goal with
        | H : version _ = Some _ |- _ => rewrite H
        end;
    reflexivity.
Qed.

(** X14: when [create_tagged_version] returns a version number, it has
    changed the service by exactly three calls, in this order: the draft
    overwritten with the new content in every variant (keeping its name,
    and its description when none is given), the new version, and the
    tagging of the ARN that the service returned for that version; and
    the number returned is the one that the service returned for it. *)
Theorem tagged_version_is_written (B : Backend) (upper : str -> str)
    (self : Controller) (prompt_identifier content : str)
    (environment version_tag description : option str)
    (h h' : list Event) (out out' : list Line) (new_version : str) :
  create_tagged_version B upper self prompt_identifier content environment
    version_tag description h out = (inr (Some new_version), h', out') ->
  exists evs current hc vs version_description rv tags,
    h' = h ++ evs
    /\ get_prompt B hc prompt_identifier = inr current
    /\ List.filter is_mutation evs
       = [ UpdatePrompt prompt_identifier (name current)
             (or_else Some description (PromptVC.description current)) vs;
           CreatePromptVersion prompt_identifier version_description;
           TagResource (version_arn rv) tags ]
    /\ Forall (holds_text content) vs
    /\ length vs = length (default [] (variants current))
    /\ version rv = Some new_version
    /\ (let updated :=
          hc ++ [ GetPrompt prompt_identifier;
                  UpdatePrompt prompt_identifier (name current)
                    (or_else Some description (PromptVC.description current))
                    vs ] in
        create_prompt_version B updated prompt_identifier version_description
        = inr rv
        /\ h' = updated
                ++ [ CreatePromptVersion prompt_identifier version_description;
                     Strftime (lit "%Y-%m-%d");
                     Strftime (lit "%H:%M:%S");
                     TagResource (version_arn rv) tags ]).
Proof.
  intros Hrun. apply create_tagged_version_trace in Hrun
    as (current & hc & vs & rv & d1 & d2 & tag & ts
        & Hc & Hvs & Hv & Htag & Hhc & Hcreate & -> & ->).
  destruct (update_variants_ok _ _ _ Hvs) as (Hlen & _ & Htext).
  destruct version_tag as [t |];
    eexists _, current, hc, vs, _, rv, _;
    (split; [reflexivity |]); (split; [exact Hc |]);
    (split; [reflexivity |]); (split; [exact Htext |]);
    (split; [exact Hlen |]); (split; [exact Hv |]);
    cbv zeta; (split; [exact Hcreate |]);
    rewrite Hhc; rewrite <- ?(app_assoc (A:=Event)); reflexivity.
Qed.

(** X15: the tags of a new version: Version is the version tag given
    (or 'v1.0.0-<environment>-<timestamp>' when none is given),
    SourceEnvironment is the environment of the controller in upper
    case, and Environment and Status are the default tags of the
    environment named in the call, which need not be the one of the
    controller; an environment that is not configured contributes no
    tag. *)
Theorem tagged_version_tags (B : Backend) (upper : str -> str)
    (self : Controller) (prompt_identifier content : str)
    (environment version_tag description : option str)
    (h h' : list Event) (out out' : list Line) (new_version : str) :
  create_tagged_version B upper self prompt_identifier content environment
    version_tag description h out = (inr (Some new_version), h', out') ->
  let environment' := default (self_environment self) environment in
  exists evs new_arn tags timestamp,
    h' = h ++ evs
    /\ In (TagResource new_arn tags) evs
    /\ tags !! lit "Version"
       = Some (default (lit "v1.0.0-" ++ environment' ++ lit "-"
                        ++ timestamp) version_tag)
    /\ tags !! lit "SourceEnvironment" = Some (upper (self_environment self))
    /\ tags !! lit "Environment"
       = base_tags_of environment' !! lit "Environment"
    /\ tags !! lit "Status" = base_tags_of environment' !! lit "Status"
    /\ (ENVIRONMENT_CONFIG !! environment' = None ->
        tags !! lit "Environment" = None).
Proof.
  intros Hrun environment'. apply create_tagged_version_trace in Hrun
    as (current & hc & vs & rv & d1 & d2 & tag & ts
        & Hc & Hvs & Hv & Htag & _ & _ & -> & ->).
  fold environment' in Htag |- *. subst tag.
  eexists _, _, _, ts. split; [reflexivity |].
  split.
  { apply in_or_app. right. simpl. do 5 right. left. reflexivity. }
  unfold version_tags.
  split; [lookup_in_dict |]. split; [lookup_in_dict |].
  assert (HE : forall key,
             key <> lit "Version" -> key <> lit "CreatedDate" ->
             key <> lit "CreatedTime" -> key <> lit "SourceEnvironment" ->
             dict_of (base_tags_of environment')
               [ (lit "Version",
                  default (lit "v1.0.0-" ++ environment' ++ lit "-" ++ ts)
                    version_tag);
                 (lit "CreatedDate", d1); (lit "CreatedTime", d2);
                 (lit "SourceEnvironment", upper (self_environment self)) ]
             !! key = base_tags_of environment' !! key).
  { intros key H1 H2 H3 H4. unfold dict_of. cbn [foldl fst snd].
    rewrite !lookup_insert_ne by congruence. reflexivity. }
  split; [apply HE; vm_compute; discriminate |].
  split; [apply HE; vm_compute; discriminate |].
  intros Hnone. rewrite HE by (vm_compute; discriminate).
  unfold base_tags_of. rewrite Hnone. apply lookup_empty.
Qed.

Lemma tagged_version_is_written_witness :
  exists evs vs version_description new_arn tags,
    (create_tagged_version two_environments ascii_upper dev_controller
       (lit "P1") (lit "SELECT 9") None (Some (lit "v2.0.0")) (Some [])
       [] []).1.2 = evs
    /\ List.filter is_mutation evs
       = [ UpdatePrompt (lit "P1") (Some (lit "text2sql")) None vs;
           CreatePromptVersion (lit "P1") version_description;
           TagResource new_arn tags ]
    /\ Forall (holds_text (lit "SELECT 9")) vs.
Proof.
  destruct (tagged_version_is_written two_environments ascii_upper
              dev_controller (lit "P1") (lit "SELECT 9") None
              (Some (lit "v2.0.0")) (Some []) []
              (create_tagged_version two_environments ascii_upper
                 dev_controller (lit "P1") (lit "SELECT 9") None
                 (Some (lit "v2.0.0")) (Some []) [] []).1.2
              []
              (create_tagged_version two_environments ascii_upper
                 dev_controller (lit "P1") (lit "SELECT 9") None
                 (Some (lit "v2.0.0")) (Some []) [] []).2
              (lit "1"))
    as (evs & current & hc & vs & vd & rv & tags
        & Hh & Hc & Hmut & Hvs & _ & _).
  - vm_compute. reflexivity.
  - exists evs, vs, vd, (version_arn rv), tags.
    split; [exact Hh |]. split; [| exact Hvs].
    assert (Hcur : current = prompt_with (lit "arn:p") (lit "SELECT 1"))
      by (vm_compute in Hc |- *; congruence).
    subst current. exact Hmut.
Defined.

Lemma tagged_version_tags_witness :
  exists new_arn tags,
    In (TagResource new_arn tags)
       (create_tagged_version two_environments ascii_upper dev_controller
          (lit "P1") (lit "SELECT 9") (Some (lit "prod"))
          (Some (lit "v2.0.0")) None [] []).1.2
    /\ tags !! lit "Version" = Some (lit "v2.0.0")
    /\ tags !! lit "SourceEnvironment" = Some (lit "DEV")
    /\ tags !! lit "Environment" = Some (lit "PROD").
Proof.
  destruct (tagged_version_tags two_environments ascii_upper
              dev_controller (lit "P1") (lit "SELECT 9") (Some (lit "prod"))
              (Some (lit "v2.0.0")) None []
              (create_tagged_version two_environments ascii_upper
                 dev_controller (lit "P1") (lit "SELECT 9")
                 (Some (lit "prod")) (Some (lit "v2.0.0")) None [] []).1.2
              []
              (create_tagged_version two_environments ascii_upper
                 dev_controller (lit "P1") (lit "SELECT 9")
                 (Some (lit "prod")) (Some (lit "v2.0.0")) None [] []).2
              (lit "1"))
    as (evs & na & tags & ts & Hh & Hin & HV & HS & HE & _).
  - vm_compute. reflexivity.
  - exists na, tags. rewrite Hh.
    split; [exact Hin |]. split; [exact HV |]. split; [exact HS |].
    rewrite HE. vm_compute. reflexivity.
Defined.

(** X16: when the service refuses to create the version,
    [create_tagged_version] returns [None] with the draft already
    overwritten: the update is not undone, no tagging is attempted and
    the error is the last line printed. *)
Theorem failed_version_leaves_draft_overwritten (B : Backend)
    (upper : str -> str) (self : Controller)
    (prompt_identifier content : str)
    (environment version_tag description : option str)
    (h evs : list Event) (out out' : list Line) (r : result (option str))
    (ident version_description : str) :
  (forall h0 i d, exists message,
     create_prompt_version B h0 i d = inl (ClientError message)) ->
  create_tagged_version B upper self prompt_identifier content environment
    version_tag description h out = (r, h ++ evs, out') ->
  In (CreatePromptVersion ident version_description) evs ->
  r = inr None
  /\ exists draft_name draft_description vs message,
       List.filter is_mutation evs
       = [ UpdatePrompt prompt_identifier draft_name draft_description vs;
           CreatePromptVersion ident version_description ]
       /\ Forall (holds_text content) vs
       /\ out' = out ++ [ErrorCreatingTaggedVersion (ClientError message)].
Proof.
  intros Hrefused Hrun Hin. unfold create_tagged_version in Hrun. unfold_p.
  destruct version_tag as [t |]; crunch;
    try match goal with
        | H : create_prompt_version B ?a ?b ?c = _ |- _ =>
            let m := fresh "m" in
            let Hm := fresh "Hm" in
            destruct (Hrefused a b c) as [m Hm]; rewrite Hm in H; simplify_eq
        end;
    try match goal with
        | H : _ = h ++ evs |- _ =>
            rewrite <- ?(app_assoc (A:=Event)) in H;
            apply app_inv_head in H; subst evs
        end;
    simpl in Hin;
    repeat (destruct Hin as [Hin | Hin]; try discriminate Hin);
    try (destruct Hin; fail);
    injection Hin as <- <-;
    (split; [reflexivity |]); eexists _, _, _, _;
    (split; [reflexivity |]);
    (split; [| reflexivity]);
    match goal with
    | H : update_variants _ _ = inr _ |- _ =>
        apply (update_variants_ok _ _ _ H)
    end.
Qed.

Lemma failed_version_leaves_draft_overwritten_witness :
  (create_tagged_version (versions_refused two_environments) ascii_upper
     dev_controller (lit "P1") (lit "SELECT 9") None (Some (lit "v2.0.0"))
     None [] []).1.1 = inr None.
Proof.
  apply (failed_version_leaves_draft_overwritten
           (versions_refused two_environments) ascii_upper dev_controller
           (lit "P1") (lit "SELECT 9") None (Some (lit "v2.0.0")) None []
           (create_tagged_version (versions_refused two_environments)
              ascii_upper dev_controller (lit "P1") (lit "SELECT 9") None
              (Some (lit "v2.0.0")) None [] []).1.2
           []
           (create_tagged_version (versions_refused two_environments)
              ascii_upper dev_controller (lit "P1") (lit "SELECT 9") None
              (Some (lit "v2.0.0")) None [] []).2
           _ (lit "P1") (lit "DEV v2.0.0: Version created")).
  - intros h0 i d. eexists. reflexivity.
  - vm_compute. reflexivity.
  - vm_compute. do 2 right. left. reflexivity.
Defined.

Lemma supported_environment_config (env : str) :
  env ∈ SUPPORTED_ENVIRONMENTS ->
  exists c,
    ENVIRONMENT_CONFIG !! env = Some c
    /\ parameter_store_path c
       = lit "/prompts/text2sql/" ++ env ++ lit "/current".
Proof.
  unfold SUPPORTED_ENVIRONMENTS. intros Hin.
  apply elem_of_cons in Hin as [-> | Hin];
    [| apply elem_of_cons in Hin as [-> | Hin];
       [| apply elem_of_nil in Hin; destruct Hin]];
    eexists; split; vm_compute; reflexivity.
Qed.

Lemma init_on_supported (lower : str -> str) (environment : str)
    (h : list Event) (out : list Line) :
  lower environment ∈ SUPPORTED_ENVIRONMENTS ->
  exists self,
    init lower environment h out
    = (inr self, h,
       out ++ [ InitializedFor (env_description (self_env_config self));
                ParameterStoreLine (self_parameter_store_path self) ])
    /\ self_environment self = lower environment
    /\ ENVIRONMENT_CONFIG !! lower environment
       = Some (self_env_config self)
    /\ self_parameter_store_path self
       = lit "/prompts/text2sql/" ++ lower environment ++ lit "/current".
Proof.
  intros Hin. unfold init.
  rewrite bool_decide_eq_true_2 by exact Hin.
  destruct (supported_environment_config _ Hin) as (c & Hc & Hpath).
  unfold_p. unfold PromptVC.lift. rewrite Hc.
  exists {| self_environment := lower environment;
            self_env_config := c;
            self_parameter_store_path := parameter_store_path c |}.
  split; [rewrite <- app_assoc; reflexivity |].
  simpl. auto.
Qed.



(** X18: a controller built for a supported environment resolves the
    prompt identifier with exactly one call: it reads the parameter
    '/prompts/text2sql/<environment>/current' with decryption. It
    returns the value stored there, [None] when the call fails with a
    [ClientError], and lets any other exception (or the [KeyError] of a
    response without value) through. *)
Theorem resolver_reads_the_environment_parameter (B : Backend)
    (upper lower : str -> str) (environment : str) (h : list Event)
    (out : list Line) (answer : result (option str)) :
  lower environment ∈ SUPPORTED_ENVIRONMENTS ->
  get_parameter B h
    (lit "/prompts/text2sql/" ++ lower environment ++ lit "/current") true
  = answer ->
  exists description,
    let path := lit "/prompts/text2sql/" ++ lower environment
                ++ lit "/current" in
    let h' := h ++ [GetParameter path true] in
    let out' := out ++ [InitializedFor description; ParameterStoreLine path] in
    (self ← init lower environment;
     get_prompt_id_from_environment B upper self) h out
    = match answer with
      | inr (Some prompt_id) =>
          (inr (Some prompt_id), h',
           out' ++ [RetrievedPromptId (upper (lower environment)) prompt_id])
      | inr None => (inl KeyError, h', out')
      | inl (ClientError message) =>
          (inr None, h',
           out' ++ [ErrorRetrievingParameter path (ClientError message)])
      | inl e => (inl e, h', out')
      end.
Proof.
  intros Hin Hget.
  destruct (init_on_supported lower environment h out Hin)
    as (self & Hinit & Henv & Hcfg & Hpath).
  exists (env_description (self_env_config self)). cbv zeta.
  unfold mbind at 1. unfold P_bind at 1. rewrite Hinit.
  unfold get_prompt_id_from_environment. unfold_p.
  rewrite Hpath, Hget, Henv.
  destruct answer as [[] | [v |]]; reflexivity.
Qed.

Lemma resolver_reads_the_environment_parameter_witness :
  exists description,
    (self ← init ascii_lower (lit "Prod");
     get_prompt_id_from_environment two_environments ascii_upper self) [] []
    = (inr (Some (lit "P2")),
       [GetParameter (lit "/prompts/text2sql/prod/current") true],
       [ InitializedFor description;
         ParameterStoreLine (lit "/prompts/text2sql/prod/current");
         RetrievedPromptId (lit "PROD") (lit "P2") ]).
Proof.
  destruct (resolver_reads_the_environment_parameter two_environments
              ascii_upper ascii_lower (lit "Prod") [] []
              (inr (Some (lit "P2")))) as [description Hrun].
  - change (ascii_lower (lit "Prod")) with (lit "prod").
    apply elem_of_cons. right. apply elem_of_cons. left. reflexivity.
  - vm_compute. reflexivity.
  - exists description. exact Hrun.
Defined.

(** * Further properties of the text grouping pipeline *)

Import Document.

Section ExtractionFacts.

Variable json_loads : str -> result PyVal.
Variable py_str : PyVal -> str.

(** X19: a [JSONDecodeError] never leaves step 4, whatever the reply;
    an exception of another class raised by [json.loads] does, for a
    reply that is not blank; and when [json.loads] raises nothing but
    [JSONDecodeError], step 4 always yields groups. *)
Theorem extraction_contains_decode_errors (claude_response : option str) :
  extract_groups json_loads py_str claude_response <> inl JSONDecodeError
  /\ (forall reply e,
        claude_response = Some reply ->
        reply <> [] -> strip reply <> [] ->
        json_loads (json_text_of reply) = inl e -> e <> JSONDecodeError ->
        extract_groups json_loads py_str claude_response = inl e)
  /\ ((forall s e, json_loads s = inl e -> e = JSONDecodeError) ->
      exists grouped_texts,
        extract_groups json_loads py_str claude_response
        = inr grouped_texts).
Proof.
  unfold extract_groups. split; [| split].
  - destruct claude_response as [reply |]; [| discriminate].
    destruct (_ || _); [discriminate |].
    destruct (json_loads (json_text_of reply)) as [[] | []]; try discriminate.
    destruct (dict_get d (lit "groups")); discriminate.
  - intros reply e -> Hne Hstrip Hparse He. unfold str_eqb.
    rewrite !bool_decide_eq_false_2 by assumption. simpl. rewrite Hparse.
    destruct e; congruence.
  - intros Honly. destruct claude_response as [reply |]; [| eauto].
    destruct (_ || _); [eauto |].
    destruct (json_loads (json_text_of reply)) as [e | v] eqn:Hparse.
    + rewrite (Honly _ _ Hparse). eauto.
    + destruct v; eauto. destruct (dict_get d (lit "groups")); eauto.
Qed.

End ExtractionFacts.

Lemma extraction_contains_decode_errors_witness :
  extract_groups (fun _ => inl (OtherException (lit "RecursionError")))
    Ref.py_str (Some (lit "[[[[")) = inl (OtherException (lit "RecursionError")).
Proof.
  apply (proj1 (proj2 (extraction_contains_decode_errors
                         (fun _ => inl (OtherException (lit "RecursionError")))
                         Ref.py_str (Some (lit "[[[["))))
           (lit "[[[[") (OtherException (lit "RecursionError")) eq_refl).
  - discriminate.
  - vm_compute. discriminate.
  - reflexivity.
  - discriminate.
Defined.

Section FormattingFacts.

Variable py_str : PyVal -> str.
Variables source_language target_language : str.

Lemma group_text_of_error (group : PyVal) (e : exn) :
  group_text_of py_str group = inl e -> e = TypeError.
Proof.
  destruct group; try discriminate. simpl. unfold dict_group_text.
  destruct (dict_get d (lit "texts")) as [texts |].
  - unfold py_join. destruct texts; try (intros [= <-]; reflexivity);
      try discriminate.
    destruct (all_str l); [discriminate | intros [= <-]; reflexivity].
  - destruct (dict_get d (lit "content")) as [[] |];
      try discriminate; intros [= <-]; reflexivity.
Qed.

Lemma format_rows_returns (groups : list PyVal) :
  forall i acc,
    Forall (fun g => returned (group_text_of py_str g) = true) groups ->
    exists rows,
      format_rows py_str source_language target_language i groups acc
      = inr rows.
Proof.
  induction groups as [| g rest IH]; intros i acc Hall; simpl.
  - eauto.
  - inversion Hall as [| ? ? Hg Hrest]; subst.
    destruct (group_text_of py_str g) as [e | t]; [discriminate |].
    apply IH. exact Hrest.
Qed.

Lemma format_rows_raises (groups : list PyVal) :
  forall i acc e,
    format_rows py_str source_language target_language i groups acc = inl e ->
    e = TypeError
    /\ Exists (fun g => returned (group_text_of py_str g) = false) groups.
Proof.
  induction groups as [| g rest IH]; intros i acc e; simpl.
  - discriminate.
  - destruct (group_text_of py_str g) as [e0 | t] eqn:Hg.
    + intros [= <-]. split; [exact (group_text_of_error _ _ Hg) |].
      left. rewrite Hg. reflexivity.
    + intros Hrun. destruct (IH _ _ _ Hrun) as [He Hex].
      split; [exact He | right; exact Hex].
Qed.

(** X20: the document is produced exactly when the text of every group
    can be built; otherwise the formatting raises, and the exception is
    always a [TypeError]: a dict group whose 'texts' cannot be joined
    (not iterable, or with an item that is not a string), or whose
    'content' is not a string. *)
Theorem document_produced_iff_texts_build (grouped_texts : list PyVal) :
  ((exists rows,
      format_translation_document py_str grouped_texts source_language
        target_language = inr rows)
   <-> Forall (fun g => returned (group_text_of py_str g) = true)
         grouped_texts)
  /\ (forall e,
        format_translation_document py_str grouped_texts source_language
          target_language = inl e -> e = TypeError)
  /\ (forall d,
        In (PDict d) grouped_texts ->
        (exists l, dict_get d (lit "texts") = Some (PList l)
                   /\ all_str l = None) ->
        format_translation_document py_str grouped_texts source_language
          target_language = inl TypeError).
Proof.
  unfold format_translation_document.
  assert (Hiff : (exists rows,
                    format_rows py_str source_language target_language 1
                      grouped_texts [] = inr rows)
                 <-> Forall (fun g => returned (group_text_of py_str g) = true)
                       grouped_texts).
  { split.
    - intros [rows Hrun]. apply Forall_forall. intros g Hg.
      destruct (returned (group_text_of py_str g)) eqn:Hr; [reflexivity |].
      exfalso. clear -Hrun Hg Hr. revert Hrun. generalize 1%nat.
      generalize (@nil Row). revert rows.
      induction grouped_texts as [| g0 rest IH]; intros rows acc i; simpl.
      + apply elem_of_nil in Hg. destruct Hg.
      + apply elem_of_cons in Hg as [<- | Hg].
        * destruct (group_text_of py_str g); [discriminate | discriminate Hr].
        * destruct (group_text_of py_str g0); [discriminate |].
          apply IH. exact Hg.
    - apply format_rows_returns. }
  split; [exact Hiff |]. split.
  - intros e Hrun. exact (proj1 (format_rows_raises _ _ _ _ Hrun)).
  - intros d Hin (l & Htexts & Hl).
    destruct (format_rows py_str source_language target_language 1
                grouped_texts []) as [e | rows] eqn:Hrun.
    + rewrite (proj1 (format_rows_raises _ _ _ _ Hrun)). reflexivity.
    + exfalso.
      assert (Hall : Forall (fun g => returned (group_text_of py_str g) = true)
                       grouped_texts) by (apply Hiff; eauto).
      rewrite Forall_forall in Hall.
      specialize (Hall (PDict d) ltac:(apply list_elem_of_In; exact Hin)).
      simpl in Hall. unfold dict_group_text in Hall.
      rewrite Htexts in Hall. simpl in Hall. rewrite Hl in Hall.
      discriminate Hall.
Qed.

End FormattingFacts.

Lemma document_produced_iff_texts_build_witness :
  format_translation_document Ref.py_str
    [ PStr (lit "title");
      PDict [(lit "texts", PList [PStr (lit "a"); PInt 1])] ]
    (lit "Korean") (lit "English") = inl TypeError.
Proof.
  apply (proj2 (proj2 (document_produced_iff_texts_build Ref.py_str
                         (lit "Korean") (lit "English")
                         [ PStr (lit "title");
                           PDict [(lit "texts",
                                   PList [PStr (lit "a"); PInt 1])] ]))
           [(lit "texts", PList [PStr (lit "a"); PInt 1])]).
  - right. left. reflexivity.
  - exists [PStr (lit "a"); PInt 1]. split; reflexivity.
Defined.

(** X21: the name of the saved document always ends in '.xlsx'. A name
    that already ends in '.xlsx' is kept as it is, any other name gets
    the extension appended, and the generated name is
    'translation_document_<image>_<timestamp>.xlsx'; so the naming
    applied to its own result changes nothing. *)
Theorem document_filename_has_extension (filename : option str)
    (image_name timestamp : str) :
  let result := document_filename filename image_name timestamp in
  endswith (lit ".xlsx") result = true
  /\ (forall f, filename = Some f ->
        result = if endswith (lit ".xlsx") f then f else f ++ lit ".xlsx")
  /\ (filename = None ->
      result = lit "translation_document_" ++ image_name ++ lit "_"
               ++ timestamp ++ lit ".xlsx")
  /\ document_filename (Some result) image_name timestamp = result.
Proof.
  assert (Hends : forall s, endswith (lit ".xlsx") (s ++ lit ".xlsx") = true).
  { intros s. unfold endswith. rewrite rev_app_distr.
    apply startswith_refl_app. }
  assert (Hresult : endswith (lit ".xlsx")
                      (document_filename filename image_name timestamp)
                    = true).
  { unfold document_filename. cbv zeta.
    match goal with
    | |- context [negb (endswith _ ?n)] =>
        destruct (endswith (lit ".xlsx") n) eqn:He
    end; simpl; [exact He | apply Hends]. }
  cbv zeta. split; [exact Hresult |]. split; [| split].
  - intros f ->. unfold document_filename.
    destruct (endswith (lit ".xlsx") f); reflexivity.
  - intros ->. unfold document_filename.
    replace (lit "translation_document_" ++ image_name ++ lit "_"
             ++ timestamp ++ lit ".xlsx")
      with ((lit "translation_document_" ++ image_name ++ lit "_"
             ++ timestamp) ++ lit ".xlsx")
      by (rewrite <- !app_assoc; reflexivity).
    rewrite Hends. reflexivity.
  - unfold document_filename at 1. rewrite Hresult. reflexivity.
Qed.

Lemma document_filename_has_extension_witness :
  document_filename (Some (lit "report")) (lit "page1") (lit "20250131_120000")
  = lit "report.xlsx".
Proof.
  apply (proj1 (proj2 (document_filename_has_extension (Some (lit "report"))
                         (lit "page1") (lit "20250131_120000")))
           (lit "report") eq_refl).
Defined.

(** ** The text between the fences *)

Lemma find_aux_skip (a : N) (sub pre rest : str) :
  (forall c, In c pre -> c <> a) ->
  forall q,
    find_aux (a :: sub) (pre ++ rest) q
    = find_aux (a :: sub) rest (q + length pre).
Proof.
  induction pre as [| c pre IH]; intros Hno q.
  - simpl. rewrite Nat.add_0_r. reflexivity.
  - change ((c :: pre) ++ rest) with (c :: (pre ++ rest)).
    rewrite find_aux_cons.
    assert (Hc : (a =? c)%N = false).
    { apply N.eqb_neq. intros ->. apply (Hno c); [left |]; reflexivity. }
    cbn [startswith]. rewrite Hc. cbn [andb].
    rewrite IH by (intros c0 Hc0; apply Hno; right; exact Hc0).
    simpl. f_equal. lia.
Qed.

Lemma find_aux_here (sub post : str) (q : nat) :
  find_aux sub (sub ++ post) q = Some q.
Proof.
  destruct (sub ++ post) eqn:Heq; simpl.
  - destruct sub; [reflexivity | discriminate].
  - rewrite <- Heq, startswith_refl_app. reflexivity.
Qed.

(** The closing fence after a body without backtick. *)
Lemma find_closing_fence (head body post : str) :
  (forall c, In c body -> c <> 96%N) ->
  find (head ++ body ++ fence ++ post) fence (Z.of_nat (length head))
  = Z.of_nat (length head + length body).
Proof.
  intros Hno.
  rewrite find_from_nat by (rewrite length_app; lia).
  rewrite drop_app_length.
  change fence with (96%N :: [96%N; 96%N]).
  rewrite find_aux_skip by exact Hno.
  change (96%N :: [96%N; 96%N]) with fence.
  rewrite find_aux_here. reflexivity.
Qed.

Lemma slice_body (head body tail : str) :
  slice (head ++ body ++ tail) (Z.of_nat (length head))
    (Z.of_nat (length head + length body)) = body.
Proof.
  rewrite slice_take_drop by (rewrite !length_app; lia).
  rewrite drop_app_length.
  replace (length head + length body - length head)%nat
    with (length body) by lia.
  apply take_app_length.
Qed.

(** X22: for every reply in which the first [```json] marker is
    followed by a body without backtick and a closing fence, the text
    handed to [json.loads] is that body, stripped, whatever stands
    before the marker and after the closing fence. *)
Theorem json_fence_body_is_parsed (pre body post : str) :
  contains json_fence pre = false ->
  (forall c, In c body -> c <> 96%N) ->
  json_text_of (pre ++ json_fence ++ body ++ fence ++ post) = strip body.
Proof.
  intros Hpre Hbody.
  assert (Hnone : find_aux json_fence pre 0 = None).
  { unfold contains in Hpre. rewrite find_from_start in Hpre.
    destruct (find_aux json_fence pre 0); [| reflexivity].
    simpl in Hpre. destruct (Z.eqb_spec (Z.of_nat n) (-1)); [lia |].
    discriminate. }
  set (reply := pre ++ json_fence ++ body ++ fence ++ post).
  assert (Hfind : find reply json_fence 0 = Z.of_nat (length pre)).
  { unfold reply. rewrite find_from_start.
    rewrite (find_aux_json_fence_app pre _ 0%nat 0%nat Hnone). reflexivity. }
  assert (Hc : contains json_fence reply = true).
  { unfold contains. rewrite Hfind.
    destruct (Z.eqb_spec (Z.of_nat (length pre)) (-1)); [lia | reflexivity]. }
  assert (Hreply : reply = (pre ++ json_fence) ++ body ++ fence ++ post)
    by (unfold reply; rewrite <- app_assoc; reflexivity).
  assert (Hlen : Z.of_nat (length pre) + 7
                 = Z.of_nat (length (pre ++ json_fence))).
  { rewrite length_app. change (length json_fence) with 7%nat. lia. }
  assert (Hend : find reply fence (Z.of_nat (length pre) + 7)
                 = Z.of_nat (length (pre ++ json_fence) + length body)).
  { rewrite Hlen, Hreply. apply find_closing_fence. exact Hbody. }
  unfold json_text_of. rewrite Hc, Hfind, Hend.
  destruct (Z.eqb_spec
              (Z.of_nat (length (pre ++ json_fence) + length body)) (-1));
    [lia |].
  simpl negb. cbv iota. rewrite Hlen, Hreply, slice_body. reflexivity.
Qed.

Lemma json_fence_body_is_parsed_witness :
  json_text_of (lit "Result: " ++ json_fence ++ lit " {} " ++ fence
                ++ lit " and ```json again")
  = lit "{}".
Proof.
  apply (json_fence_body_is_parsed (lit "Result: ") (lit " {} ")
           (lit " and ```json again")).
  - vm_compute. reflexivity.
  - intros c Hc. vm_compute in Hc.
    repeat (destruct Hc as [<- | Hc]; [discriminate |]). destruct Hc.
Defined.

Lemma find_aux_occurs (sub pre post : str) (q : nat) :
  find_aux sub (pre ++ sub ++ post) q <> None.
Proof.
  revert q. induction pre as [| c pre IH]; intros q.
  - simpl app. rewrite find_aux_here. discriminate.
  - change ((c :: pre) ++ sub ++ post) with (c :: (pre ++ sub ++ post)).
    rewrite find_aux_cons.
    destruct (startswith sub _); [discriminate | apply IH].
Qed.

Lemma contains_occurrence (sub pre post : str) :
  contains sub (pre ++ sub ++ post) = true.
Proof.
  unfold contains. rewrite find_from_start.
  pose proof (find_aux_occurs sub pre post 0) as Hocc.
  destruct (find_aux sub (pre ++ sub ++ post) 0) as [i |]; [| congruence].
  destruct (Z.eqb_spec (Z.of_nat i) (-1)); [lia | reflexivity].
Qed.

(** X23: a reply without [```json] marker: when it has a plain fence
    (no backtick before it), followed by a body without backtick and a
    closing fence, the text handed to [json.loads] is that body,
    stripped; when it has no fence at all, it is the whole reply,
    stripped. *)
Theorem plain_fence_body_is_parsed (reply : str) :
  contains json_fence reply = false ->
  (forall pre body post,
     reply = pre ++ fence ++ body ++ fence ++ post ->
     (forall c, In c pre -> c <> 96%N) ->
     (forall c, In c body -> c <> 96%N) ->
     json_text_of reply = strip body)
  /\ (contains fence reply = false -> json_text_of reply = strip reply).
Proof.
  intros Hjson. split.
  - intros pre body post Hreply Hpre Hbody.
    assert (Hc : contains fence reply = true)
      by (rewrite Hreply; apply contains_occurrence).
    assert (Hfind : find reply fence 0 = Z.of_nat (length pre)).
    { rewrite Hreply, find_from_start.
      change fence with (96%N :: [96%N; 96%N]).
      rewrite find_aux_skip by exact Hpre.
      change (96%N :: [96%N; 96%N]) with fence.
      rewrite find_aux_here. reflexivity. }
    assert (Hassoc : reply = (pre ++ fence) ++ body ++ fence ++ post)
      by (rewrite Hreply, <- app_assoc; reflexivity).
    assert (Hlen : Z.of_nat (length pre) + 3
                   = Z.of_nat (length (pre ++ fence))).
    { rewrite length_app. change (length fence) with 3%nat. lia. }
    assert (Hend : find reply fence (Z.of_nat (length pre) + 3)
                   = Z.of_nat (length (pre ++ fence) + length body)).
    { rewrite Hlen, Hassoc. apply find_closing_fence. exact Hbody. }
    unfold json_text_of. rewrite Hjson, Hc, Hfind, Hend.
    destruct (Z.eqb_spec
                (Z.of_nat (length (pre ++ fence) + length body)) (-1));
      [lia |].
    simpl negb. cbv iota. rewrite Hlen, Hassoc, slice_body. reflexivity.
  - intros Hfence. unfold json_text_of. rewrite Hjson, Hfence. reflexivity.
Qed.

Lemma plain_fence_body_is_parsed_witness :
  json_text_of (lit "Here: " ++ fence ++ lit " [1] " ++ fence ++ lit " end")
  = lit "[1]".
Proof.
  apply (proj1 (plain_fence_body_is_parsed
                  (lit "Here: " ++ fence ++ lit " [1] " ++ fence
                   ++ lit " end")
                  ltac:(vm_compute; reflexivity))
           (lit "Here: ") (lit " [1] ") (lit " end") eq_refl).
  - intros c Hc. vm_compute in Hc.
    repeat (destruct Hc as [<- | Hc]; [discriminate |]). destruct Hc.
  - intros c Hc. vm_compute in Hc.
    repeat (destruct Hc as [<- | Hc]; [discriminate |]). destruct Hc.
Defined.

(** ** [strip] leaves nothing to strip *)

Lemma lstrip_idem (s : str) : lstrip (lstrip s) = lstrip s.
Proof.
  induction s as [| a s IH]; [reflexivity |].
  simpl. destruct (isspace a) eqn:Ha; [exact IH |].
  simpl. rewrite Ha. reflexivity.
Qed.

Lemma lstrip_fixed (c : N) (s : str) :
  isspace c = false -> lstrip (c :: s) = c :: s.
Proof. intros Hc. simpl. rewrite Hc. reflexivity. Qed.

Lemma rstrip_prefix (u : str) : exists suffix, u = rstrip u ++ suffix.
Proof.
  unfold rstrip. destruct (lstrip_suffix (rev u)) as [pre Hpre].
  exists (rev pre).
  rewrite <- rev_app_distr, <- Hpre, rev_involutive. reflexivity.
Qed.

Lemma strip_idempotent (s : str) : strip (strip s) = strip s.
Proof.
  unfold strip. set (u := lstrip s).
  assert (Hl : lstrip (rstrip u) = rstrip u).
  { destruct (rstrip u) as [| c t] eqn:Ht; [reflexivity |].
    apply lstrip_fixed.
    destruct (rstrip_prefix u) as [suffix Hu]. rewrite Ht in Hu.
    apply (lstrip_head_not_space s c (t ++ suffix)). exact Hu. }
  rewrite Hl. unfold rstrip. rewrite rev_involutive, lstrip_idem. reflexivity.
Qed.

Lemma strip_ends_not_space (s : str) :
  (forall c, head (strip s) = Some c -> isspace c = false)
  /\ (forall c, last (strip s) = Some c -> isspace c = false).
Proof.
  split; intros c Hc.
  - destruct (strip s) as [| c0 t] eqn:Hs; [discriminate |].
    injection Hc as ->.
    assert (Hfix : strip (c :: t) = c :: t)
      by (rewrite <- Hs; apply strip_idempotent).
    unfold strip in Hfix.
    destruct (rstrip_prefix (lstrip (c :: t))) as [suffix Hu].
    rewrite Hfix in Hu.
    apply (lstrip_head_not_space (c :: t) c (t ++ suffix)). exact Hu.
  - unfold strip, rstrip in Hc.
    destruct (lstrip (rev (lstrip s))) as [| c0 t] eqn:Hl; [discriminate |].
    simpl in Hc. rewrite last_snoc in Hc. injection Hc as ->.
    exact (lstrip_head_not_space _ _ _ Hl).
Qed.

(** X24: the text handed to [json.loads] is always stripped: stripping
    it again changes nothing, and neither its first nor its last
    character is white space. *)
Theorem json_text_is_stripped (claude_response : str) :
  strip (json_text_of claude_response) = json_text_of claude_response
  /\ (forall c, head (json_text_of claude_response) = Some c ->
        isspace c = false)
  /\ (forall c, last (json_text_of claude_response) = Some c ->
        isspace c = false).
Proof.
  assert (Hshape : exists s, json_text_of claude_response = strip s).
  { unfold json_text_of.
    repeat match goal with
           | |- context [if ?b then _ else _] => destruct b
           end; eexists; reflexivity. }
  destruct Hshape as [s ->].
  split; [apply strip_idempotent | apply strip_ends_not_space].
Qed.

(** ** From the reply to the rows *)

Lemma strip_nonspace_head (c : N) (s : str) :
  isspace c = false -> strip (c :: s) <> [].
Proof.
  intros Hc Hs. pose proof (strip_nil_all_space _ Hs c (or_introl eq_refl)).
  congruence.
Qed.

Lemma all_str_map_PStr (texts : list str) :
  all_str (map PStr texts) = Some texts.
Proof.
  induction texts as [| t texts IH]; [reflexivity |].
  simpl. rewrite IH. reflexivity.
Qed.

Section Composition.

Variable json_loads : str -> result PyVal.
Variable py_str : PyVal -> str.

(** The text of a group built by step 4. *)
Lemma labelled_group_text (category : str) (texts : list str) :
  group_text_of py_str
    (PDict [(lit "category", PStr category);
            (lit "texts", PList (map PStr texts))])
  = inr (lit "[" ++ category ++ lit "]" ++ newline ++ join newline texts).
Proof.
  simpl. unfold dict_group_text, dict_get, str_eqb.
  rewrite (bool_decide_eq_true_2 (lit "category" = lit "category"))
    by reflexivity.
  rewrite (bool_decide_eq_false_2 (lit "category" = lit "texts"))
    by (vm_compute; discriminate).
  rewrite (bool_decide_eq_true_2 (lit "texts" = lit "texts")) by reflexivity.
  unfold py_join. rewrite all_str_map_PStr. simpl format_value.
  rewrite <- !app_assoc. reflexivity.
Qed.

Lemma labelled_group_has_text (category : str) (texts : list str) :
  strip (lit "[" ++ category ++ lit "]" ++ newline ++ join newline texts)
  <> [].
Proof. apply (strip_nonspace_head 91%N). reflexivity. Qed.

(** The rows when every group has a text that is not blank. *)
Lemma format_rows_all_kept (source_language target_language : str)
    (text_of : PyVal -> str) (groups : list PyVal) :
  (forall g, In g groups ->
     group_text_of py_str g = inr (text_of g) /\ strip (text_of g) <> []) ->
  forall i acc,
    format_rows py_str source_language target_language i groups acc
    = inr (acc ++ imap (fun j g => make_row source_language target_language
                                     (i + j) g (text_of g)) groups).
Proof.
  induction groups as [| g rest IH]; intros Hall i acc.
  - simpl. rewrite app_nil_r. reflexivity.
  - destruct (Hall g (or_introl eq_refl)) as [Hg Hne].
    simpl format_rows. rewrite Hg. unfold str_eqb.
    rewrite bool_decide_eq_false_2 by exact Hne. simpl negb. cbv iota.
    rewrite IH by (intros g0 Hg0; apply Hall; right; exact Hg0).
    rewrite <- app_assoc. simpl. rewrite Nat.add_0_r.
    do 3 f_equal. apply imap_ext. intros j x _. simpl. f_equal. lia.
Qed.

(** X25: a reply that parses as a list of [n] lists of strings gives a
    document of exactly [n] rows, in the order of the lists: row [i] has
    the ID 'T' followed by [i] on three digits, the category
    'Group <i>', and as original text the line '[Group <i>]' followed by
    the strings of the list, one per line. *)
Theorem list_reply_gives_one_row_per_list (reply : str)
    (parsed : list (list str)) :
  reply <> [] -> strip reply <> [] ->
  json_loads (json_text_of reply)
  = inr (PList (map (fun texts => PList (map PStr texts)) parsed)) ->
  exists groups rows,
    group_and_format json_loads py_str (Some reply) = inr (PList groups, rows)
    /\ length groups = length parsed
    /\ length rows = length parsed
    /\ forall i texts,
         parsed !! i = Some texts ->
         exists row,
           rows !! i = Some row
           /\ dict_get row (lit "ID")
              = Some (PStr (lit "T" ++ format_03d (S i)))
           /\ dict_get row (lit "Category")
              = Some (PStr (lit "Group " ++ str_of_nat (i + 1)))
           /\ dict_get row (lit "Original_Text_Korean")
              = Some (PStr (strip (lit "[Group " ++ str_of_nat (i + 1)
                                   ++ lit "]" ++ newline
                                   ++ join newline texts)))
           /\ dict_get row (lit "Status") = Some (PStr (lit "Pending")).
Proof.
  intros Hne Hstrip Hparse.
  set (lists := map (fun texts => PList (map PStr texts)) parsed) in *.
  set (groups := imap numbered_group lists).
  set (text_of := fun g : PyVal =>
                    match group_text_of py_str g with
                    | inr t => t
                    | inl _ => []
                    end).
  assert (Hgroups : forall j g,
            groups !! j = Some g ->
            exists texts,
              parsed !! j = Some texts
              /\ g = numbered_group j (PList (map PStr texts))).
  { intros j g Hg. unfold groups in Hg. rewrite list_lookup_imap in Hg.
    unfold lists in Hg. rewrite list_lookup_fmap in Hg.
    destruct (parsed !! j) as [texts |]; [| discriminate].
    injection Hg as <-. eauto. }
  assert (Hall : forall g, In g groups ->
            group_text_of py_str g = inr (text_of g)
            /\ strip (text_of g) <> []).
  { intros g Hg. apply list_elem_of_In, list_elem_of_lookup in Hg as [j Hj].
    destruct (Hgroups _ _ Hj) as (texts & _ & ->).
    unfold text_of, numbered_group.
    rewrite labelled_group_text. split; [reflexivity |].
    apply labelled_group_has_text. }
  exists groups, (imap (fun j g => make_row (lit "Korean") (lit "English")
                                     (1 + j) g (text_of g)) groups).
  split.
  { unfold group_and_format, extract_groups, str_eqb.
    rewrite !bool_decide_eq_false_2 by assumption. simpl orb. cbv iota.
    rewrite Hparse. fold groups. simpl py_len. simpl py_iter. cbv iota.
    unfold format_translation_document.
    rewrite (format_rows_all_kept _ _ text_of groups Hall). reflexivity. }
  split; [unfold groups, lists; rewrite length_imap, length_map; reflexivity |].
  split; [unfold groups, lists;
          rewrite !length_imap, length_map; reflexivity |].
  intros i texts Hi.
  assert (Hg : groups !! i = Some (numbered_group i (PList (map PStr texts)))).
  { unfold groups. rewrite list_lookup_imap. unfold lists.
    rewrite list_lookup_fmap, Hi. reflexivity. }
  eexists. split.
  { rewrite list_lookup_imap, Hg. reflexivity. }
  unfold text_of, numbered_group. rewrite labelled_group_text.
  unfold make_row, field_of, dict_get, str_eqb.
  repeat split;
    repeat (rewrite bool_decide_eq_false_2 by (vm_compute; discriminate));
    rewrite bool_decide_eq_true_2 by reflexivity;
    reflexivity.
Qed.

(** X26: when the reply cannot be parsed, or is blank or missing, the
    document has exactly one row, with the ID 'T001' and the category
    'General'; its original text is the line '[General]' followed by
    the reply as received, or by the placeholder for a blank reply. *)
Theorem fallback_gives_one_general_row (claude_response : option str) :
  let fallback text :=
    inr (PList [general_group [PStr text]],
         [make_row (lit "Korean") (lit "English") 1
            (general_group [PStr text])
            (lit "[General]" ++ newline ++ text)]) in
  (forall reply, claude_response = Some reply ->
     reply <> [] -> strip reply <> [] ->
     json_loads (json_text_of reply) = inl JSONDecodeError ->
     group_and_format json_loads py_str claude_response = fallback reply)
  /\ (claude_response = None
      \/ (exists reply, claude_response = Some reply /\ strip reply = []) ->
      group_and_format json_loads py_str claude_response
      = fallback no_response).
Proof.
  assert (Hone : forall text,
            format_translation_document py_str [general_group [PStr text]]
              (lit "Korean") (lit "English")
            = inr [make_row (lit "Korean") (lit "English") 1
                     (general_group [PStr text])
                     (lit "[General]" ++ newline ++ text)]).
  { intros text. unfold format_translation_document, general_group.
    cbn [format_rows]. change [PStr text] with (map PStr [text]).
    rewrite (labelled_group_text (lit "General") [text]).
    unfold str_eqb.
    rewrite bool_decide_eq_false_2
      by (apply (labelled_group_has_text (lit "General") [text])).
    reflexivity. }
  cbv zeta. split.
  - intros reply -> Hne Hstrip Hparse.
    unfold group_and_format, extract_groups, str_eqb.
    rewrite !bool_decide_eq_false_2 by assumption. simpl orb. cbv iota.
    rewrite Hparse. simpl py_len. simpl py_iter. cbv iota.
    rewrite Hone. reflexivity.
  - intros [-> | (reply & -> & Hblank)];
      unfold group_and_format, extract_groups, str_eqb.
    + simpl py_len. simpl py_iter. cbv iota. rewrite Hone. reflexivity.
    + rewrite Hblank, (bool_decide_eq_true_2 ([] = [])) by reflexivity.
      rewrite orb_true_r. simpl py_len. simpl py_iter. cbv iota.
      rewrite Hone. reflexivity.
Qed.

End Composition.

Lemma json_text_is_stripped_witness :
  isspace 91%N = false.
Proof.
  apply (proj1 (proj2 (json_text_is_stripped
                         (lit "  " ++ fence ++ lit " [1] " ++ fence)))
           91%N).
  vm_compute. reflexivity.
Defined.

Lemma list_reply_gives_one_row_per_list_witness :
  exists groups rows,
    group_and_format Ref.json_loads Ref.py_str
      (Some (lit "Here are the groups: " ++ fenced_block)) = inr (PList groups, rows)
    /\ length groups = 2%nat
    /\ length rows = 2%nat.
Proof.
  destruct (list_reply_gives_one_row_per_list Ref.json_loads Ref.py_str
              (lit "Here are the groups: " ++ fenced_block)
              [[lit "a"]; [lit "b"]])
    as (groups & rows & Hrun & Hg & Hr & _).
  - vm_compute. discriminate.
  - vm_compute. discriminate.
  - vm_compute. reflexivity.
  - exists groups, rows. auto.
Defined.

Lemma fallback_gives_one_general_row_witness :
  group_and_format Ref.json_loads Ref.py_str (Some (lit "I found no text."))
  = inr (PList [general_group [PStr (lit "I found no text.")]],
         [make_row (lit "Korean") (lit "English") 1
            (general_group [PStr (lit "I found no text.")])
            (lit "[General]" ++ newline ++ lit "I found no text.")]).
Proof.
  apply (proj1 (fallback_gives_one_general_row Ref.json_loads Ref.py_str
                  (Some (lit "I found no text.")))
           (lit "I found no text.") eq_refl).
  - vm_compute. discriminate.
  - vm_compute. discriminate.
  - vm_compute. reflexivity.
Defined.

(** ** The identifiers of the rows *)






Section RowIdentifiers.

Variable py_str : PyVal -> str.
Variables source_language target_language : str.





End RowIdentifiers.


Section HandoffFacts.

Variable json_loads : str -> result PyVal.
Variable py_str : PyVal -> str.

(** X28: the value under 'groups' of a parsed object is taken as the
    groups without any check: when it is a number, a boolean or [null],
    the pipeline raises a [TypeError] and produces no document; when the
    object has no key 'groups', the printed form of the whole object
    becomes the text of a single group 'General'. *)
Theorem groups_value_is_not_checked (reply : str)
    (parsed_result : list (str * PyVal)) :
  reply <> [] -> strip reply <> [] ->
  json_loads (json_text_of reply) = inr (PDict parsed_result) ->
  (forall groups,
     dict_get parsed_result (lit "groups") = Some groups ->
     extract_groups json_loads py_str (Some reply) = inr groups
     /\ (py_len groups = inl TypeError ->
         group_and_format json_loads py_str (Some reply) = inl TypeError))
  /\ (dict_get parsed_result (lit "groups") = None ->
      extract_groups json_loads py_str (Some reply)
      = inr (PList [general_group [PStr (py_str (PDict parsed_result))]])).
Proof.
  intros Hne Hstrip Hparse.
  assert (Hstep : extract_groups json_loads py_str (Some reply)
                  = match dict_get parsed_result (lit "groups") with
                    | Some groups => inr groups
                    | None =>
                        inr (PList [general_group
                                      [PStr (py_str (PDict parsed_result))]])
                    end).
  { unfold extract_groups, str_eqb.
    rewrite !bool_decide_eq_false_2 by assumption. simpl orb. cbv iota.
    rewrite Hparse. reflexivity. }
  split.
  - intros groups Hg. rewrite Hg in Hstep. split; [exact Hstep |].
    intros Hlen. unfold group_and_format. rewrite Hstep, Hlen. reflexivity.
  - intros Hnone. rewrite Hnone in Hstep. exact Hstep.
Qed.

End HandoffFacts.

Lemma groups_value_is_not_checked_witness :
  group_and_format Ref.json_loads Ref.py_str
    (Some (lit "{ " ++ [quote] ++ lit "groups" ++ [quote] ++ lit ": 5 }"))
  = inl TypeError.
Proof.
  apply (proj1 (groups_value_is_not_checked Ref.json_loads Ref.py_str
                  (lit "{ " ++ [quote] ++ lit "groups" ++ [quote]
                   ++ lit ": 5 }")
                  [(lit "groups", PInt 5)]
                  ltac:(vm_compute; discriminate)
                  ltac:(vm_compute; discriminate)
                  ltac:(vm_compute; reflexivity))
           (PInt 5) eq_refl).
  reflexivity.
Defined.
